(** * KNN training flow: the notebook's tasks and flow, and the orchestration
      core they are run by.

    Source: Module 5 - MLOPs / 4. Orchestrate ML Pipeline /
    workflow_orchestration.ipynb.

    The notebook defines six work units ([load_data], [split_inputs_output],
    [split_train_test], [preprocess_data], [train_model], [evaluate_model]),
    a plain [workflow(data_path)] and a decorated, parameterless
    [workflow()] registered as "KNN Training Flow".  The tasks are embedded
    as functions over a universal Python value type; the calls they make
    into pandas and scikit-learn are modelled after the documented behaviour
    of those libraries, with the random permutation, the k-nearest
    neighbour vote and the reading of text as a float left as
    parameters. *)

From Stdlib Require Import List String Ascii ZArith QArith Qminmax Qround Lia Bool Arith.
From Stdlib Require Import Permutation Qabs Lqa.
Import ListNotations.

Local Open Scope string_scope.
Local Open Scope list_scope.

(* ===================================================================== *)
(** ** Exceptions and results *)
(* ===================================================================== *)

(** The exceptions the notebook's calls raise.  A [KeyError] carries the
    label looked up; for a list of labels pandas raises it with one of two
    messages: "None of [key] are in the [columns]" when no label of the
    key is a column, and "[missing] not in index" otherwise. *)
Inductive Exc : Type :=
| FileNotFoundError (path : string)
| KeyError (key : string)
| KeyErrorNoneInColumns (key : list string)
| KeyErrorNotInIndex (missing : list string)
| ValueError (msg : string)
| TypeError (msg : string)
| NotFittedError.

Inductive Result (A : Type) : Type :=
| Ok (a : A)
| Err (e : Exc).
Arguments Ok {A} a.
Arguments Err {A} e.

Definition rbind {A B} (r : Result A) (f : A -> Result B) : Result B :=
  match r with
  | Ok a => f a
  | Err e => Err e
  end.

Notation "x <- c1 ;; c2" := (rbind c1 (fun x => c2))
  (at level 61, c1 at next level, right associativity).
Notation "' pat <- c1 ;; c2" :=
  (rbind c1 (fun x => match x with pat => c2 end))
  (at level 61, pat pattern, c1 at next level, right associativity).

Definition is_ok {A} (r : Result A) : bool :=
  match r with Ok _ => true | Err _ => false end.

Fixpoint rmap {A B} (f : A -> Result B) (l : list A) : Result (list B) :=
  match l with
  | [] => Ok []
  | a :: l' => b <- f a ;; bs <- rmap f l' ;; Ok (b :: bs)
  end.

(* ===================================================================== *)
(** ** Data: tables, series, arrays *)
(* ===================================================================== *)

(** A CSV cell is a number or text (iris: four measurements and a species
    name).  Floats are carried as exact rationals; rounding is not
    modelled, and neither are cells left empty (pandas' NaN). *)
Inductive Cell : Type :=
| CNum (q : Q)
| CStr (s : string).

Definition Cell_eqb (a b : Cell) : bool :=
  match a, b with
  | CNum x, CNum y => Qeq_bool x y
  | CStr s, CStr t => String.eqb s t
  | _, _ => false
  end.

(** A table: column labels and rows of cells.  [pd.read_csv] makes the
    column labels distinct; selection by a repeated label, where pandas
    returns every column carrying it, is outside the model, and the
    statements below that depend on what a label selects ask for distinct
    labels. *)
Record DataFrame : Type := mkFrame {
  columns : list string;
  rows : list (list Cell)
}.

Definition Series : Type := list Cell.
Definition ndarray : Type := list (list Q).

Fixpoint index_of (name : string) (cols : list string) : option nat :=
  match cols with
  | [] => None
  | c :: cols' =>
      if String.eqb c name then Some 0%nat
      else option_map S (index_of name cols')
  end.

Definition column_index (df : DataFrame) (name : string) : Result nat :=
  match index_of name (columns df) with
  | Some i => Ok i
  | None => Err (KeyError name)
  end.

(** [data[output]] with a single label: one column as a Series. *)
Definition getitem_label (df : DataFrame) (name : string) : Result Series :=
  i <- column_index df name ;;
  Ok (map (fun r => nth i r (CStr "")) (rows df)).

Definition has_column (df : DataFrame) (name : string) : bool :=
  match index_of name (columns df) with
  | Some _ => true
  | None => false
  end.

(** The distinct elements of a list, in the order of their first
    occurrence ([Index.unique]). *)
Fixpoint unique (l : list string) : list string :=
  match l with
  | [] => []
  | x :: l' => x :: filter (fun y => negb (String.eqb x y)) (unique l')
  end.

(** The requested labels that are not columns of the table. *)
Definition missing_labels (df : DataFrame) (names : list string)
  : list string :=
  unique (filter (fun name => negb (has_column df name)) names).

(** [Index._raise_if_missing]: when labels of the key are missing, one
    [KeyError] is raised for all of them. *)
Definition raise_if_missing (df : DataFrame) (names : list string)
  : Result unit :=
  match missing_labels df names with
  | [] => Ok tt
  | name :: others =>
      if forallb (fun n => negb (has_column df n)) names
      then Err (KeyErrorNoneInColumns names)
      else Err (KeyErrorNotInIndex (name :: others))
  end.

(** [data[inputs]] with a list of labels: the sub-table of those
    columns. *)
Definition getitem_labels (df : DataFrame) (names : list string)
  : Result DataFrame :=
  _ <- raise_if_missing df names ;;
  idx <- rmap (column_index df) names ;;
  Ok (mkFrame names
        (map (fun r => map (fun i => nth i r (CStr "")) idx) (rows df))).

(** Positional row selection ([iloc]); indices come from a permutation of
    [0 .. n-1]. *)
Definition take {A} (idx : list nat) (l : list A) : list A :=
  flat_map (fun i => match nth_error l i with
                     | Some a => [a]
                     | None => []
                     end) idx.

Definition frame_take (idx : list nat) (df : DataFrame) : DataFrame :=
  mkFrame (columns df) (take idx (rows df)).

(* ===================================================================== *)
(** ** What the model takes from Python, numpy and scikit-learn as given *)
(* ===================================================================== *)

(** A float64 value: a finite number, carried exactly, or one of [inf],
    [-inf] and [nan]. *)
Inductive Float64 : Type :=
| Finite (q : Q)
| NonFinite.

(** The pseudo-random generator behind [train_test_split], the neighbour
    vote behind [KNeighborsClassifier.predict] and Python's reading of text
    as a float are not part of the notebook.  [permutation rng n] is
    numpy's [rng.permutation(n)]: a permutation of [0 .. n-1] and the
    generator's next state.  [kneighbors_vote k p X y x] is the label the
    classifier fitted on [X], [y] gives to the single sample [x]: one of
    the labels it was fitted on.  [float_of_text s] is what [float(s)]
    returns, as numpy applies it when a column of text is converted: a
    finite number, or one of [inf], [-inf] and [nan]; it is [None] when
    [float(s)] raises [ValueError]. *)
Class Backend : Type := {
  RandomState : Type;
  RandomState_seed : Z -> RandomState;
  permutation : RandomState -> nat -> list nat * RandomState;
  permutation_spec :
    forall rng n, Permutation (fst (permutation rng n)) (seq 0 n);
  kneighbors_vote : Z -> Z -> ndarray -> Series -> list Q -> Cell;
  kneighbors_vote_spec :
    forall k p X y x,
      (0 < k <= Z.of_nat (List.length X))%Z ->
      List.length y = List.length X ->
      In (kneighbors_vote k p X y x) y;
  float_of_text : string -> option Float64
}.

(** Conversion of a table to a float array, as scikit-learn's input
    validation does: every cell is converted, a text cell with [float()],
    and text it does not accept is rejected; then an array holding [inf]
    or [nan] is rejected, and then one with no sample or no feature. *)
Definition conversion_error : Exc :=
  ValueError "could not convert string to float".

Definition non_finite_error : Exc :=
  ValueError "Input contains NaN or infinity".

Definition cell_to_float {B : Backend} (c : Cell) : Result Float64 :=
  match c with
  | CNum q => Ok (Finite q)
  | CStr s =>
      match float_of_text s with
      | Some x => Ok x
      | None => Err conversion_error
      end
  end.

Definition assert_finite (x : Float64) : Result Q :=
  match x with
  | Finite q => Ok q
  | NonFinite => Err non_finite_error
  end.

Definition check_array (m : ndarray) : Result ndarray :=
  match m with
  | [] => Err (ValueError "Found array with 0 sample(s)")
  | [] :: _ => Err (ValueError "Found array with 0 feature(s)")
  | _ => Ok m
  end.

Definition frame_to_array {B : Backend} (df : DataFrame) : Result ndarray :=
  cells <- rmap (rmap cell_to_float) (rows df) ;;
  m <- rmap (rmap assert_finite) cells ;;
  check_array m.

(* ===================================================================== *)
(** ** scikit-learn: MinMaxScaler *)
(* ===================================================================== *)

(** Column-wise fold of a non-empty array ([np.min]/[np.max] along axis 0). *)
Fixpoint zip_with {A} (f : A -> A -> A) (a b : list A) : list A :=
  match a, b with
  | x :: a', y :: b' => f x y :: zip_with f a' b'
  | _, _ => []
  end.

Definition col_fold (f : Q -> Q -> Q) (m : ndarray) : list Q :=
  match m with
  | [] => []
  | r :: m' => fold_left (zip_with f) m' r
  end.

(** A scaler object: unfitted, or holding [scale_] and [min_], and the
    column labels it was fitted on ([feature_names_in_]). *)
Record MinMaxScaler : Type := mkScaler {
  fitted : option (list Q * list Q);
  feature_names_in : list string
}.

Definition MinMaxScaler_new : MinMaxScaler := mkScaler None [].

(** [_handle_zeros_in_scale]: a constant or nearly constant feature, one
    whose range is below ten machine epsilons of float64, is scaled by 1.
    The arithmetic of the scaler is exact here; what is stated below about
    scaled values is what float rounding leaves as it is. *)
Definition float64_eps : Q := 1 # 4503599627370496.

Definition handle_zeros_in_scale (range : Q) : Q :=
  if Qle_bool (10 * float64_eps) range then range else 1%Q.

Definition scaler_fit (X : ndarray) : list Q * list Q :=
  let data_min := col_fold Qmin X in
  let data_max := col_fold Qmax X in
  let scale :=
    zip_with (fun mx mn => (1 / handle_zeros_in_scale (mx - mn))%Q)
             data_max data_min in
  let min_ := zip_with (fun mn s => (0 - mn * s)%Q) data_min scale in
  (scale, min_).

Definition scale_row (params : list Q * list Q) (r : list Q) : list Q :=
  zip_with Qplus (zip_with Qmult r (fst params)) (snd params).

Definition scaler_apply (params : list Q * list Q) (X : ndarray)
  : Result ndarray :=
  if forallb (fun r => (List.length r =? List.length (fst params))%nat) X
  then Ok (map (scale_row params) X)
  else Err (ValueError "X has a different number of features than fitted").

(** [scaler.fit_transform(X)]: fit on [X], remember the parameters, return
    [X] transformed. *)
Definition fit_transform {B : Backend} (s : MinMaxScaler) (X : DataFrame)
  : Result (ndarray * MinMaxScaler) :=
  m <- frame_to_array X ;;
  let params := scaler_fit m in
  out <- scaler_apply params m ;;
  Ok (out, mkScaler (Some params) (columns X)).

(** [_check_feature_names]: the column labels of [X] are compared with
    those seen at fit.  A table without columns has no feature names, and
    neither has a scaler fitted on such a table; nothing is compared
    then. *)
Definition check_feature_names (s : MinMaxScaler) (X : DataFrame)
  : Result unit :=
  match columns X, feature_names_in s with
  | [], _ => Ok tt
  | _, [] => Ok tt
  | names, seen =>
      if list_eq_dec string_dec names seen then Ok tt
      else Err (ValueError
                  "The feature names should match those passed during fit")
  end.

(** [scaler.transform(X)]: apply the remembered parameters; the scaler is
    not changed.  The column labels are checked before anything else is
    looked at. *)
Definition transform {B : Backend} (s : MinMaxScaler) (X : DataFrame)
  : Result ndarray :=
  match fitted s with
  | None => Err NotFittedError
  | Some params =>
      _ <- check_feature_names s X ;;
      m <- frame_to_array X ;;
      scaler_apply params m
  end.

(* ===================================================================== *)
(** ** scikit-learn: accuracy_score *)
(* ===================================================================== *)

Fixpoint count_equal (a b : Series) : nat :=
  match a, b with
  | x :: a', y :: b' =>
      ((if Cell_eqb x y then 1 else 0) + count_equal a' b')%nat
  | _, _ => 0%nat
  end.

(** Class labels are text, or whole numbers; a column with a fractional
    number is a continuous target, which neither [fit] nor
    [accuracy_score] accepts.  Labels and predictions of different kinds
    are refused here as well; what scikit-learn does with them is not
    relied upon. *)
Definition is_text (c : Cell) : bool :=
  match c with
  | CStr _ => true
  | CNum _ => false
  end.

Definition is_whole (c : Cell) : bool :=
  match c with
  | CNum q => Qeq_bool q (inject_Z (Qfloor q))
  | CStr _ => false
  end.

Definition class_labels (y : Series) : bool :=
  forallb is_text y || forallb is_whole y.

(** Fraction of positions where prediction and label agree.  Inputs of
    different lengths are rejected; [predict] never hands over an empty
    prediction, so the empty case is an error here. *)
Definition accuracy_score (y_true y_pred : Series) : Result Q :=
  if negb (List.length y_true =? List.length y_pred)%nat
  then Err (ValueError "inconsistent numbers of samples")
  else match List.length y_true with
       | O => Err (ValueError "Found array with 0 sample(s)")
       | S n' =>
           if class_labels (y_true ++ y_pred)
           then Ok (Z.of_nat (count_equal y_true y_pred)
                      # Pos.of_succ_nat n')
           else Err (ValueError
                       "Classification metrics cannot handle these targets")
       end.

(* ===================================================================== *)
(** ** scikit-learn: KNeighborsClassifier *)
(* ===================================================================== *)

Record KNeighborsClassifier : Type := mkKNN {
  n_neighbors : Z;
  p : Z;
  fit_X : option ndarray;
  fit_y : Series
}.

(* ===================================================================== *)
(** ** Python values *)
(* ===================================================================== *)

(** What flows between the flow body and the tasks.  [VFuture n path] is
    the placeholder for the result of task invocation [n] (or for the
    component of it reached by [path], a list of (index, length) steps)
    handed out while a flow is traced. *)
#[local] Set Warnings "-register-all".
Inductive Value : Type :=
| VNone
| VStr (s : string)
| VInt (z : Z)
| VFloat (q : Q)
| VList (l : list Value)
| VTuple (l : list Value)
| VDict (d : list (string * Value))
| VFrame (df : DataFrame)
| VSeries (s : Series)
| VArray (m : ndarray)
| VModel (m : KNeighborsClassifier)
| VFuture (node : nat) (path : list (nat * nat)).

Definition as_str (v : Value) : Result string :=
  match v with
  | VStr s => Ok s
  | _ => Err (TypeError "expected str")
  end.

Definition as_str_list (v : Value) : Result (list string) :=
  match v with
  | VList l => rmap as_str l
  | _ => Err (TypeError "expected list of labels")
  end.

Definition as_frame (v : Value) : Result DataFrame :=
  match v with
  | VFrame df => Ok df
  | _ => Err (TypeError "expected DataFrame")
  end.

Definition as_series (v : Value) : Result Series :=
  match v with
  | VSeries s => Ok s
  | _ => Err (TypeError "expected Series")
  end.

Definition as_array (v : Value) : Result ndarray :=
  match v with
  | VArray m => Ok m
  | _ => Err (TypeError "expected ndarray")
  end.

Definition as_model (v : Value) : Result KNeighborsClassifier :=
  match v with
  | VModel m => Ok m
  | _ => Err (TypeError "expected estimator")
  end.

Definition as_dict (v : Value) : Result (list (string * Value)) :=
  match v with
  | VDict d => Ok d
  | _ => Err (TypeError "keyword argument unpacking needs a mapping")
  end.

(** [test_size] is a fraction (float) or an absolute count (int). *)
Inductive TestSize : Type :=
| TestFraction (q : Q)
| TestCount (k : Z).

(** Number of test samples among [n]: the fraction rounded up, or the
    count itself; values outside the open range are rejected.  The product
    is exact here; in float arithmetic it can round across an integer for
    a fraction that is not a binary one, which the default 0.25 is. *)
Definition n_test_of (test_size : TestSize) (n : nat) : Result nat :=
  match test_size with
  | TestFraction q =>
      if Qlt_le_dec 0 q then
        if Qlt_le_dec q 1 then
          Ok (Z.to_nat (Qceiling (q * inject_Z (Z.of_nat n))))
        else Err (ValueError "test_size out of range")
      else Err (ValueError "test_size out of range")
  | TestCount k =>
      if ((0 <? k) && (k <? Z.of_nat n))%Z then Ok (Z.to_nat k)
      else Err (ValueError "test_size out of range")
  end.

Section Pipeline.

Context {B : Backend}.

(** The part of the process state the notebook's code can observe or
    change: the files [pd.read_csv] reads, numpy's global generator (used
    when [random_state] is [None]) and what [print] has written. *)
Record World : Type := mkWorld {
  fs : string -> option DataFrame;
  np_random : RandomState;
  stdout : list (list Value)
}.

(* --------------------------------------------------------------------- *)
(** *** pandas / scikit-learn entry points used by the tasks *)
(* --------------------------------------------------------------------- *)

(** [pd.read_csv(file_path)].  A file holds a table; decoding of the CSV
    text is pandas' business and is not modelled. *)
Definition read_csv (w : World) (file_path : string) : Result DataFrame :=
  match fs w file_path with
  | Some df => Ok df
  | None => Err (FileNotFoundError file_path)
  end.

(** [check_random_state]: an integer seeds a fresh generator, [None] is the
    global one. *)
Definition check_random_state (random_state : option Z) (global : RandomState)
  : RandomState :=
  match random_state with
  | Some seed => RandomState_seed seed
  | None => global
  end.

(** [train_test_split(X, y, test_size=.., random_state=..)] with shuffling:
    the first [n_test] indices of the permutation are the test rows, the
    following [n_train] the train rows.  Returns the list
    [X_train, X_test, y_train, y_test] and the global generator's state. *)
Definition train_test_split (X : DataFrame) (y : Series)
    (test_size : TestSize) (random_state : option Z) (global : RandomState)
  : Result (list Value) * RandomState :=
  let n := List.length (rows X) in
  if negb (List.length y =? n)%nat
  then (Err (ValueError "inconsistent numbers of samples"), global)
  else
    match n_test_of test_size n with
    | Err e => (Err e, global)
    | Ok n_test =>
        let n_train := (n - n_test)%nat in
        if (n_train =? 0)%nat
        then (Err (ValueError "the resulting train set will be empty"),
              global)
        else
          let rng := check_random_state random_state global in
          let '(perm, rng') := permutation rng n in
          let ind_test := firstn n_test perm in
          let ind_train := firstn n_train (skipn n_test perm) in
          (Ok [VFrame (frame_take ind_train X);
               VFrame (frame_take ind_test X);
               VSeries (take ind_train y);
               VSeries (take ind_test y)],
           match random_state with
           | Some _ => global
           | None => rng'
           end)
    end.

(** The classifier constructed from the [hyperparameters] dictionary,
    unpacked as keyword arguments.  Only the two keywords the
    notebook passes are modelled; the defaults are scikit-learn's. *)
Fixpoint KNeighborsClassifier_init (kwargs : list (string * Value))
    (clf : KNeighborsClassifier) : Result KNeighborsClassifier :=
  match kwargs with
  | [] => Ok clf
  | (key, v) :: kwargs' =>
      match v with
      | VInt z =>
          if String.eqb key "n_neighbors"
          then KNeighborsClassifier_init kwargs'
                 (mkKNN z (p clf) (fit_X clf) (fit_y clf))
          else if String.eqb key "p"
          then KNeighborsClassifier_init kwargs'
                 (mkKNN (n_neighbors clf) z (fit_X clf) (fit_y clf))
          else Err (TypeError "unexpected keyword argument")
      | _ => Err (TypeError "unexpected keyword argument")
      end
  end.

Definition KNeighborsClassifier_default : KNeighborsClassifier :=
  mkKNN 5 2 None [].

(** [clf.fit(X, y)]: the hyperparameters are validated, then the data,
    then the kind of the labels; the training set is stored. *)
Definition knn_fit (clf : KNeighborsClassifier) (X : ndarray) (y : Series)
  : Result KNeighborsClassifier :=
  if (n_neighbors clf <=? 0)%Z
  then Err (ValueError "Expected n_neighbors > 0")
  else if (p clf <=? 0)%Z
  then Err (ValueError "Expected p > 0")
  else
    X' <- check_array X ;;
    if negb (List.length y =? List.length X')%nat
    then Err (ValueError "inconsistent numbers of samples")
    else if class_labels y
    then Ok (mkKNN (n_neighbors clf) (p clf) (Some X') y)
    else Err (ValueError "Unknown label type").

(** Number of features of an array: the width of its rows. *)
Definition n_features (X : ndarray) : nat := List.length (hd [] X).

(** [model.predict(X)]: one vote per sample.  [X] must have the width of
    the array the model was fitted on. *)
Definition knn_predict (model : KNeighborsClassifier) (X : ndarray)
  : Result Series :=
  match fit_X model with
  | None => Err NotFittedError
  | Some Xfit =>
      if (n_neighbors model <=? 0)%Z
      then Err (ValueError "Expected n_neighbors > 0")
      else
        X' <- check_array X ;;
        if negb (forallb (fun r => (List.length r =? n_features Xfit)%nat) X')
        then Err (ValueError
                    "X has a different number of features than fitted")
        else if (Z.of_nat (List.length Xfit) <? n_neighbors model)%Z
        then Err (ValueError "Expected n_neighbors <= n_samples_fit")
        else Ok (map (kneighbors_vote (n_neighbors model) (p model)
                        Xfit (fit_y model)) X')
  end.

(* --------------------------------------------------------------------- *)
(** *** The six tasks *)
(* --------------------------------------------------------------------- *)

(** A task body maps its arguments and the world it runs in to a result
    (or a raised exception) and the world it leaves. *)
Definition TaskFn : Type := World -> Result Value * World.

(** [load_data(file_path)]: [return pd.read_csv(file_path)]. *)
Definition load_data (file_path : Value) : TaskFn := fun w =>
  (path <- as_str file_path ;;
   df <- read_csv w path ;;
   Ok (VFrame df), w).

(** [split_inputs_output(data, inputs, output)]:
    [X = data[inputs]; y = data[output]; return X, y]. *)
Definition split_inputs_output (data inputs output : Value) : TaskFn :=
  fun w =>
  (df <- as_frame data ;;
   names <- as_str_list inputs ;;
   X <- getitem_labels df names ;;
   label <- as_str output ;;
   y <- getitem_label df label ;;
   Ok (VTuple [VFrame X; VSeries y]), w).

(** The parameters of [train_test_split] are validated when it is
    entered, before the data is looked at: a float [test_size] lies
    strictly between 0 and 1, an integer one is at least 1, and an integer
    [random_state] lies in [0 .. 2^32 - 1]. *)
Definition as_test_size (v : Value) : Result TestSize :=
  match v with
  | VFloat q =>
      if negb (Qle_bool q 0) && negb (Qle_bool 1 q)
      then Ok (TestFraction q)
      else Err (ValueError "test_size out of range")
  | VInt k =>
      if (1 <=? k)%Z then Ok (TestCount k)
      else Err (ValueError "test_size out of range")
  | VNone => Ok (TestFraction (1 # 4))
  | _ => Err (ValueError "invalid test_size")
  end.

Definition as_random_state (v : Value) : Result (option Z) :=
  match v with
  | VInt seed =>
      if ((0 <=? seed) && (seed <? 4294967296))%Z then Ok (Some seed)
      else Err (ValueError "random_state out of range")
  | VNone => Ok None
  | _ => Err (ValueError "cannot be used to seed a RandomState")
  end.

(** Defaults of [split_train_test]'s signature:
    [test_size=0.25, random_state=0]. *)
Definition default_test_size : Value := VFloat (1 # 4).
Definition default_random_state : Value := VInt 0.

(** [split_train_test(X, y, test_size=0.25, random_state=0)]:
    [return train_test_split(X, y, test_size=test_size,
    random_state=random_state)].  An omitted keyword is [None] here and
    takes its default. *)
Definition split_train_test (X y : Value)
    (test_size random_state : option Value) : TaskFn := fun w =>
  let test_size := match test_size with
                   | Some v => v
                   | None => default_test_size
                   end in
  let random_state := match random_state with
                      | Some v => v
                      | None => default_random_state
                      end in
  match (df <- as_frame X ;;
         ys <- as_series y ;;
         ts <- as_test_size test_size ;;
         rs <- as_random_state random_state ;;
         Ok (df, ys, ts, rs)) with
  | Err e => (Err e, w)
  | Ok (df, ys, ts, rs) =>
      let '(r, g) := train_test_split df ys ts rs (np_random w) in
      (l <- r ;; Ok (VList l), mkWorld (fs w) g (stdout w))
  end.

(** [preprocess_data(X_train, X_test, y_train, y_test)]:
    [scaler = MinMaxScaler();
     X_train_scaled = scaler.fit_transform(X_train);
     X_test_scaled = scaler.transform(X_test);
     return X_train_scaled, X_test_scaled, y_train, y_test]. *)
Definition preprocess_data (X_train X_test y_train y_test : Value) : TaskFn :=
  fun w =>
  (let scaler := MinMaxScaler_new in
   Xtr <- as_frame X_train ;;
   '(X_train_scaled, scaler) <- fit_transform scaler Xtr ;;
   Xte <- as_frame X_test ;;
   X_test_scaled <- transform scaler Xte ;;
   Ok (VTuple [VArray X_train_scaled; VArray X_test_scaled;
               y_train; y_test]), w).

(** [train_model(X_train_scaled, y_train, hyperparameters)]:
    the classifier is built from the unpacked dictionary, [clf.fit(X_train_scaled, y_train)];
    [return clf]. *)
Definition train_model (X_train_scaled y_train hyperparameters : Value)
  : TaskFn := fun w =>
  (kwargs <- as_dict hyperparameters ;;
   clf <- KNeighborsClassifier_init kwargs KNeighborsClassifier_default ;;
   X <- as_array X_train_scaled ;;
   y <- as_series y_train ;;
   clf <- knn_fit clf X y ;;
   Ok (VModel clf), w).

(** [evaluate_model(model, X_train_scaled, y_train, X_test_scaled, y_test)]:
    [y_train_pred = model.predict(X_train_scaled);
     y_test_pred = model.predict(X_test_scaled);
     train_score = metrics.accuracy_score(y_train, y_train_pred);
     test_score = metrics.accuracy_score(y_test, y_test_pred);
     return train_score, test_score]. *)
Definition evaluate_model
    (model X_train_scaled y_train X_test_scaled y_test : Value) : TaskFn :=
  fun w =>
  (m <- as_model model ;;
   Xtr <- as_array X_train_scaled ;;
   y_train_pred <- knn_predict m Xtr ;;
   Xte <- as_array X_test_scaled ;;
   y_test_pred <- knn_predict m Xte ;;
   ytr <- as_series y_train ;;
   train_score <- accuracy_score ytr y_train_pred ;;
   yte <- as_series y_test ;;
   test_score <- accuracy_score yte y_test_pred ;;
   Ok (VTuple [VFloat train_score; VFloat test_score]), w).

(** The registered tasks ([@task]) and the binding of positional arguments
    to their parameters. *)
Inductive TaskName : Type :=
| T_load_data
| T_split_inputs_output
| T_split_train_test
| T_preprocess_data
| T_train_model
| T_evaluate_model.

Definition arity_error : TaskFn := fun w =>
  (Err (TypeError "wrong number of positional arguments"), w).

Definition call_task (t : TaskName) (args : list Value) : TaskFn :=
  match t, args with
  | T_load_data, [file_path] => load_data file_path
  | T_split_inputs_output, [data; inputs; output] =>
      split_inputs_output data inputs output
  | T_split_train_test, [X; y] => split_train_test X y None None
  | T_split_train_test, [X; y; ts] => split_train_test X y (Some ts) None
  | T_split_train_test, [X; y; ts; rs] =>
      split_train_test X y (Some ts) (Some rs)
  | T_preprocess_data, [X_train; X_test; y_train; y_test] =>
      preprocess_data X_train X_test y_train y_test
  | T_train_model, [X_train_scaled; y_train; hyperparameters] =>
      train_model X_train_scaled y_train hyperparameters
  | T_evaluate_model, [model; X_train_scaled; y_train; X_test_scaled; y_test] =>
      evaluate_model model X_train_scaled y_train X_test_scaled y_test
  | _, _ => arity_error
  end.

End Pipeline.

(* ===================================================================== *)
(** ** Flow bodies *)
(* ===================================================================== *)

(** A flow body is straight-line Python: it invokes work units, unpacks
    their results, and may print.  [Call t args k] invokes task [t] and
    continues with its result; [Print items k] prints [items] on one line;
    [Raise e] is an exception raised in the body itself. *)
Inductive Flow (A : Type) : Type :=
| Ret (a : A)
| Call (t : TaskName) (args : list Value) (k : Value -> Flow A)
| Print (items : list Value) (k : Flow A)
| Raise (e : Exc).
Arguments Ret {A} a.
Arguments Call {A} t args k.
Arguments Print {A} items k.
Arguments Raise {A} e.

Fixpoint fbind {A C} (m : Flow A) (f : A -> Flow C) : Flow C :=
  match m with
  | Ret a => f a
  | Call t args k => Call t args (fun v => fbind (k v) f)
  | Print items k => Print items (fbind k f)
  | Raise e => Raise e
  end.

Notation "x <~ c1 ;; c2" := (fbind c1 (fun x => c2))
  (at level 61, c1 at next level, right associativity).
Notation "' pat <~ c1 ;; c2" :=
  (fbind c1 (fun x => match x with pat => c2 end))
  (at level 61, pat pattern, c1 at next level, right associativity).

Definition call (t : TaskName) (args : list Value) : Flow Value :=
  Call t args Ret.

Definition print (items : list Value) : Flow unit :=
  Print items (Ret tt).

(** Components of a placeholder: [VFuture n (path ++ [(i, count)])] for
    [i < count]. *)
Definition future_items (node : nat) (path : list (nat * nat)) (count : nat)
  : list Value :=
  map (fun i => VFuture node (path ++ [(i, count)])) (seq 0 count).

(** Sequence unpacking, [a, b = v]: a tuple or list of exactly the right
    length; a placeholder unpacks into placeholders for its components. *)
Definition unpack (count : nat) (v : Value) : Result (list Value) :=
  match v with
  | VTuple l | VList l =>
      if (List.length l =? count)%nat then Ok l
      else Err (ValueError "wrong number of values to unpack")
  | VFuture node path => Ok (future_items node path count)
  | _ => Err (TypeError "cannot unpack non-iterable object")
  end.

Definition lift {A} (r : Result A) : Flow A :=
  match r with
  | Ok a => Ret a
  | Err e => Raise e
  end.

Definition unpack2 (v : Value) : Flow (Value * Value) :=
  l <~ lift (unpack 2 v) ;;
  match l with
  | [a; b] => Ret (a, b)
  | _ => Raise (ValueError "wrong number of values to unpack")
  end.

Definition unpack4 (v : Value) : Flow (Value * Value * Value * Value) :=
  l <~ lift (unpack 4 v) ;;
  match l with
  | [a; b; c; d] => Ret (a, b, c, d)
  | _ => Raise (ValueError "wrong number of values to unpack")
  end.

(** The plain workflow of the first half of the notebook,
    [def workflow(data_path)]. *)
Definition workflow_plain (data_path : string) : Flow Value :=
  let DATA_PATH := VStr data_path in
  let INPUTS := VList [VStr "SepalLengthCm"; VStr "SepalWidthCm";
                       VStr "PetalLengthCm"; VStr "PetalWidthCm"] in
  let OUTPUT := VStr "Species" in
  let HYPERPARAMETERS := VDict [("n_neighbors", VInt 3); ("p", VInt 2)] in
  iris <~ call T_load_data [DATA_PATH] ;;
  '(X, y) <~ (r <~ call T_split_inputs_output [iris; INPUTS; OUTPUT] ;;
              unpack2 r) ;;
  '(X_train, X_test, y_train, y_test) <~
     (r <~ call T_split_train_test [X; y] ;; unpack4 r) ;;
  '(X_train_scaled, X_test_scaled, y_train, y_test) <~
     (r <~ call T_preprocess_data [X_train; X_test; y_train; y_test] ;;
      unpack4 r) ;;
  model <~ call T_train_model [X_train_scaled; y_train; HYPERPARAMETERS] ;;
  '(train_score, test_score) <~
     (r <~ call T_evaluate_model
             [model; X_train_scaled; y_train; X_test_scaled; y_test] ;;
      unpack2 r) ;;
  _ <~ print [VStr "Train Score:"; train_score] ;;
  _ <~ print [VStr "Test Score:"; test_score] ;;
  Ret VNone.

(** The orchestrated flow, [@flow(name="KNN Training Flow") def workflow()]. *)
Definition workflow_name : string := "KNN Training Flow".

Definition workflow : Flow Value :=
  let DATA_PATH := VStr "data/iris.csv" in
  let INPUTS := VList [VStr "SepalLengthCm"; VStr "SepalWidthCm";
                       VStr "PetalLengthCm"; VStr "PetalWidthCm"] in
  let OUTPUT := VStr "Species" in
  let HYPERPARAMETERS := VDict [("n_neighbors", VInt 3); ("p", VInt 2)] in
  iris <~ call T_load_data [DATA_PATH] ;;
  '(X, y) <~ (r <~ call T_split_inputs_output [iris; INPUTS; OUTPUT] ;;
              unpack2 r) ;;
  '(X_train, X_test, y_train, y_test) <~
     (r <~ call T_split_train_test [X; y] ;; unpack4 r) ;;
  '(X_train_scaled, X_test_scaled, y_train, y_test) <~
     (r <~ call T_preprocess_data [X_train; X_test; y_train; y_test] ;;
      unpack4 r) ;;
  model <~ call T_train_model [X_train_scaled; y_train; HYPERPARAMETERS] ;;
  '(train_score, test_score) <~
     (r <~ call T_evaluate_model
             [model; X_train_scaled; y_train; X_test_scaled; y_test] ;;
      unpack2 r) ;;
  _ <~ print [VStr "Train Score:"; train_score] ;;
  _ <~ print [VStr "Test Score:"; test_score] ;;
  Ret VNone.

(* ===================================================================== *)
(** ** Running a flow body as Python runs it *)
(* ===================================================================== *)

Section Run.

Context {B : Backend}.

Definition write_stdout (items : list Value) (w : World) : World :=
  mkWorld (fs w) (np_random w) (stdout w ++ [items]).

(** Every invocation runs the unit at once on the values at hand; an
    exception raised by a unit or by the body ends the run. *)
Fixpoint run_flow {A} (f : Flow A) (w : World) : Result A * World :=
  match f with
  | Ret a => (Ok a, w)
  | Call t args k =>
      let '(r, w') := call_task t args w in
      match r with
      | Ok v => run_flow (k v) w'
      | Err e => (Err e, w')
      end
  | Print items k => run_flow k (write_stdout items w)
  | Raise e => (Err e, w)
  end.

(** Running a body [n] times in a row. *)
Fixpoint run_times {A} (n : nat) (f : Flow A) (w : World) : World :=
  match n with
  | O => w
  | S n' => run_times n' f (snd (run_flow f w))
  end.

End Run.

(* ===================================================================== *)
(** ** The orchestration core *)
(* ===================================================================== *)

(** The notebook imports [task] and [flow] from the orchestration library
    and contains none of its machinery.  The definitions of this part
    follow the specification of the core (sections 3 and 4): unit registry,
    dependency graph builder, execution engine and state store. *)

(** Modelled from the spec: the TaskRun life cycle of section 4.3,
    [Scheduled -> Running -> {Completed | Failed}] with [Retrying] in
    between, [Skipped] from [Scheduled], and [Cancelled] on abort.  The
    library that owns it is imported by the notebook and is not in the
    repository. *)
Inductive State : Type :=
| Scheduled
| Running
| Retrying
| Completed
| Failed
| Skipped
| Cancelled.

(** Modelled from the spec: equality of life-cycle states, for the state
    tests of the absent engine. *)
Definition State_eqb (a b : State) : bool :=
  match a, b with
  | Scheduled, Scheduled | Running, Running | Retrying, Retrying
  | Completed, Completed | Failed, Failed | Skipped, Skipped
  | Cancelled, Cancelled => true
  | _, _ => false
  end.

(** Modelled from the spec: the terminal states of the glossary, from
    which the absent engine makes no further transition. *)
Definition terminal (s : State) : bool :=
  match s with
  | Completed | Failed | Skipped | Cancelled => true
  | _ => false
  end.

(** Modelled from the spec: the failures reported synchronously by graph
    construction (section 7); the engine that raises them is not in the
    repository. *)
Inductive EngineError : Type :=
| ValidationError (node : nat)
| CyclicDependencyError
| FlowBodyError (e : Exc).

(** Modelled from the spec: the TaskRun record of section 3 (identifier,
    task, arguments as traced, upstream identifiers, state, attempt count,
    result or error); time stamps are left out.  The record type belongs to
    the absent engine. *)
Record TaskRun : Type := mkRun {
  tr_id : nat;
  tr_task : TaskName;
  tr_args : list Value;
  tr_upstream : list nat;
  tr_state : State;
  tr_attempts : nat;
  tr_result : option (Result Value)
}.

(** Modelled from the spec: the transition events of the state store
    (section 4.4 and the observability sink of section 6), without the
    time stamp.  The store is part of the absent engine. *)
Inductive Entity : Type :=
| TaskEntity (id : nat)
| FlowEntity.

(** Modelled from the spec: the event shape of section 6 (entity, old
    state, new state, optional error) recorded by the absent state
    store. *)
Record Event : Type := mkEvent {
  ev_entity : Entity;
  ev_from : State;
  ev_to : State;
  ev_error : option Exc
}.

(* --------------------------------------------------------------------- *)
(** *** Unit registry and graph builder *)
(* --------------------------------------------------------------------- *)

(** Declared signatures of the registered tasks: least and greatest number
    of positional arguments. *)
Definition signature (t : TaskName) : nat * nat :=
  match t with
  | T_load_data => (1, 1)
  | T_split_inputs_output => (3, 3)
  | T_split_train_test => (2, 4)
  | T_preprocess_data => (4, 4)
  | T_train_model => (3, 3)
  | T_evaluate_model => (5, 5)
  end%nat.

(** Modelled from the spec: the runs whose placeholders occur in argument
    positions (section 4.2), as the absent graph builder collects them. *)
Definition future_nodes (args : list Value) : list nat :=
  flat_map (fun v => match v with
                     | VFuture n _ => [n]
                     | _ => []
                     end) args.

(** Modelled from the spec: [instantiate(task, args)] of section 4.1, a run
    in state [Scheduled], refused when the arity does not fit the task's
    signature; argument positions holding placeholders become the upstream
    edges (section 4.2).  The registry is part of the absent engine. *)
Definition instantiate (id : nat) (t : TaskName) (args : list Value)
  : EngineError + TaskRun :=
  let '(lo, hi) := signature t in
  let n := List.length args in
  if ((lo <=? n) && (n <=? hi))%nat
  then inr (mkRun id t args (nodup Nat.eq_dec (future_nodes args))
              Scheduled 0 None)
  else inl (ValidationError id).

(** Modelled from the spec: what tracing produces (section 4.2): the
    runs, and the lines the body printed while traced.  The graph type
    belongs to the absent graph builder. *)
Record Graph : Type := mkGraph {
  g_runs : list TaskRun;
  g_printed : list (list Value)
}.

(** Modelled from the spec: the tracing mode of section 4.2.  The body is
    executed with every task call answered by a placeholder; whatever the
    body prints while it is traced is collected.  The graph builder is part
    of the absent engine. *)
Fixpoint trace {A} (f : Flow A) (g : Graph) : EngineError + Graph :=
  match f with
  | Ret _ => inr g
  | Call t args k =>
      let id := List.length (g_runs g) in
      match instantiate id t args with
      | inl e => inl e
      | inr r => trace (k (VFuture id []))
                   (mkGraph (g_runs g ++ [r]) (g_printed g))
      end
  | Print items k => trace k (mkGraph (g_runs g) (g_printed g ++ [items]))
  | Raise e => inl (FlowBodyError e)
  end.

(** Modelled from the spec: membership in the list of emitted runs, used
    by the ordering of the absent graph builder. *)
Definition mem (n : nat) (l : list nat) : bool :=
  existsb (Nat.eqb n) l.

(** Modelled from the spec: validation and topological ordering of section
    4.2, ties broken by registration order: repeatedly emit the first
    pending run all of whose upstream runs were emitted; being stuck with
    runs pending is a cycle.  Part of the absent graph builder. *)
Fixpoint topological_order (fuel : nat) (pending : list TaskRun)
    (emitted : list nat) : EngineError + list nat :=
  match pending with
  | [] => inr emitted
  | _ =>
      match fuel with
      | O => inl CyclicDependencyError
      | S fuel' =>
          match find (fun r => forallb (fun d => mem d emitted)
                                 (tr_upstream r)) pending with
          | None => inl CyclicDependencyError
          | Some r =>
              topological_order fuel'
                (filter (fun r' => negb (tr_id r' =? tr_id r)%nat) pending)
                (emitted ++ [tr_id r])
          end
      end
  end.

(** Modelled from the spec: graph construction of section 4.2, tracing
    followed by validation and ordering; a failure is reported and no
    FlowRun is made.  Part of the absent graph builder. *)
Definition build_graph {A} (f : Flow A) : EngineError + (Graph * list nat) :=
  match trace f (mkGraph [] []) with
  | inl e => inl e
  | inr g =>
      match topological_order (List.length (g_runs g)) (g_runs g) [] with
      | inl e => inl e
      | inr order => inr (g, order)
      end
  end.

(** Modelled from the spec: the TaskRun dependency relation of section 3
    (a run depends on its upstream runs), which the absent graph builder
    establishes. *)
Definition depends_on (runs : list TaskRun) (a b : nat) : Prop :=
  exists r, In r runs /\ tr_id r = a /\ In b (tr_upstream r).

(** Modelled from the spec: transitive dependence, as in "transitive
    dependents" of section 4.3 of the absent engine. *)
Inductive depends_trans (runs : list TaskRun) : nat -> nat -> Prop :=
| dt_step a b : depends_on runs a b -> depends_trans runs a b
| dt_trans a b c :
    depends_on runs a b -> depends_trans runs b c -> depends_trans runs a c.

(** Modelled from the spec: the invariant of section 3 that the
    dependency relation of the absent engine's graph has no cycle. *)
Definition acyclic (runs : list TaskRun) : Prop :=
  forall a, ~ depends_trans runs a a.

(** Modelled from the spec: position of a run in the order the absent
    graph builder computes. *)
Fixpoint position (id : nat) (order : list nat) : option nat :=
  match order with
  | [] => None
  | x :: order' =>
      if (x =? id)%nat then Some 0%nat
      else option_map S (position id order')
  end.

(** Modelled from the spec: a valid linearization (section 8) of the
    absent engine's graph: every run appears in the order and each of its
    upstream runs appears at a strictly earlier position. *)
Definition valid_linearization (runs : list TaskRun) (order : list nat)
  : Prop :=
  forall r, In r runs ->
    exists i, position (tr_id r) order = Some i /\
      forall d, In d (tr_upstream r) ->
        exists j, position d order = Some j /\ (j < i)%nat.

(* --------------------------------------------------------------------- *)
(** *** Execution engine and state store *)
(* --------------------------------------------------------------------- *)

(** Modelled from the spec: the current-state projection of the absent
    state store (section 4.4): look-up and update of a run by identifier. *)
Definition find_run (id : nat) (rs : list TaskRun) : option TaskRun :=
  find (fun r => (tr_id r =? id)%nat) rs.

(** Modelled from the spec: update of one run in the projection of the
    absent state store. *)
Definition update_run (id : nat) (f : TaskRun -> TaskRun)
    (rs : list TaskRun) : list TaskRun :=
  map (fun r => if (tr_id r =? id)%nat then f r else r) rs.

(** Modelled from the spec: a state transition applied to a run by the
    absent engine. *)
Definition set_state (s : State) (r : TaskRun) : TaskRun :=
  mkRun (tr_id r) (tr_task r) (tr_args r) (tr_upstream r) s
        (tr_attempts r) (tr_result r).

(** Modelled from the spec: the end of an attempt, recording state,
    attempt count and result or error (section 3), by the absent engine. *)
Definition set_outcome (s : State) (n : nat) (res : Result Value)
    (r : TaskRun) : TaskRun :=
  mkRun (tr_id r) (tr_task r) (tr_args r) (tr_upstream r) s n (Some res).

(** Modelled from the spec: test of a run's current state in the absent
    state store. *)
Definition state_is (rs : list TaskRun) (s : State) (id : nat) : bool :=
  match find_run id rs with
  | Some r => State_eqb (tr_state r) s
  | None => false
  end.

(** Modelled from the spec: eligibility for dispatch (section 3): the run
    is [Scheduled] and every upstream run is [Completed].  Part of the
    absent engine. *)
Definition ready (rs : list TaskRun) (r : TaskRun) : bool :=
  State_eqb (tr_state r) Scheduled &&
  forallb (state_is rs Completed) (tr_upstream r).

(** Modelled from the spec: selection among the ready runs in topological
    order (section 5), by the absent engine. *)
Fixpoint first_ready (rs : list TaskRun) (order : list nat)
  : option TaskRun :=
  match order with
  | [] => None
  | id :: order' =>
      match find_run id rs with
      | Some r => if ready rs r then Some r else first_ready rs order'
      | None => first_ready rs order'
      end
  end.

(** Modelled from the spec: resolution of a placeholder by the engine
    (design note of section 9): the recorded result of the upstream run,
    taken apart along the path with the length checks of the unpacking
    that produced it.  Part of the absent engine. *)
Fixpoint project (v : Value) (path : list (nat * nat)) : Result Value :=
  match path with
  | [] => Ok v
  | (i, count) :: path' =>
      match v with
      | VTuple l | VList l =>
          if (List.length l =? count)%nat then
            match nth_error l i with
            | Some v' => project v' path'
            | None => Err (ValueError "wrong number of values to unpack")
            end
          else Err (ValueError "wrong number of values to unpack")
      | _ => Err (TypeError "cannot unpack non-iterable object")
      end
  end.

(** Modelled from the spec: an argument as the unit receives it: a
    literal as it is, a placeholder replaced by the upstream result
    (section 9), by the absent engine. *)
Definition resolve (rs : list TaskRun) (v : Value) : Result Value :=
  match v with
  | VFuture n path =>
      match find_run n rs with
      | Some r =>
          match tr_result r with
          | Some (Ok v') => project v' path
          | _ => Err (ValueError "upstream result not available")
          end
      | None => Err (ValueError "upstream result not available")
      end
  | _ => Ok v
  end.

(** Modelled from the spec: an event of the absent state store that
    records run [id] entering [Running]. *)
Definition is_dispatch_of (id : nat) (ev : Event) : bool :=
  match ev_entity ev with
  | TaskEntity id' => (id' =? id)%nat && State_eqb (ev_to ev) Running
  | FlowEntity => false
  end.

Section Engine.

Context {W : Type}.

(** The work units as the engine sees them, and the retry policy of each
    task (greatest number of attempts). *)
Variable exec : TaskName -> list Value -> W -> Result Value * W.
Variable max_attempts : TaskName -> nat.

(** Modelled from the spec: the state store of section 4.4 (current runs
    and the event log) together with the order from the graph builder and
    the world the units run in.  Part of the absent engine. *)
Record Store : Type := mkStore {
  runs : list TaskRun;
  order : list nat;
  events : list Event;
  world : W
}.

(** Modelled from the spec: a TaskRun transition event of the absent
    state store. *)
Definition task_event (id : nat) (from to : State) (err : option Exc)
  : Event :=
  mkEvent (TaskEntity id) from to err.

(** Modelled from the spec: cascade of section 4.3: walking the runs in
    topological order, every run that is not yet terminal and has an
    upstream run among the failed or skipped ones becomes [Skipped].  Part
    of the absent engine. *)
Fixpoint cascade (ids : list nat) (dead : list nat) (rs : list TaskRun)
    (evs : list Event) : list TaskRun * list Event :=
  match ids with
  | [] => (rs, evs)
  | id :: ids' =>
      match find_run id rs with
      | Some r =>
          if negb (terminal (tr_state r)) &&
             existsb (fun d => mem d dead) (tr_upstream r)
          then cascade ids' (dead ++ [id])
                 (update_run id (set_state Skipped) rs)
                 (evs ++ [task_event id (tr_state r) Skipped None])
          else cascade ids' dead rs evs
      | None => cascade ids' dead rs evs
      end
  end.

(** Modelled from the spec: one dispatch of section 4.3.  The run goes to
    [Running]; success records the result and ends in [Completed]; failure
    counts the attempt and leads through [Retrying] back to [Scheduled]
    while attempts remain, else to [Failed] and the cascade.  Back-off
    delays are not modelled.  Part of the absent engine. *)
Definition attempt (r : TaskRun) (s : Store) : Store :=
  let id := tr_id r in
  let n := S (tr_attempts r) in
  let evs := events s ++ [task_event id Scheduled Running None] in
  let '(res, w') :=
    match rmap (resolve (runs s)) (tr_args r) with
    | Ok args => exec (tr_task r) args (world s)
    | Err e => (Err e, world s)
    end in
  match res with
  | Ok v =>
      mkStore (update_run id (set_outcome Completed n (Ok v)) (runs s))
              (order s)
              (evs ++ [task_event id Running Completed None])
              w'
  | Err e =>
      if (n <? max_attempts (tr_task r))%nat
      then mkStore (update_run id (set_outcome Scheduled n (Err e)) (runs s))
                   (order s)
                   (evs ++ [task_event id Running Retrying (Some e);
                            task_event id Retrying Scheduled None])
                   w'
      else
        let '(rs, evs') :=
          cascade (order s) [id]
            (update_run id (set_outcome Failed n (Err e)) (runs s))
            (evs ++ [task_event id Running Failed (Some e)]) in
        mkStore rs (order s) evs' w'
  end.

(** Modelled from the spec: the dispatch loop of section 4.3 with one
    worker: the first ready run in topological order is dispatched, until
    no run is ready.  Part of the absent engine. *)
Definition step (s : Store) : option Store :=
  match first_ready (runs s) (order s) with
  | Some r => Some (attempt r s)
  | None => None
  end.

(** Modelled from the spec: the loop of section 4.3, which ends when no
    run is ready; [fuel] bounds the number of dispatches.  Part of the
    absent engine. *)
Fixpoint dispatch_loop (fuel : nat) (s : Store) : Store :=
  match fuel with
  | O => s
  | S fuel' =>
      match step s with
      | Some s' => dispatch_loop fuel' s'
      | None => s
      end
  end.

(** Modelled from the spec: the FlowRun state as a reduction of its
    TaskRuns' states (section 3): [Completed] iff all are [Completed],
    [Failed] iff one is [Failed] and all are terminal, [Running] otherwise.
    Part of the absent engine. *)
Definition flow_state (rs : list TaskRun) : State :=
  if forallb (fun r => State_eqb (tr_state r) Completed) rs then Completed
  else if existsb (fun r => State_eqb (tr_state r) Failed) rs &&
          forallb (fun r => terminal (tr_state r)) rs
  then Failed
  else Running.

(** Modelled from the spec: retried runs never exceed their attempt limit
    (section 8), so the absent engine dispatches at most this often: every
    run makes at most [max_attempts] attempts, and at least one. *)
Definition budget (rs : list TaskRun) : nat :=
  fold_right (fun r acc => (Nat.max 1 (max_attempts (tr_task r)) + acc)%nat)
             0%nat rs.

(** Modelled from the spec: the FlowRun's final transition, recorded by
    the absent state store. *)
Definition finish (s : Store) : Store :=
  mkStore (runs s) (order s)
          (events s ++ [mkEvent FlowEntity Running (flow_state (runs s)) None])
          (world s).

(** Modelled from the spec: a FlowRun from creation to its terminal state:
    build the graph (no FlowRun on failure), then drain it.  Part of the
    absent engine. *)
Definition run_engine {A} (f : Flow A) (w : W) : EngineError + Store :=
  match build_graph f with
  | inl e => inl e
  | inr (g, ord) =>
      let s0 := mkStore (g_runs g) ord
                  [mkEvent FlowEntity Scheduled Running None] w in
      inr (finish (dispatch_loop (budget (g_runs g)) s0))
  end.

(** Modelled from the spec: a run was dispatched when the absent state
    store saw it enter [Running]. *)
Definition dispatched (s : Store) (id : nat) : bool :=
  existsb (is_dispatch_of id) (events s).

(** Modelled from the spec: what the absent engine reports as the flow's
    outcome (section 8): the result recorded for the last run of the
    order. *)
Definition final_result (s : Store) : option (Result Value) :=
  match find_run (last (order s) 0%nat) (runs s) with
  | Some r => tr_result r
  | None => None
  end.

End Engine.

(* ===================================================================== *)
(** ** A reference backend and a small data set *)
(* ===================================================================== *)

(** A concrete generator and a concrete neighbour vote, to run the
    pipeline on actual data: the generator's state is a counter, its
    permutation a rotation by that counter; the vote takes the [k] nearest
    training samples in the Minkowski distance of order [p] and returns the
    most frequent label among them. *)
Definition rotate {A} (k : nat) (l : list A) : list A :=
  skipn k l ++ firstn k l.

Lemma rotate_Permutation {A} (k : nat) (l : list A) :
  Permutation (rotate k l) l.
Proof.
  unfold rotate.
  rewrite <- (firstn_skipn k l) at 3.
  apply Permutation_app_comm.
Qed.

Definition minkowski (p : Z) (a b : list Q) : Q :=
  fold_right Qplus 0%Q
    (zip_with (fun x y => Qpower (Qabs (x - y)) p) a b).

Fixpoint insert_by (d : Q) (label : Cell) (l : list (Q * Cell))
  : list (Q * Cell) :=
  match l with
  | [] => [(d, label)]
  | (d', label') :: l' =>
      if Qle_bool d' d then (d', label') :: insert_by d label l'
      else (d, label) :: l
  end.

Definition occurrences (c : Cell) (l : list Cell) : nat :=
  List.length (filter (Cell_eqb c) l).

Definition most_frequent (l : list Cell) : Cell :=
  fold_right (fun c best =>
                if (occurrences best l <=? occurrences c l)%nat
                then c else best)
             (CStr "") l.

Definition nearest_vote (k p : Z) (X : ndarray) (y : Series) (x : list Q)
  : Cell :=
  let ranked :=
    fold_right (fun xy acc => insert_by (minkowski p (fst xy) x) (snd xy) acc)
               [] (combine X y) in
  most_frequent (map snd (firstn (Z.to_nat k) ranked)).

Lemma insert_by_In d label l pr :
  In pr (insert_by d label l) -> pr = (d, label) \/ In pr l.
Proof.
  induction l as [|[d' label'] l IH]; cbn [insert_by].
  - intros [<-|[]]. left. reflexivity.
  - destruct (Qle_bool d' d).
    + intros [<-|H]; [right; left; reflexivity|].
      destruct (IH H) as [->|Hin]; [left; reflexivity|right; right; exact Hin].
    + intros [<-|H]; [left; reflexivity|right; exact H].
Qed.

Lemma insert_by_nonempty d label l : insert_by d label l <> [].
Proof.
  destruct l as [|[d' label'] l]; cbn [insert_by]; [discriminate|].
  destruct (Qle_bool d' d); discriminate.
Qed.

Lemma most_frequent_In l : l <> [] -> In (most_frequent l) l.
Proof.
  intros Hne. unfold most_frequent.
  assert (Hgen : forall suffix,
            incl suffix l -> suffix <> [] ->
            In (fold_right
                  (fun c best =>
                     if (occurrences best l <=? occurrences c l)%nat
                     then c else best) (CStr "") suffix) l).
  { induction suffix as [|c suffix IH]; intros Hincl Hs; [congruence|].
    cbn [fold_right].
    assert (Hc : In c l) by (apply Hincl; left; reflexivity).
    destruct (Nat.leb_spec
                (occurrences
                   (fold_right
                      (fun c0 best =>
                         if (occurrences best l <=? occurrences c0 l)%nat
                         then c0 else best) (CStr "") suffix) l)
                (occurrences c l)) as [_|Hlt]; [exact Hc|].
    destruct suffix as [|c' suffix].
    - cbn [fold_right] in *. unfold occurrences in Hlt.
      destruct (filter (Cell_eqb (CStr "")) l) as [|x rest] eqn:Hf;
        [cbn in Hlt; lia|].
      assert (Hx : In x (filter (Cell_eqb (CStr "")) l))
        by (rewrite Hf; left; reflexivity).
      apply filter_In in Hx. destruct Hx as (Hin & Heq).
      destruct x as [q|t]; [discriminate Heq|].
      cbn [Cell_eqb] in Heq. apply String.eqb_eq in Heq. subst t. exact Hin.
    - apply IH; [|discriminate].
      intros z Hz. apply Hincl. right. exact Hz. }
  apply Hgen; [apply incl_refl|exact Hne].
Qed.

Lemma nearest_vote_In (k p : Z) (X : ndarray) (y : Series) (x : list Q) :
  (0 < k <= Z.of_nat (List.length X))%Z ->
  List.length y = List.length X ->
  In (nearest_vote k p X y x) y.
Proof.
  intros Hk Hlen. unfold nearest_vote.
  set (rank := fold_right
                 (fun xy acc =>
                    insert_by (minkowski p (fst xy) x) (snd xy) acc) []).
  assert (Hsub : forall l, incl l (combine X y) ->
                   forall pr, In pr (rank l) -> In (snd pr) y).
  { induction l as [|[a b] l IH]; intros Hincl pr Hin; [destruct Hin|].
    unfold rank in Hin. cbn [fold_right] in Hin. fold rank in Hin.
    apply insert_by_In in Hin. destruct Hin as [->|Hin].
    - cbn [snd]. apply (in_combine_r X y a b). apply Hincl. left. reflexivity.
    - apply IH; [|exact Hin]. intros z Hz. apply Hincl. right. exact Hz. }
  assert (Hne : rank (combine X y) <> []).
  { destruct (combine X y) as [|xy l] eqn:Hc.
    - apply (f_equal (@List.length _)) in Hc.
      rewrite length_combine, Hlen, Nat.min_id in Hc. cbn in Hc. lia.
    - unfold rank. cbn [fold_right]. apply insert_by_nonempty. }
  set (ranked := rank (combine X y)) in *.
  assert (Hfirst : map snd (firstn (Z.to_nat k) ranked) <> []).
  { destruct ranked as [|r rs]; [congruence|].
    destruct (Z.to_nat k) as [|m] eqn:Hm; [lia|]. discriminate. }
  pose proof (most_frequent_In _ Hfirst) as Hin.
  apply in_map_iff in Hin. destruct Hin as (pr & Hpr & Hin).
  rewrite <- Hpr. apply (Hsub (combine X y)); [apply incl_refl|].
  fold ranked. rewrite <- (firstn_skipn (Z.to_nat k) ranked).
  apply in_or_app. left. exact Hin.
Qed.

(** The decimal literals [float()] reads: an optional sign, digits and an
    optional fraction.  The sample data needs no more; the other spellings
    [float()] accepts (exponents, underscores between digits, surrounding
    blanks, [inf], [nan]) are not handled here. *)
Definition digit_of (c : ascii) : option Z :=
  let n := nat_of_ascii c in
  if ((48 <=? n) && (n <=? 57))%nat then Some (Z.of_nat (n - 48)) else None.

Fixpoint read_digits (s : string) (acc : Z) (count : nat)
  : Z * nat * string :=
  match s with
  | String c s' =>
      match digit_of c with
      | Some d => read_digits s' (10 * acc + d)%Z (S count)
      | None => (acc, count, s)
      end
  | EmptyString => (acc, count, s)
  end.

Definition signed (negative : bool) (q : Q) : Q :=
  if negative then Qopp q else q.

Definition decimal_of_text (s : string) : option Float64 :=
  let '(negative, body) :=
    match s with
    | String "-"%char s' => (true, s')
    | String "+"%char s' => (false, s')
    | _ => (false, s)
    end in
  let '(whole, n1, rest) := read_digits body 0%Z 0%nat in
  match rest with
  | EmptyString =>
      if (0 <? n1)%nat
      then Some (Finite (signed negative (inject_Z whole)))
      else None
  | String "."%char frac =>
      let '(num, n2, rest') := read_digits frac whole 0%nat in
      match rest' with
      | EmptyString =>
          if (0 <? n1 + n2)%nat
          then Some (Finite
                       (signed negative (num # Z.to_pos (10 ^ Z.of_nat n2))))
          else None
      | _ => None
      end
  | _ => None
  end.

Definition ref_backend : Backend := {|
  RandomState := nat;
  RandomState_seed := Z.to_nat;
  permutation := fun rng n => (rotate rng (seq 0 n), S rng);
  permutation_spec := fun rng n => rotate_Permutation rng (seq 0 n);
  kneighbors_vote := nearest_vote;
  kneighbors_vote_spec := nearest_vote_In;
  float_of_text := decimal_of_text
|}.

Definition iris_columns : list string :=
  ["Id"; "SepalLengthCm"; "SepalWidthCm"; "PetalLengthCm"; "PetalWidthCm";
   "Species"].

Definition iris_row (id : Z) (sl sw pl pw : Q) (species : string)
  : list Cell :=
  [CNum (inject_Z id); CNum sl; CNum sw; CNum pl; CNum pw; CStr species].

(** Eight rows of the iris data. *)
Definition iris_sample : DataFrame :=
  mkFrame iris_columns
    [iris_row 1 (51 # 10) (35 # 10) (14 # 10) (2 # 10) "Iris-setosa";
     iris_row 2 (49 # 10) (30 # 10) (14 # 10) (2 # 10) "Iris-setosa";
     iris_row 3 (47 # 10) (32 # 10) (13 # 10) (2 # 10) "Iris-setosa";
     iris_row 51 (70 # 10) (32 # 10) (47 # 10) (14 # 10) "Iris-versicolor";
     iris_row 52 (64 # 10) (32 # 10) (45 # 10) (15 # 10) "Iris-versicolor";
     iris_row 53 (69 # 10) (31 # 10) (49 # 10) (15 # 10) "Iris-versicolor";
     iris_row 101 (63 # 10) (33 # 10) (60 # 10) (25 # 10) "Iris-virginica";
     iris_row 102 (58 # 10) (27 # 10) (51 # 10) (19 # 10) "Iris-virginica"].

(** The same file with a single data row: too small to be split. *)
Definition iris_one_row : DataFrame :=
  mkFrame iris_columns
    [iris_row 1 (51 # 10) (35 # 10) (14 # 10) (2 # 10) "Iris-setosa"].

Definition single_file (path : string) (df : DataFrame)
  : string -> option DataFrame :=
  fun q => if String.eqb q path then Some df else None.

Definition demo_world : @World ref_backend :=
  @mkWorld ref_backend (single_file "data/iris.csv" iris_sample) 7%nat [].

Definition small_world : @World ref_backend :=
  @mkWorld ref_backend (single_file "data/iris.csv" iris_one_row) 7%nat [].

(* ===================================================================== *)
(** ** Scheduler / trigger *)
(* ===================================================================== *)

(** The notebook only hands a cron string to [workflow.serve] in a
    markdown cell; the scheduler is the orchestration library's.  The
    definitions below follow section 4.5 of the specification. *)

(** Modelled from the spec: one item of a cron field, [*], a number or a
    range [lo-hi]; a field is a comma-separated list of items.  The cron
    parser belongs to the orchestration library, which is not in the
    repository. *)
Inductive CronItem : Type :=
| Star
| Num (n : nat)
| Range (lo hi : nat).

(** Modelled from the spec: a field of a cron expression, for the absent
    scheduler. *)
Definition CronField : Type := list CronItem.

(** Modelled from the spec: the five fields of section 4.5 in their order:
    minute, hour, day of month, month, day of week.  Part of the absent
    scheduler. *)
Record Cron : Type := mkCron {
  c_minute : CronField;
  c_hour : CronField;
  c_dom : CronField;
  c_month : CronField;
  c_dow : CronField
}.

(** Modelled from the spec: splitting of the five-field string (section
    6) at a separator, for the absent scheduler's parser. *)
Fixpoint split_on (sep : ascii) (s : string) : list string :=
  match s with
  | EmptyString => [EmptyString]
  | String c s' =>
      if Ascii.eqb c sep then EmptyString :: split_on sep s'
      else match split_on sep s' with
           | [] => [String c EmptyString]
           | w :: ws => String c w :: ws
           end
  end.

(** Modelled from the spec: decimal numbers of a cron field, for the
    absent scheduler's parser. *)
Definition digit (c : ascii) : option nat :=
  let n := nat_of_ascii c in
  if ((48 <=? n) && (n <=? 57))%nat then Some (n - 48)%nat else None.

(** Modelled from the spec: value of a digit string, for the absent
    scheduler's parser. *)
Fixpoint parse_digits (s : string) (acc : nat) : option nat :=
  match s with
  | EmptyString => Some acc
  | String c s' =>
      match digit c with
      | Some d => parse_digits s' (10 * acc + d)%nat
      | None => None
      end
  end.

(** Modelled from the spec: a non-empty digit string, for the absent
    scheduler's parser. *)
Definition parse_nat (s : string) : option nat :=
  match s with
  | EmptyString => None
  | _ => parse_digits s 0%nat
  end.

(** Modelled from the spec: range of a cron field, for the absent
    scheduler's parser. *)
Definition in_bounds (lo hi n : nat) : bool :=
  ((lo <=? n) && (n <=? hi))%nat.

(** Modelled from the spec: one item of a field, within the field's
    range, for the absent scheduler's parser. *)
Definition parse_item (lo hi : nat) (s : string) : option CronItem :=
  if String.eqb s "*" then Some Star
  else match split_on "-" s with
       | [a] =>
           match parse_nat a with
           | Some n => if in_bounds lo hi n then Some (Num n) else None
           | None => None
           end
       | [a; b] =>
           match parse_nat a, parse_nat b with
           | Some x, Some y =>
               if in_bounds lo hi x && in_bounds lo hi y && (x <=? y)%nat
               then Some (Range x y) else None
           | _, _ => None
           end
       | _ => None
       end.

(** Modelled from the spec: the items of a field, for the absent
    scheduler's parser. *)
Fixpoint parse_items (lo hi : nat) (l : list string) : option CronField :=
  match l with
  | [] => Some []
  | s :: l' =>
      match parse_item lo hi s, parse_items lo hi l' with
      | Some it, Some its => Some (it :: its)
      | _, _ => None
      end
  end.

(** Modelled from the spec: a field as a comma-separated list of items,
    for the absent scheduler's parser. *)
Definition parse_field (lo hi : nat) (s : string) : option CronField :=
  parse_items lo hi (split_on "," s).

(** Modelled from the spec: a schedule descriptor is a five-field string
    (section 6); the day-of-week field runs from 0 to 7.  Part of the
    absent scheduler. *)
Definition parse_cron (s : string) : option Cron :=
  match split_on " " s with
  | [mi; ho; dm; mo; dw] =>
      match parse_field 0 59 mi, parse_field 0 23 ho, parse_field 1 31 dm,
            parse_field 1 12 mo, parse_field 0 7 dw with
      | Some a, Some b, Some c, Some d, Some e => Some (mkCron a b c d e)
      | _, _, _, _, _ => None
      end
  | _ => None
  end.

(** Modelled from the spec: whether a clock component satisfies an item,
    for the absent scheduler. *)
Definition item_matches (v : Z) (it : CronItem) : bool :=
  match it with
  | Star => true
  | Num n => (v =? Z.of_nat n)%Z
  | Range lo hi => ((Z.of_nat lo <=? v) && (v <=? Z.of_nat hi))%Z
  end.

(** Modelled from the spec: whether a clock component satisfies a field,
    for the absent scheduler. *)
Definition field_matches (f : CronField) (v : Z) : bool :=
  existsb (item_matches v) f.

(** Modelled from the spec: day of week 0 and 7 both mean Sunday (section
    4.5): a week day [v] in [0 .. 6], Sunday being 0, also matches as 7
    when it is 0.  Part of the absent scheduler. *)
Definition dow_matches (f : CronField) (v : Z) : bool :=
  field_matches f v || ((v =? 0)%Z && field_matches f 7%Z).

(** Modelled from the spec: the wall clock of the absent scheduler, in
    seconds since 1970-01-01 00:00:00, a Thursday. *)
Definition day_of (t : Z) : Z := (t / 86400)%Z.
(** Modelled from the spec: minute of the day of a clock time, for the
    absent scheduler. *)
Definition minute_of_day (t : Z) : Z := ((t mod 86400) / 60)%Z.
(** Modelled from the spec: day of the week of a day number, Sunday
    being 0, for the absent scheduler. *)
Definition weekday (day : Z) : Z := ((day + 4) mod 7)%Z.

(** Modelled from the spec: civil date of a day number (proleptic
    Gregorian calendar), for the month and day-of-month fields of the
    absent scheduler. *)
Definition civil (day : Z) : Z * Z * Z :=
  let z := (day + 719468)%Z in
  let era := (z / 146097)%Z in
  let doe := (z - era * 146097)%Z in
  let yoe := ((doe - doe / 1460 + doe / 36524 - doe / 146096) / 365)%Z in
  let doy := (doe - (365 * yoe + yoe / 4 - yoe / 100))%Z in
  let mp := ((5 * doy + 2) / 153)%Z in
  let d := (doy - (153 * mp + 2) / 5 + 1)%Z in
  let m := (if mp <? 10 then mp + 3 else mp - 9)%Z in
  let y := (yoe + era * 400 + (if m <=? 2 then 1 else 0))%Z in
  (y, m, d).

(** Modelled from the spec: month of a day number, for the absent
    scheduler. *)
Definition month_of (day : Z) : Z := snd (fst (civil day)).
(** Modelled from the spec: day of the month of a day number, for the
    absent scheduler. *)
Definition day_of_month (day : Z) : Z := snd (civil day).

(** Modelled from the spec: the clock time [h:m:s] of a day, for the
    absent scheduler. *)
Definition at_clock (day h m s : Z) : Z :=
  (day * 86400 + h * 3600 + m * 60 + s)%Z.

(** Modelled from the spec: the three date fields of section 4.5 all
    match the day, for the absent scheduler. *)
Definition day_matches (c : Cron) (day : Z) : bool :=
  field_matches (c_dom c) (day_of_month day) &&
  field_matches (c_month c) (month_of day) &&
  dow_matches (c_dow c) (weekday day).

(** Modelled from the spec: the hour and minute fields of section 4.5
    match the minute of the day, for the absent scheduler. *)
Definition minute_matches (c : Cron) (m : Z) : bool :=
  field_matches (c_hour c) (m / 60)%Z &&
  field_matches (c_minute c) (m mod 60)%Z.

(** Modelled from the spec: a fire time of a schedule (section 4.5): a
    minute boundary at which all five fields match, for the absent
    scheduler. *)
Definition fires (c : Cron) (t : Z) : bool :=
  (t mod 60 =? 0)%Z && day_matches c (day_of t) &&
  minute_matches c (minute_of_day t).

(** Modelled from the spec: first matching minute of a day at or after
    minute [m], for the absent scheduler. *)
Fixpoint find_minute (c : Cron) (fuel : nat) (m : Z) : option Z :=
  match fuel with
  | O => None
  | S fuel' =>
      if (1440 <=? m)%Z then None
      else if minute_matches c m then Some m
      else find_minute c fuel' (m + 1)%Z
  end.

(** Modelled from the spec: first matching minute on or after a day,
    looking at most [fuel] days ahead, for the absent scheduler. *)
Fixpoint find_day (c : Cron) (fuel : nat) (day : Z) (from_minute : Z)
  : option Z :=
  match fuel with
  | O => None
  | S fuel' =>
      if day_matches c day then
        match find_minute c 1440 from_minute with
        | Some m => Some (day * 86400 + m * 60)%Z
        | None => find_day c fuel' (day + 1)%Z 0%Z
        end
      else find_day c fuel' (day + 1)%Z 0%Z
  end.

(** Modelled from the spec: days the absent scheduler looks ahead: eight
    years, enough to reach the next 29 February across a century year
    without one. *)
Definition horizon : nat := 2930.

(** Modelled from the spec: the next eligible fire time (section 4.5): the
    earliest minute boundary strictly after [now] whose minute, hour, day
    of month, month and day of week all match.  Part of the absent
    scheduler. *)
Definition next_fire (c : Cron) (now : Z) : option Z :=
  find_day c horizon (day_of now) (minute_of_day now + 1)%Z.

(** Modelled from the spec: a Schedule bound to a flow (section 3) and the
    trigger of section 4.5: when the clock has reached the fire time, a
    FlowRun is created and the subsequent fire time is computed from the
    clock, so missed fires are not made up for.  Part of the absent
    scheduler. *)
Record Scheduler : Type := mkScheduler {
  sch_cron : Cron;
  sch_flow : string;
  sch_next : option Z;
  sch_fired : list Z
}.

(** Modelled from the spec: setting up a Schedule from its descriptor
    (section 6) at clock time [now], in the absent scheduler. *)
Definition schedule (expr flow : string) (now : Z) : option Scheduler :=
  match parse_cron expr with
  | Some c => Some (mkScheduler c flow (next_fire c now) [])
  | None => None
  end.

(** Modelled from the spec: the trigger of section 4.5 looking at the
    clock: at or after the fire time it creates a FlowRun and computes the
    subsequent fire time.  Part of the absent scheduler. *)
Definition tick (s : Scheduler) (now : Z) : Scheduler :=
  match sch_next s with
  | Some t =>
      if (t <=? now)%Z
      then mkScheduler (sch_cron s) (sch_flow s)
             (next_fire (sch_cron s) now) (sch_fired s ++ [now])
      else s
  | None => s
  end.

(* ===================================================================== *)
(** ** Vocabulary of the statements *)
(* ===================================================================== *)

(** Names for what the theorems below talk about: the call log of a run,
    the constants and the expected graph of the flow, the shapes the store
    takes while the engine works through it. *)

(** A call that makes a unit draw from numpy's global generator:
    [split_train_test] explicitly given [random_state=None]. *)
Definition uses_global_rng (t : TaskName) (args : list Value) : bool :=
  match t, args with
  | T_split_train_test, [_; _; _; VNone] => true
  | _, _ => false
  end.

(** The file a [load_data] call reads, if the call is one. *)
Definition file_read (t : TaskName) (args : list Value) : option string :=
  match t, args with
  | T_load_data, [VStr path] => Some path
  | _, _ => None
  end.

(** The call log of a run: every invocation with its arguments and
    outcome, in the order Python makes them. *)
Fixpoint run_log {B : Backend} {A} (f : Flow A) (w : World)
  : list (TaskName * list Value * Result Value) :=
  match f with
  | Ret _ => []
  | Call t args k =>
      let '(r, w') := call_task t args w in
      (t, args, r) ::
      match r with
      | Ok v => run_log (k v) w'
      | Err _ => []
      end
  | Print _ k => run_log k w
  | Raise _ => []
  end.

(** The constants bound at the top of both workflow bodies. *)
Definition INPUTS : Value :=
  VList [VStr "SepalLengthCm"; VStr "SepalWidthCm";
         VStr "PetalLengthCm"; VStr "PetalWidthCm"].
Definition OUTPUT : Value := VStr "Species".
Definition HYPERPARAMETERS : Value :=
  VDict [("n_neighbors", VInt 3); ("p", VInt 2)].

(** The six invocations of a run that reaches the end of the body. *)
Inductive Successful {B : Backend} (path : string) (w : World) (a b : Q)
  : Prop :=
| successful_run
    (df X : DataFrame) (y : Series)
    (Xtr Xte : DataFrame) (ytr yte : Series)
    (Xtrs Xtes : ndarray) (model : KNeighborsClassifier)
    (ok_load :
       call_task T_load_data [VStr path] w = (Ok (VFrame df), w))
    (ok_io :
       call_task T_split_inputs_output [VFrame df; INPUTS; OUTPUT] w =
       (Ok (VTuple [VFrame X; VSeries y]), w))
    (ok_split :
       call_task T_split_train_test [VFrame X; VSeries y] w =
       (Ok (VList [VFrame Xtr; VFrame Xte; VSeries ytr; VSeries yte]), w))
    (ok_scale :
       call_task T_preprocess_data
         [VFrame Xtr; VFrame Xte; VSeries ytr; VSeries yte] w =
       (Ok (VTuple [VArray Xtrs; VArray Xtes; VSeries ytr; VSeries yte]),
        w))
    (ok_train :
       call_task T_train_model [VArray Xtrs; VSeries ytr; HYPERPARAMETERS] w
       = (Ok (VModel model), w))
    (ok_eval :
       call_task T_evaluate_model
         [VModel model; VArray Xtrs; VSeries ytr; VArray Xtes; VSeries yte]
         w = (Ok (VTuple [VFloat a; VFloat b]), w)).

(** The runs the graph builder is expected to derive from the body, for a
    given data path: every argument is a constant of the body or a
    placeholder for (a component of) an earlier run's result. *)
Definition flow_runs (path : string) : list TaskRun :=
  [mkRun 0 T_load_data [VStr path] [] Scheduled 0 None;
   mkRun 1 T_split_inputs_output [VFuture 0 []; INPUTS; OUTPUT] [0%nat]
         Scheduled 0 None;
   mkRun 2 T_split_train_test [VFuture 1 [(0, 2)]; VFuture 1 [(1, 2)]]%nat
         [1%nat] Scheduled 0 None;
   mkRun 3 T_preprocess_data
         [VFuture 2 [(0, 4)]; VFuture 2 [(1, 4)];
          VFuture 2 [(2, 4)]; VFuture 2 [(3, 4)]]%nat
         [2%nat] Scheduled 0 None;
   mkRun 4 T_train_model
         [VFuture 3 [(0, 4)]; VFuture 3 [(2, 4)]; HYPERPARAMETERS]%nat
         [3%nat] Scheduled 0 None;
   mkRun 5 T_evaluate_model
         [VFuture 4 []; VFuture 3 [(0, 4)]; VFuture 3 [(2, 4)];
          VFuture 3 [(1, 4)]; VFuture 3 [(3, 4)]]%nat
         [4%nat; 3%nat] Scheduled 0 None].

(** What the body prints when it is traced: the two score lines, with
    placeholders for the scores. *)
Definition flow_printed : list (list Value) :=
  [[VStr "Train Score:"; VFuture 5 [(0, 2)]%nat];
   [VStr "Test Score:"; VFuture 5 [(1, 2)]%nat]].

(** The order in which the body invokes the tasks. *)
Definition flow_order : list nat := [0; 1; 2; 3; 4; 5]%nat.

(** Static part of a run: what tracing fixed and execution never
    changes. *)
Definition binding (r : TaskRun) : nat * TaskName * list Value * list nat :=
  (tr_id r, tr_task r, tr_args r, tr_upstream r).

(** Edges that only point to smaller identifiers cannot form a cycle. *)
Definition forward (runs : list TaskRun) : Prop :=
  forall r d, In r runs -> In d (tr_upstream r) -> (d < tr_id r)%nat.

(** A run that completed at its first attempt with result [v]. *)
Definition completed_with (rv : TaskRun * Value) : TaskRun :=
  set_outcome Completed 1 (Ok (snd rv)) (fst rv).

(** The events of runs completing one after the other, each at its first
    attempt. *)
Definition completion_events (ids : list nat) : list Event :=
  flat_map (fun id => [task_event id Scheduled Running None;
                       task_event id Running Completed None]) ids.

(** The two runs before the split, completed with results [v0] and [v1]. *)
Definition upstream_done (path : string) (v0 v1 : Value) : list TaskRun :=
  map completed_with (combine (firstn 2 (flow_runs path)) [v0; v1]).

(** The run of [split_train_test] in a given state, after [k] attempts. *)
Definition split_run (st : State) (k : nat) (res : option (Result Value))
  : TaskRun :=
  mkRun 2 T_split_train_test
        [VFuture 1 [(0, 2)]; VFuture 1 [(1, 2)]]%nat [1%nat] st k res.

(** The store while the split is waiting for its next attempt. *)
Definition retrying_runs (path : string) (v0 v1 : Value) (k : nat)
    (res : option (Result Value)) : list TaskRun :=
  upstream_done path v0 v1 ++ split_run Scheduled k res
    :: skipn 3 (flow_runs path).

(** The store once the split has failed for good: the three runs behind
    it are [Skipped]. *)
Definition failed_runs (path : string) (v0 v1 : Value) (n : nat) (e : Exc)
  : list TaskRun :=
  upstream_done path v0 v1 ++ split_run Failed n (Some (Err e))
    :: map (set_state Skipped) (skipn 3 (flow_runs path)).

(** The tasks of the flow in the order of their invocation. *)
Definition flow_tasks : list TaskName :=
  [T_load_data; T_split_inputs_output; T_split_train_test;
   T_preprocess_data; T_train_model; T_evaluate_model].

(** Every run is [Completed], after exactly one attempt. *)
Definition all_completed (rs : list TaskRun) : bool :=
  forallb (fun r => State_eqb (tr_state r) Completed &&
                    (tr_attempts r =? 1)%nat) rs.

(** [Straight P l f]: whatever values the units return, the body [f]
    invokes the tasks of [l] in this order (stopping early only by raising),
    never makes a unit draw from the global generator, and lets [load_data]
    read only files in [P]. *)
Inductive Straight {A} (P : string -> Prop)
  : list TaskName -> Flow A -> Prop :=
| straight_ret l a : Straight P l (Ret a)
| straight_raise l e : Straight P l (Raise e)
| straight_print l items k :
    Straight P l k -> Straight P l (Print items k)
| straight_call t l args k :
    uses_global_rng t args = false ->
    (forall path, file_read t args = Some path -> P path) ->
    (forall v, Straight P l (k v)) ->
    Straight P (t :: l) (Call t args k).

(** The tasks of a call log, in order. *)
Definition log_tasks (log : list (TaskName * list Value * Result Value))
  : list TaskName :=
  map (fun entry => fst (fst entry)) log.

(** The constants of the orchestrated flow body. *)
Definition flow_constants : list Value :=
  [VStr "data/iris.csv"; INPUTS; OUTPUT; HYPERPARAMETERS].

(** A literal argument: anything but a placeholder. *)
Definition is_literal (v : Value) : bool :=
  match v with
  | VFuture _ _ => false
  | _ => true
  end.

(** The literal arguments captured for a run when the body is traced. *)
Definition static_bindings (r : TaskRun) : TaskName * list Value :=
  (tr_task r, filter is_literal (tr_args r)).

(** The constant bindings of the flow, written out, for a given data
    path. *)
Definition flow_bindings (path : string) : list (TaskName * list Value) :=
  [(T_load_data, [VStr path]);
   (T_split_inputs_output,
    [VList [VStr "SepalLengthCm"; VStr "SepalWidthCm";
            VStr "PetalLengthCm"; VStr "PetalWidthCm"];
     VStr "Species"]);
   (T_split_train_test, []);
   (T_preprocess_data, []);
   (T_train_model, [VDict [("n_neighbors", VInt 3); ("p", VInt 2)]]);
   (T_evaluate_model, [])].

(** The dependency edges of the flow: (run, upstream run). *)
Definition flow_edges : list (nat * nat) :=
  [(1, 0); (2, 1); (3, 2); (4, 3); (5, 4); (5, 3)]%nat.

(** Worlds holding the files of [small_world]. *)
Definition same_files (w : @World ref_backend) : Prop :=
  fs w = fs small_world.

(** An array all of whose rows have [k] entries. *)
Definition rectangular (k : nat) (m : ndarray) : Prop :=
  Forall (fun r => List.length r = k) m.

(** The two petal measurements of an iris table. *)
Definition two_features (df : DataFrame) : DataFrame :=
  mkFrame ["PetalLengthCm"; "PetalWidthCm"]
    (map (fun r => [nth 3 r (CStr ""); nth 4 r (CStr "")]) (rows df)).

(** The labels a fitted model predicts for the samples of [X]. *)
Definition predictions {B : Backend} (model : KNeighborsClassifier)
    (Xfit : ndarray) (X : ndarray) : Series :=
  map (kneighbors_vote (n_neighbors model) (p model) Xfit (fit_y model)) X.

(** Number of agreeing positions over number of labels. *)
Definition accuracy (y_true y_pred : Series) : Q :=
  Z.of_nat (count_equal y_true y_pred) # Pos.of_nat (List.length y_true).

(** Train and test rows of the default split: the permutation drawn from
    the generator seeded with 0, cut after the first [ceil (n / 4)]
    indices. *)
Definition default_test_indices {B : Backend} (n : nat) : list nat :=
  firstn ((n + 3) / 4) (fst (permutation (RandomState_seed 0) n)).

(** The remaining indices of that permutation. *)
Definition default_train_indices {B : Backend} (n : nat) : list nat :=
  skipn ((n + 3) / 4) (fst (permutation (RandomState_seed 0) n)).

(** The parsed forms of ["0 1 * * *"], ["0 0 * * 0"] and ["0 0 * * 7"]. *)
Definition daily_one_am : Cron := mkCron [Num 0] [Num 1] [Star] [Star] [Star].

Definition sunday_as_0 : Cron := mkCron [Num 0] [Num 0] [Star] [Star] [Num 0].
Definition sunday_as_7 : Cron := mkCron [Num 0] [Num 0] [Star] [Star] [Num 7].


(** A cell that cannot be converted to a float: text [float()] does not
    accept. *)
Definition is_bad_text {B : Backend} (c : Cell) : bool :=
  negb (is_ok (cell_to_float c)).

(** A table with such a cell somewhere. *)
Definition has_bad_text {B : Backend} (df : DataFrame) : bool :=
  existsb (existsb is_bad_text) (rows df).

(** A cell that converts to a finite number: a number, or text that
    spells one. *)
Definition is_finite {B : Backend} (c : Cell) : bool :=
  match cell_to_float c with
  | Ok (Finite _) => true
  | _ => false
  end.

(** The labels bound to [INPUTS]. *)
Definition input_names : list string :=
  ["SepalLengthCm"; "SepalWidthCm"; "PetalLengthCm"; "PetalWidthCm"].

(** The column [name] exists and every cell of it converts to a finite
    number. *)
Definition finite_column {B : Backend} (df : DataFrame) (name : string)
  : bool :=
  match index_of name (columns df) with
  | Some k => forallb (fun r => is_finite (nth k r (CStr ""))) (rows df)
  | None => false
  end.


(** The cells of the column [name], top to bottom. *)
Definition column_cells (df : DataFrame) (name : string) : Series :=
  match index_of name (columns df) with
  | Some k => map (fun r => nth k r (CStr "")) (rows df)
  | None => []
  end.

(** A table of [k] columns whose cells all convert to finite numbers. *)
Definition finite_frame {B : Backend} (k : nat) (X : DataFrame) : Prop :=
  Forall (fun r => forallb is_finite r = true /\ List.length r = k) (rows X).



(** The outcomes of the invocations of a run, in order. *)
Definition outcomes (log : list (TaskName * list Value * Result Value))
  : list (Result Value) :=
  map snd log.

(** Sample data for the edge cases: the first three rows of the sample, a
    table one of whose measurements was typed with a decimal comma (the
    whole column then reaches the program as text), the labels and the
    petal measurements of the sample as an array, and the world holding a
    given table as the data file. *)
Definition iris_three_rows : DataFrame :=
  mkFrame iris_columns (firstn 3 (rows iris_sample)).

Definition mistyped_row : list Cell :=
  [CNum 2; CNum (49 # 10); CNum (30 # 10); CNum (14 # 10); CStr "0,2";
   CStr "Iris-setosa"].

Definition iris_mistyped : DataFrame :=
  mkFrame iris_columns
    [[CNum 1; CNum (51 # 10); CNum (35 # 10); CNum (14 # 10); CStr "0.2";
      CStr "Iris-setosa"];
     mistyped_row;
     [CNum 3; CNum (47 # 10); CNum (32 # 10); CNum (13 # 10); CStr "0.2";
      CStr "Iris-setosa"]].

Definition iris_labels : Series :=
  map (fun r => nth 5 r (CStr "")) (rows iris_sample).

Definition petal_array : ndarray :=
  [[14 # 10; 2 # 10]; [14 # 10; 2 # 10]; [13 # 10; 2 # 10];
   [47 # 10; 14 # 10]; [45 # 10; 15 # 10]; [49 # 10; 15 # 10];
   [60 # 10; 25 # 10]; [51 # 10; 19 # 10]]%Q.

Definition world_with (df : DataFrame) : @World ref_backend :=
  @mkWorld ref_backend (single_file "data/iris.csv" df) 7%nat [].

(* ===================================================================== *)
(** ** Properties of the tasks *)
(* ===================================================================== *)

Section TaskFacts.

Context {B : Backend}.

Lemma world_eta (w : World) : mkWorld (fs w) (np_random w) (stdout w) = w.
Proof. destruct w; reflexivity. Qed.

Lemma train_test_split_seeded X y ts seed g :
  snd (train_test_split X y ts (Some seed) g) = g.
Proof.
  unfold train_test_split.
  destruct (negb _); [reflexivity|].
  destruct (n_test_of ts _); [|reflexivity].
  destruct (_ =? 0)%nat; [reflexivity|].
  destruct (permutation _ _); reflexivity.
Qed.

Lemma train_test_split_seeded_result X y ts seed g g' :
  fst (train_test_split X y ts (Some seed) g) =
  fst (train_test_split X y ts (Some seed) g').
Proof.
  unfold train_test_split.
  destruct (negb _); [reflexivity|].
  destruct (n_test_of ts _); [|reflexivity].
  destruct (_ =? 0)%nat; [reflexivity|].
  cbn [check_random_state].
  destruct (permutation _ _); reflexivity.
Qed.

Lemma split_train_test_world X y ts rs w :
  rs <> Some VNone ->
  snd (split_train_test X y ts rs w) = w.
Proof.
  intros Hrs. unfold split_train_test.
  destruct (as_frame X) as [df|e]; cbn [rbind]; [|reflexivity].
  destruct (as_series y) as [ys|e]; cbn [rbind]; [|reflexivity].
  destruct (as_test_size _) as [t|e]; cbn [rbind]; [|reflexivity].
  destruct rs as [rs|]; cbn [as_random_state default_random_state rbind].
  - destruct rs; cbn [as_random_state rbind]; try reflexivity.
    + congruence.
    + destruct (_ && _); cbn [rbind]; [|reflexivity].
      pose proof (train_test_split_seeded df ys t z (np_random w)) as Hs.
      destruct (train_test_split df ys t (Some z) (np_random w)) as [r g].
      cbn [snd] in *. subst g. apply world_eta.
  - change ((0 <=? 0)%Z && (0 <? 4294967296)%Z) with true. cbn [rbind].
    pose proof (train_test_split_seeded df ys t 0%Z (np_random w)) as Hs.
    destruct (train_test_split df ys t (Some 0%Z) (np_random w)) as [r g].
    cbn [snd] in *. subst g. apply world_eta.
Qed.

Lemma split_train_test_indep X y ts rs w1 w2 :
  rs <> Some VNone ->
  fst (split_train_test X y ts rs w1) = fst (split_train_test X y ts rs w2).
Proof.
  intros Hrs. unfold split_train_test.
  destruct (as_frame X) as [df|e]; cbn [rbind]; [|reflexivity].
  destruct (as_series y) as [ys|e]; cbn [rbind]; [|reflexivity].
  destruct (as_test_size _) as [t|e]; cbn [rbind]; [|reflexivity].
  destruct rs as [rs|]; cbn [as_random_state default_random_state rbind].
  - destruct rs; cbn [as_random_state rbind]; try reflexivity.
    + congruence.
    + destruct (_ && _); cbn [rbind]; [|reflexivity].
      pose proof (train_test_split_seeded_result df ys t z
                    (np_random w1) (np_random w2)) as Hs.
      destruct (train_test_split df ys t (Some z) (np_random w1)).
      destruct (train_test_split df ys t (Some z) (np_random w2)).
      cbn [fst] in *. subst. reflexivity.
  - change ((0 <=? 0)%Z && (0 <? 4294967296)%Z) with true. cbn [rbind].
    pose proof (train_test_split_seeded_result df ys t 0%Z
                  (np_random w1) (np_random w2)) as Hs.
    destruct (train_test_split df ys t (Some 0%Z) (np_random w1)).
    destruct (train_test_split df ys t (Some 0%Z) (np_random w2)).
    cbn [fst] in *. subst. reflexivity.
Qed.

Ltac split_args args :=
  destruct args as [|?a0 [|?a1 [|?a2 [|?a3 [|?a4 [|?a5 args]]]]]].

(** No task changes the world, unless it is made to draw from numpy's
    global generator. *)
Lemma call_task_world t args w :
  uses_global_rng t args = false ->
  snd (call_task t args w) = w.
Proof.
  intros H.
  destruct t; split_args args; try reflexivity;
    cbn [call_task];
    try (apply split_train_test_world; congruence).
  apply split_train_test_world.
  intros E. injection E as ->. discriminate H.
Qed.

(** The outcome of a task is a function of its arguments and, for
    [load_data], of the file it names. *)
Lemma call_task_indep t args w1 w2 :
  uses_global_rng t args = false ->
  (forall path, file_read t args = Some path -> fs w1 path = fs w2 path) ->
  fst (call_task t args w1) = fst (call_task t args w2).
Proof.
  intros H Hfs.
  destruct t; split_args args; try reflexivity;
    cbn [call_task];
    try (apply split_train_test_indep; congruence).
  - unfold load_data. cbn [fst].
    destruct a0; try reflexivity.
    cbn [as_str rbind]. unfold read_csv.
    rewrite (Hfs s eq_refl). reflexivity.
  - apply split_train_test_indep.
    intros E. injection E as ->. discriminate H.
Qed.

End TaskFacts.

(* ===================================================================== *)
(** ** What a successful run of the flow body consists of *)
(* ===================================================================== *)

Section FlowFacts.

Context {B : Backend}.

Ltac unbind H :=
  repeat match type of H with
         | context [rbind ?r _] =>
             let E := fresh "E" in
             destruct r eqn:E; cbn [rbind] in H; try discriminate H
         end.

Lemma load_data_shape a w v :
  fst (load_data a w) = Ok v -> exists df, v = VFrame df.
Proof.
  unfold load_data; cbn [fst]; intros H. unbind H.
  injection H as <-. eauto.
Qed.

Lemma split_inputs_output_shape d i o w v :
  fst (split_inputs_output d i o w) = Ok v ->
  exists X y, v = VTuple [VFrame X; VSeries y].
Proof.
  unfold split_inputs_output; cbn [fst]; intros H. unbind H.
  injection H as <-. eauto.
Qed.

Lemma train_test_split_shape X y ts rs g l :
  fst (train_test_split X y ts rs g) = Ok l ->
  exists Xtr Xte ytr yte,
    l = [VFrame Xtr; VFrame Xte; VSeries ytr; VSeries yte].
Proof.
  unfold train_test_split.
  destruct (negb _); [discriminate|].
  destruct (n_test_of ts _); [|discriminate].
  destruct (_ =? 0)%nat; [discriminate|].
  destruct (permutation _ _). cbn [fst].
  intros H. injection H as <-. eauto.
Qed.

Lemma split_train_test_shape X y ts rs w v :
  fst (split_train_test X y ts rs w) = Ok v ->
  exists Xtr Xte ytr yte,
    v = VList [VFrame Xtr; VFrame Xte; VSeries ytr; VSeries yte].
Proof.
  unfold split_train_test.
  destruct (df <- as_frame X ;; _) as [[[[df ys] t] r]|e];
    [|discriminate].
  pose proof (train_test_split_shape df ys t r (np_random w)) as Hs.
  destruct (train_test_split df ys t r (np_random w)) as [res g].
  cbn [fst] in *. destruct res as [l|e]; [|discriminate].
  cbn [rbind]. intros H. injection H as <-.
  destruct (Hs l eq_refl) as (Xtr & Xte & ytr & yte & ->). eauto 6.
Qed.

Lemma preprocess_data_shape Xtr Xte ytr yte w v :
  fst (preprocess_data Xtr Xte ytr yte w) = Ok v ->
  exists a b, v = VTuple [VArray a; VArray b; ytr; yte].
Proof.
  unfold preprocess_data; cbn [fst]; intros H.
  destruct (as_frame Xtr); cbn [rbind] in H; [|discriminate H].
  destruct (fit_transform _ _) as [[tr s]|]; cbn [rbind] in H;
    [|discriminate H].
  unbind H. injection H as <-. eauto.
Qed.

Lemma train_model_shape X y h w v :
  fst (train_model X y h w) = Ok v -> exists m, v = VModel m.
Proof.
  unfold train_model; cbn [fst]; intros H. unbind H.
  injection H as <-. eauto.
Qed.

Lemma evaluate_model_shape m Xtr ytr Xte yte w v :
  fst (evaluate_model m Xtr ytr Xte yte w) = Ok v ->
  exists a b, v = VTuple [VFloat a; VFloat b].
Proof.
  unfold evaluate_model; cbn [fst]; intros H. unbind H.
  injection H as <-. eauto.
Qed.

Ltac run_call shape :=
  match goal with
  | |- context [call_task ?t ?args ?w] =>
      let r := fresh "r" in
      let w' := fresh "w'" in
      let E := fresh "E" in
      let Hw := fresh "Hw" in
      let Hs := fresh "Hs" in
      pose proof (call_task_world t args w eq_refl) as Hw;
      destruct (call_task t args w) as [r w'] eqn:E;
      cbn [snd] in Hw; subst w';
      destruct r as [?v|?e]; [|reflexivity];
      pose proof (shape _ (f_equal fst E)) as Hs; cbn [fst] in Hs
  end.

(** A run of the plain workflow either fails in one of its units, leaving
    the world as it was, or makes the six invocations and prints the two
    scores of the last one. *)
Lemma run_workflow_plain_inv (path : string) (w : World) :
  match run_flow (workflow_plain path) w with
  | (Ok v, w') =>
      v = VNone /\
      exists a b,
        Successful path w a b /\
        w' = write_stdout [VStr "Test Score:"; VFloat b]
               (write_stdout [VStr "Train Score:"; VFloat a] w)
  | (Err _, w') => w' = w
  end.
Proof.
  unfold workflow_plain. cbn -[call_task].
  run_call (fun v => load_data_shape (VStr path) w v).
  destruct Hs as (df & ->).
  cbn -[call_task].
  run_call (fun v => split_inputs_output_shape (VFrame df) INPUTS OUTPUT w v).
  destruct Hs as (X & y & ->).
  cbn -[call_task].
  run_call (fun v => split_train_test_shape (VFrame X) (VSeries y)
                       None None w v).
  destruct Hs as (Xtr & Xte & ytr & yte & ->).
  cbn -[call_task].
  run_call (fun v => preprocess_data_shape (VFrame Xtr) (VFrame Xte)
                       (VSeries ytr) (VSeries yte) w v).
  destruct Hs as (Xtrs & Xtes & ->).
  cbn -[call_task].
  run_call (fun v => train_model_shape (VArray Xtrs) (VSeries ytr)
                       HYPERPARAMETERS w v).
  destruct Hs as (model & ->).
  cbn -[call_task].
  run_call (fun v => evaluate_model_shape (VModel model) (VArray Xtrs)
                       (VSeries ytr) (VArray Xtes) (VSeries yte) w v).
  destruct Hs as (a & b & ->).
  cbn -[call_task].
  split; [reflexivity|].
  exists a, b. split; [|reflexivity].
  econstructor; eassumption.
Qed.

Lemma workflow_is_plain :
  workflow = workflow_plain "data/iris.csv".
Proof. reflexivity. Qed.

End FlowFacts.

(* ===================================================================== *)
(** ** The graph of the flow *)
(* ===================================================================== *)

Lemma build_graph_workflow_plain (path : string) :
  build_graph (workflow_plain path) =
  inr (mkGraph (flow_runs path) flow_printed, flow_order).
Proof. reflexivity. Qed.

Lemma forward_depends_trans runs a b :
  forward runs -> depends_trans runs a b -> (b < a)%nat.
Proof.
  intros Hf H. induction H as [a b (r & Hin & <- & Hd)
                              | a b c (r & Hin & <- & Hd) _ IH].
  - eapply Hf; eassumption.
  - specialize (Hf r b Hin Hd). lia.
Qed.

Lemma forward_acyclic runs : forward runs -> acyclic runs.
Proof.
  intros Hf a H. apply (forward_depends_trans _ _ _ Hf) in H. lia.
Qed.

Lemma flow_runs_forward path : forward (flow_runs path).
Proof.
  intros r d Hin Hd. cbn in Hin.
  repeat (destruct Hin as [<-|Hin]; [cbn in *; intuition lia|]).
  contradiction.
Qed.

(* ===================================================================== *)
(** ** Facts about the dispatch loop *)
(* ===================================================================== *)

Section EngineFacts.

Context {W : Type}.
Variable exec : TaskName -> list Value -> W -> Result Value * W.
Variable max_attempts : TaskName -> nat.

#[local] Abbreviation stepE := (step exec max_attempts).
#[local] Abbreviation loopE := (dispatch_loop exec max_attempts).

Lemma dispatch_loop_step fuel s s' :
  stepE s = Some s' -> loopE (S fuel) s = loopE fuel s'.
Proof. intros H. cbn [dispatch_loop]. rewrite H. reflexivity. Qed.

Lemma dispatch_loop_done fuel s :
  stepE s = None -> loopE fuel s = s.
Proof. intros H. destruct fuel; cbn; [|rewrite H]; reflexivity. Qed.

(** Fuel beyond what the loop needs to drain the graph changes nothing. *)
Lemma dispatch_loop_more n : forall m s,
  stepE (loopE n s) = None -> (n <= m)%nat ->
  loopE m s = loopE n s.
Proof.
  induction n as [|n IH]; intros m s Hdone Hle.
  - cbn in *. apply dispatch_loop_done; assumption.
  - destruct m as [|m]; [lia|].
    cbn [dispatch_loop] in *.
    destruct (stepE s) as [s'|]; [|reflexivity].
    apply IH; [assumption|lia].
Qed.

Lemma step_ok s r args v w' :
  first_ready (runs s) (order s) = Some r ->
  rmap (resolve (runs s)) (tr_args r) = Ok args ->
  exec (tr_task r) args (world s) = (Ok v, w') ->
  stepE s =
  Some (mkStore
          (update_run (tr_id r)
             (set_outcome Completed (S (tr_attempts r)) (Ok v)) (runs s))
          (order s)
          ((events s ++ [task_event (tr_id r) Scheduled Running None])
             ++ [task_event (tr_id r) Running Completed None])
          w').
Proof.
  intros Hr Ha He. unfold step, attempt.
  rewrite Hr, Ha, He. reflexivity.
Qed.

Lemma step_retry s r args e w' :
  first_ready (runs s) (order s) = Some r ->
  rmap (resolve (runs s)) (tr_args r) = Ok args ->
  exec (tr_task r) args (world s) = (Err e, w') ->
  (S (tr_attempts r) <? max_attempts (tr_task r))%nat = true ->
  stepE s =
  Some (mkStore
          (update_run (tr_id r)
             (set_outcome Scheduled (S (tr_attempts r)) (Err e)) (runs s))
          (order s)
          ((events s ++ [task_event (tr_id r) Scheduled Running None])
             ++ [task_event (tr_id r) Running Retrying (Some e);
                 task_event (tr_id r) Retrying Scheduled None])
          w').
Proof.
  intros Hr Ha He Hn. unfold step, attempt.
  rewrite Hr, Ha, He, Hn. reflexivity.
Qed.

Lemma step_fail s r args e w' :
  first_ready (runs s) (order s) = Some r ->
  rmap (resolve (runs s)) (tr_args r) = Ok args ->
  exec (tr_task r) args (world s) = (Err e, w') ->
  (S (tr_attempts r) <? max_attempts (tr_task r))%nat = false ->
  stepE s =
  Some (let '(rs, evs) :=
          cascade (order s) [tr_id r]
            (update_run (tr_id r)
               (set_outcome Failed (S (tr_attempts r)) (Err e)) (runs s))
            ((events s ++ [task_event (tr_id r) Scheduled Running None])
               ++ [task_event (tr_id r) Running Failed (Some e)]) in
        mkStore rs (order s) evs w').
Proof.
  intros Hr Ha He Hn. unfold step, attempt.
  rewrite Hr, Ha, He, Hn. reflexivity.
Qed.

Lemma budget_flow_runs path :
  (6 <= budget max_attempts (flow_runs path))%nat /\
  (2 + Nat.max 1 (max_attempts T_split_train_test)
   <= budget max_attempts (flow_runs path))%nat.
Proof. cbn [budget flow_runs fold_right tr_task]. lia. Qed.

End EngineFacts.

Section EngineChain.

Context {W : Type}.
Variable exec : TaskName -> list Value -> W -> Result Value * W.
Variable max_attempts : TaskName -> nat.

(** When each unit succeeds at its first attempt on the values its
    upstream units produced, the engine completes the six runs in order
    and ends the FlowRun in [Completed]. *)
Lemma engine_all_complete (path : string)
    (w0 w1 w2 w3 w4 w5 w6 : W)
    (v0 X y Xtr Xte ytr yte Xtrs Xtes ytr' yte' model v5 : Value) :
  exec T_load_data [VStr path] w0 = (Ok v0, w1) ->
  exec T_split_inputs_output [v0; INPUTS; OUTPUT] w1 =
    (Ok (VTuple [X; y]), w2) ->
  exec T_split_train_test [X; y] w2 =
    (Ok (VList [Xtr; Xte; ytr; yte]), w3) ->
  exec T_preprocess_data [Xtr; Xte; ytr; yte] w3 =
    (Ok (VTuple [Xtrs; Xtes; ytr'; yte']), w4) ->
  exec T_train_model [Xtrs; ytr'; HYPERPARAMETERS] w4 = (Ok model, w5) ->
  exec T_evaluate_model [model; Xtrs; ytr'; Xtes; yte'] w5 = (Ok v5, w6) ->
  run_engine exec max_attempts (workflow_plain path) w0 =
  inr (mkStore
         (map completed_with
            (combine (flow_runs path)
               [v0; VTuple [X; y]; VList [Xtr; Xte; ytr; yte];
                VTuple [Xtrs; Xtes; ytr'; yte']; model; v5]))
         flow_order
         ([mkEvent FlowEntity Scheduled Running None]
            ++ completion_events flow_order
            ++ [mkEvent FlowEntity Running Completed None])
         w6).
Proof.
  intros E0 E1 E2 E3 E4 E5.
  unfold run_engine. rewrite build_graph_workflow_plain. cbn [g_runs].
  set (s0 := mkStore (flow_runs path) flow_order
               [mkEvent FlowEntity Scheduled Running None] w0).
  assert (Hloop : exists s6,
             dispatch_loop exec max_attempts 6 s0 = s6 /\
             step exec max_attempts s6 = None /\
             finish s6 = mkStore
               (map completed_with
                  (combine (flow_runs path)
                     [v0; VTuple [X; y]; VList [Xtr; Xte; ytr; yte];
                      VTuple [Xtrs; Xtes; ytr'; yte']; model; v5]))
               flow_order
               ([mkEvent FlowEntity Scheduled Running None]
                  ++ completion_events flow_order
                  ++ [mkEvent FlowEntity Running Completed None])
               w6).
  { eexists. split.
    - subst s0.
      erewrite dispatch_loop_step
        by (eapply step_ok; [reflexivity|reflexivity|exact E0]).
      erewrite dispatch_loop_step
        by (eapply step_ok; [reflexivity|reflexivity|exact E1]).
      erewrite dispatch_loop_step
        by (eapply step_ok; [reflexivity|reflexivity|exact E2]).
      erewrite dispatch_loop_step
        by (eapply step_ok; [reflexivity|reflexivity|exact E3]).
      erewrite dispatch_loop_step
        by (eapply step_ok; [reflexivity|reflexivity|exact E4]).
      erewrite dispatch_loop_step
        by (eapply step_ok; [reflexivity|reflexivity|exact E5]).
      reflexivity.
    - split; reflexivity. }
  destruct Hloop as (s6 & Hloop & Hdone & Hfin).
  rewrite (dispatch_loop_more exec max_attempts 6).
  - rewrite Hloop, Hfin. reflexivity.
  - rewrite Hloop. exact Hdone.
  - apply budget_flow_runs.
Qed.

End EngineChain.

Section EngineFailure.

Context {W : Type}.
Variable exec : TaskName -> list Value -> W -> Result Value * W.
Variable max_attempts : TaskName -> nat.

(** What is known of the worlds the units run in. *)
Variable Inv : W -> Prop.
Hypothesis Inv_preserved :
  forall t args w, Inv w -> Inv (snd (exec t args w)).

Variable path : string.
Variables v0 X y : Value.
Hypothesis split_fails :
  forall w, Inv w -> is_ok (fst (exec T_split_train_test [X; y] w)) = false.

#[local] Abbreviation N := (Nat.max 1 (max_attempts T_split_train_test)).

Lemma retry_loop : forall d k res evs w,
  Inv w -> (k + d = N)%nat -> (1 <= d)%nat ->
  exists e evs' w',
    dispatch_loop exec max_attempts d
      (mkStore (retrying_runs path v0 (VTuple [X; y]) k res)
               flow_order evs w) =
    mkStore (failed_runs path v0 (VTuple [X; y]) N e)
            flow_order (evs ++ evs') w' /\
    forall id, In id [3; 4; 5]%nat -> existsb (is_dispatch_of id) evs' = false.
Proof.
  induction d as [|d IH]; intros k res evs w Hw Hk Hd; [lia|].
  pose proof (split_fails w Hw) as Hf.
  pose proof (Inv_preserved T_split_train_test [X; y] w Hw) as Hw'.
  destruct (exec T_split_train_test [X; y] w) as [[v|e] w'] eqn:E;
    cbn [fst snd is_ok] in *; [discriminate|].
  destruct d as [|d].
  - assert (Hn : (S k <? max_attempts T_split_train_test)%nat = false)
      by (apply Nat.ltb_ge; lia).
    erewrite dispatch_loop_step
      by (eapply step_fail; [reflexivity|reflexivity|exact E|exact Hn]).
    replace N with (S k) by lia.
    exists e. eexists. exists w'. split.
    + cbn. repeat rewrite <- app_assoc. reflexivity.
    + intros id Hid. cbn in Hid.
      destruct Hid as [<-|[<-|[<-|[]]]]; reflexivity.
  - assert (Hn : (S k <? max_attempts T_split_train_test)%nat = true)
      by (apply Nat.ltb_lt; lia).
    erewrite dispatch_loop_step
      by (eapply step_retry; [reflexivity|reflexivity|exact E|exact Hn]).
    destruct (IH (S k) (Some (Err e))
                ((evs ++ [task_event 2 Scheduled Running None])
                   ++ [task_event 2 Running Retrying (Some e);
                       task_event 2 Retrying Scheduled None])
                w' Hw' ltac:(lia) ltac:(lia))
      as (e' & evs' & w'' & Hloop & Hnd).
    exists e'. eexists. exists w''. split.
    + match goal with
      | |- dispatch_loop _ _ _ ?s = _ =>
          change s with
            (mkStore (retrying_runs path v0 (VTuple [X; y]) (S k)
                        (Some (Err e)))
               flow_order
               ((evs ++ [task_event 2 Scheduled Running None])
                  ++ [task_event 2 Running Retrying (Some e);
                      task_event 2 Retrying Scheduled None])
               w')
      end.
      rewrite Hloop. repeat rewrite <- app_assoc. reflexivity.
    + intros id Hid. rewrite !existsb_app, (Hnd id Hid).
      cbn in Hid. destruct Hid as [<-|[<-|[<-|[]]]]; reflexivity.
Qed.

Hypothesis load_ok :
  forall w, Inv w -> fst (exec T_load_data [VStr path] w) = Ok v0.
Hypothesis io_ok :
  forall w, Inv w ->
    fst (exec T_split_inputs_output [v0; INPUTS; OUTPUT] w) =
    Ok (VTuple [X; y]).

(** With the two units before the split succeeding and the split failing
    at every attempt, the engine ends with the split [Failed] after its
    last allowed attempt and the three runs behind it [Skipped] without
    ever having been dispatched. *)
Lemma engine_split_fails (w0 : W) :
  Inv w0 ->
  exists e evs w',
    run_engine exec max_attempts (workflow_plain path) w0 =
    inr (mkStore (failed_runs path v0 (VTuple [X; y]) N e)
                 flow_order evs w') /\
    forall id, In id [3; 4; 5]%nat -> existsb (is_dispatch_of id) evs = false.
Proof.
  intros Hw0.
  unfold run_engine. rewrite build_graph_workflow_plain. cbn [g_runs].
  pose proof (load_ok w0 Hw0) as H0.
  pose proof (Inv_preserved T_load_data [VStr path] w0 Hw0) as Hw1.
  destruct (exec T_load_data [VStr path] w0) as [r0 w1] eqn:E0.
  cbn [fst snd] in *. subst r0.
  pose proof (io_ok w1 Hw1) as H1.
  pose proof (Inv_preserved T_split_inputs_output
                [v0; INPUTS; OUTPUT] w1 Hw1) as Hw2.
  destruct (exec T_split_inputs_output [v0; INPUTS; OUTPUT] w1)
    as [r1 w2] eqn:E1.
  cbn [fst snd] in *. subst r1.
  set (evs2 := ((([mkEvent FlowEntity Scheduled Running None]
                    ++ [task_event 0 Scheduled Running None])
                   ++ [task_event 0 Running Completed None])
                  ++ [task_event 1 Scheduled Running None])
                 ++ [task_event 1 Running Completed None]).
  destruct (retry_loop N 0 None evs2 w2 Hw2 ltac:(lia) ltac:(lia))
    as (e & evs' & w' & Hloop & Hnd).
  assert (Hrun :
    dispatch_loop exec max_attempts (2 + N)
      (mkStore (flow_runs path) flow_order
         [mkEvent FlowEntity Scheduled Running None] w0) =
    mkStore (failed_runs path v0 (VTuple [X; y]) N e) flow_order
            (evs2 ++ evs') w').
  { cbn [Nat.add].
    erewrite dispatch_loop_step
      by (eapply step_ok; [reflexivity|reflexivity|exact E0]).
    erewrite dispatch_loop_step
      by (eapply step_ok; [reflexivity|reflexivity|exact E1]).
    exact Hloop. }
  exists e. eexists. exists w'. split.
  - rewrite (dispatch_loop_more exec max_attempts (2 + N)).
    + rewrite Hrun. reflexivity.
    + rewrite Hrun. reflexivity.
    + apply budget_flow_runs.
  - intros id Hid. cbn [events].
    rewrite !existsb_app, (Hnd id Hid).
    cbn in Hid. destruct Hid as [<-|[<-|[<-|[]]]]; reflexivity.
Qed.

End EngineFailure.

(* ===================================================================== *)
(** ** The flow under the engine *)
(* ===================================================================== *)

(** C1, as stated: with all units succeeding the engine creates exactly
    five TaskRuns.  On the sample data every unit succeeds, every TaskRun
    is [Completed] and so is the FlowRun, but the TaskRuns are six: the
    body invokes six tasks. *)
Lemma five_task_runs_refuted :
  exists s,
    run_engine (@call_task ref_backend) (fun _ => 1%nat) workflow
      demo_world = inr s /\
    flow_state (runs s) = Completed /\
    forallb (fun r => State_eqb (tr_state r) Completed) (runs s) = true /\
    map tr_task (runs s) = flow_tasks /\
    List.length (runs s) = 6%nat /\
    List.length (runs s) <> 5%nat.
Proof.
  assert (Hrun :
    match run_engine (@call_task ref_backend) (fun _ => 1%nat) workflow
            demo_world with
    | inr s =>
        flow_state (runs s) = Completed /\
        forallb (fun r => State_eqb (tr_state r) Completed) (runs s) = true /\
        map tr_task (runs s) = flow_tasks /\
        List.length (runs s) = 6%nat
    | inl _ => False
    end) by (vm_compute; repeat split; reflexivity).
  destruct (run_engine (@call_task ref_backend) (fun _ => 1%nat) workflow
              demo_world) as [e|s]; [contradiction|].
  destruct Hrun as (Hflow & Hall & Htasks & Hlen).
  exists s. repeat split; try assumption.
  rewrite Hlen. discriminate.
Qed.

(** C1, amended: when every unit of the KNN training flow succeeds, the
    engine creates exactly six TaskRuns, for [load_data],
    [split_inputs_output], [split_train_test], [preprocess_data],
    [train_model] and [evaluate_model] in this order, each depending on
    the run before it ([evaluate_model] also directly on
    [preprocess_data]); all six end [Completed] at their first attempt,
    the FlowRun ends [Completed], and the reported result is the pair of
    numeric scores returned by [evaluate_model], the same two the body
    prints. *)
Theorem knn_flow_completes_six_runs {B : Backend}
    (policy : TaskName -> nat) (w w' : World) (v : Value) :
  run_flow workflow w = (Ok v, w') ->
  exists s a b,
    run_engine call_task policy workflow w = inr s /\
    flow_state (runs s) = Completed /\
    map tr_task (runs s) = flow_tasks /\
    List.length (runs s) = 6%nat /\
    map tr_upstream (runs s) = [[]; [0]; [1]; [2]; [3]; [4; 3]]%nat /\
    all_completed (runs s) = true /\
    final_result s = Some (Ok (VTuple [VFloat a; VFloat b])) /\
    stdout w' = stdout w ++ [[VStr "Train Score:"; VFloat a];
                             [VStr "Test Score:"; VFloat b]].
Proof.
  intros Hrun.
  pose proof (run_workflow_plain_inv "data/iris.csv" w) as Hinv.
  change (run_flow (workflow_plain "data/iris.csv") w)
    with (run_flow workflow w) in Hinv.
  rewrite Hrun in Hinv.
  destruct Hinv as (_ & a & b & Hok & ->).
  destruct Hok.
  eexists. exists a, b. split.
  - change workflow with (workflow_plain "data/iris.csv").
    eapply engine_all_complete; eassumption.
  - repeat split; try reflexivity.
    cbn [write_stdout stdout]. rewrite <- app_assoc. reflexivity.
Qed.

Lemma knn_flow_completes_six_runs_witness :
  exists s a b,
    run_engine (@call_task ref_backend) (fun _ => 1%nat) workflow
      demo_world = inr s /\
    flow_state (runs s) = Completed /\
    map tr_task (runs s) = flow_tasks /\
    List.length (runs s) = 6%nat /\
    map tr_upstream (runs s) = [[]; [0]; [1]; [2]; [3]; [4; 3]]%nat /\
    all_completed (runs s) = true /\
    final_result s = Some (Ok (VTuple [VFloat a; VFloat b])) /\
    stdout (snd (run_flow workflow demo_world)) =
    stdout demo_world ++ [[VStr "Train Score:"; VFloat a];
                          [VStr "Test Score:"; VFloat b]].
Proof.
  eapply (knn_flow_completes_six_runs (B := ref_backend)
            (fun _ => 1%nat) demo_world).
  vm_compute. reflexivity.
Defined.

(* ===================================================================== *)
(** ** Straight-line flows *)
(* ===================================================================== *)

Section StraightFacts.

Context {B : Backend}.

(** Two runs of a straight-line body in worlds that agree on the files it
    reads make the same calls with the same outcomes, return the same
    value, print the same lines and leave files and generator alone. *)
Lemma straight_run {A} (P : string -> Prop) l (f : Flow A) :
  Straight P l f ->
  forall w1 w2,
    (forall path, P path -> fs w1 path = fs w2 path) ->
    run_log f w1 = run_log f w2 /\
    fst (run_flow f w1) = fst (run_flow f w2) /\
    exists lines,
      snd (run_flow f w1) =
        mkWorld (fs w1) (np_random w1) (stdout w1 ++ lines) /\
      snd (run_flow f w2) =
        mkWorld (fs w2) (np_random w2) (stdout w2 ++ lines).
Proof.
  induction 1 as [l a|l e|l items k _ IH|t l args k Hrng Hread _ IH];
    intros w1 w2 Hfs.
  - cbn. repeat split. exists [].
    rewrite !app_nil_r, !world_eta. split; reflexivity.
  - cbn. repeat split. exists [].
    rewrite !app_nil_r, !world_eta. split; reflexivity.
  - cbn [run_log run_flow].
    destruct (IH w1 w2 Hfs) as (Hlog & _).
    destruct (IH (write_stdout items w1) (write_stdout items w2) Hfs)
      as (_ & Hres & lines & H1 & H2).
    repeat split; try assumption.
    exists (items :: lines). rewrite H1, H2. cbn [write_stdout fs np_random stdout].
    rewrite <- !app_assoc. split; reflexivity.
  - cbn [run_log run_flow].
    pose proof (call_task_world t args w1 Hrng) as Hw1.
    pose proof (call_task_world t args w2 Hrng) as Hw2.
    pose proof (call_task_indep t args w1 w2 Hrng
                  (fun path Hp => Hfs path (Hread path Hp))) as Hr.
    destruct (call_task t args w1) as [r1 w1'].
    destruct (call_task t args w2) as [r2 w2'].
    cbn [fst snd] in *. subst w1' w2' r2.
    destruct r1 as [v|e].
    + destruct (IH v w1 w2 Hfs) as (Hlog & Hres & lines & H1 & H2).
      rewrite Hlog. repeat split; try assumption.
      exists lines. split; assumption.
    + cbn. repeat split. exists [].
      rewrite !app_nil_r, !world_eta. split; reflexivity.
Qed.

(** The calls of a run are an initial segment of the body's task list. *)
Lemma straight_log_prefix {A} (P : string -> Prop) l (f : Flow A) :
  Straight P l f ->
  forall w, exists n, log_tasks (run_log f w) = firstn n l.
Proof.
  induction 1 as [l a|l e|l items k _ IH|t l args k Hrng _ _ IH];
    intros w.
  - exists 0%nat. reflexivity.
  - exists 0%nat. reflexivity.
  - cbn [run_log]. apply IH.
  - cbn [run_log].
    pose proof (call_task_world t args w Hrng) as Hw.
    destruct (call_task t args w) as [r w']. cbn [snd] in Hw. subst w'.
    destruct r as [v|e].
    + destruct (IH v w) as (n & Hn). exists (S n).
      unfold log_tasks in *. cbn [map fst firstn]. rewrite Hn. reflexivity.
    + exists 1%nat. reflexivity.
Qed.

End StraightFacts.

Ltac flow_whnf :=
  cbv beta iota zeta delta
    [fbind call print unpack2 unpack4 unpack lift future_items map seq app];
  cbn [List.length Nat.eqb].

Ltac straight :=
  flow_whnf;
  lazymatch goal with
  | |- Straight _ _ (Ret _) => apply straight_ret
  | |- Straight _ _ (Raise _) => apply straight_raise
  | |- Straight _ _ (Print _ _) => apply straight_print; straight
  | |- Straight _ _ (Call _ _ _) =>
      apply straight_call;
      [ reflexivity
      | let Hp := fresh "Hp" in
        intros ? Hp; cbn in Hp; try discriminate Hp;
        injection Hp as <-; reflexivity
      | let v := fresh "v" in intros v; straight ]
  | |- _ =>
      match goal with
      | |- context [List.length ?l] => is_var l; destruct l; straight
      | |- context [match ?x with _ => _ end] =>
          is_var x; destruct x; straight
      end
  end.

(** Both workflow bodies are straight-line: six invocations in a fixed
    order, reading only the data file. *)
Lemma workflow_plain_straight (path : string) :
  Straight (fun q => q = path) flow_tasks (workflow_plain path).
Proof. unfold workflow_plain, flow_tasks. straight. Qed.

Section FlowRuns.

Context {B : Backend}.

(** A successful run, read forwards. *)
Lemma run_workflow_plain_ok path w a b :
  Successful path w a b ->
  run_flow (workflow_plain path) w =
    (Ok VNone,
     write_stdout [VStr "Test Score:"; VFloat b]
       (write_stdout [VStr "Train Score:"; VFloat a] w)) /\
  log_tasks (run_log (workflow_plain path) w) = flow_tasks.
Proof.
  intros []. unfold INPUTS, OUTPUT, HYPERPARAMETERS in *.
  unfold workflow_plain, log_tasks. split.
  - flow_whnf. cbn [run_flow]. rewrite ok_load.
    flow_whnf. cbn [run_flow]. rewrite ok_io.
    flow_whnf. cbn [run_flow]. rewrite ok_split.
    flow_whnf. cbn [run_flow]. rewrite ok_scale.
    flow_whnf. cbn [run_flow]. rewrite ok_train.
    flow_whnf. cbn [run_flow]. rewrite ok_eval.
    reflexivity.
  - flow_whnf. cbn [run_log]. rewrite ok_load.
    flow_whnf. cbn [run_log]. rewrite ok_io.
    flow_whnf. cbn [run_log]. rewrite ok_split.
    flow_whnf. cbn [run_log]. rewrite ok_scale.
    flow_whnf. cbn [run_log]. rewrite ok_train.
    flow_whnf. cbn [run_log]. rewrite ok_eval.
    reflexivity.
Qed.

End FlowRuns.

(* ===================================================================== *)
(** ** Dependency order of the flow *)
(* ===================================================================== *)

Lemma flow_runs_linearized path :
  valid_linearization (flow_runs path) flow_order.
Proof.
  intros r Hin. cbn in Hin.
  repeat (destruct Hin as [<-|Hin];
          [eexists; split; [reflexivity|];
           intros d Hd; cbn in Hd;
           repeat (destruct Hd as [<-|Hd];
                   [eexists; split; [reflexivity|lia]|]);
           contradiction|]).
  contradiction.
Qed.

(** C3: in the demonstrated flow every task invocation consumes only
    constants of the body and results of strictly earlier invocations,
    the invocations being [load_data], [split_inputs_output],
    [split_train_test], [preprocess_data], [train_model],
    [evaluate_model] in this order; the dependency graph built from the
    body is therefore acyclic, and the order in which the body invokes the
    tasks, which is also the order the graph builder computes, is a valid
    linearization: no run comes before a run it depends on. *)
Theorem flow_order_is_valid_linearization {B : Backend} (w : World) :
  exists g,
    build_graph workflow = inr (g, flow_order) /\
    map tr_task (g_runs g) = flow_tasks /\
    map tr_id (g_runs g) = flow_order /\
    (forall r v, In r (g_runs g) -> In v (tr_args r) ->
       In v flow_constants \/
       exists n path, v = VFuture n path /\ (n < tr_id r)%nat) /\
    acyclic (g_runs g) /\
    valid_linearization (g_runs g) flow_order /\
    exists n, log_tasks (run_log workflow w) = firstn n flow_tasks.
Proof.
  exists (mkGraph (flow_runs "data/iris.csv") flow_printed).
  split; [exact (build_graph_workflow_plain "data/iris.csv")|].
  split; [reflexivity|]. split; [reflexivity|].
  cbn [g_runs]. split; [|split; [|split]].
  - intros r v Hr Hv. cbn in Hr.
    repeat (destruct Hr as [<-|Hr];
            [cbn in Hv;
             repeat (destruct Hv as [<-|Hv];
                     [first [ left; cbn; tauto
                            | right; eexists; eexists; split;
                              [reflexivity|cbn; lia] ]|]);
             contradiction|]).
    contradiction.
  - apply forward_acyclic, flow_runs_forward.
  - apply flow_runs_linearized.
  - apply (straight_log_prefix _ _ _
             (workflow_plain_straight "data/iris.csv")).
Qed.

(* ===================================================================== *)
(** ** Argument bindings of a FlowRun *)
(* ===================================================================== *)

Section Bindings.

Context {W : Type}.
Variable exec : TaskName -> list Value -> W -> Result Value * W.
Variable max_attempts : TaskName -> nat.

Lemma update_run_binding id f rs :
  (forall r, binding (f r) = binding r) ->
  map binding (update_run id f rs) = map binding rs.
Proof.
  intros Hf. unfold update_run. rewrite map_map.
  apply map_ext. intros r. destruct (_ =? _)%nat; [apply Hf|reflexivity].
Qed.

Lemma cascade_binding ids : forall dead rs evs,
  map binding (fst (cascade ids dead rs evs)) = map binding rs.
Proof.
  induction ids as [|id ids IH]; intros dead rs evs; [reflexivity|].
  cbn [cascade].
  destruct (find_run id rs) as [r|]; [|apply IH].
  destruct (_ && _); [|apply IH].
  rewrite IH. apply update_run_binding. reflexivity.
Qed.

Lemma attempt_binding r s :
  map binding (runs (attempt exec max_attempts r s)) = map binding (runs s).
Proof.
  unfold attempt.
  destruct (match rmap _ _ with Ok _ => _ | Err _ => _ end) as [res w'].
  destruct res as [v|e].
  - apply update_run_binding. reflexivity.
  - destruct (_ <? _)%nat.
    + apply update_run_binding. reflexivity.
    + pose proof (cascade_binding (order s) [tr_id r]
                    (update_run (tr_id r)
                       (set_outcome Failed (S (tr_attempts r)) (Err e))
                       (runs s))
                    ((events s ++ [task_event (tr_id r) Scheduled Running None])
                       ++ [task_event (tr_id r) Running Failed (Some e)]))
        as Hc.
      destruct (cascade _ _ _ _) as [rs evs]. cbn [fst runs] in *.
      rewrite Hc. apply update_run_binding. reflexivity.
Qed.

(** Execution never touches what tracing fixed. *)
Lemma dispatch_loop_binding fuel : forall s,
  map binding (runs (dispatch_loop exec max_attempts fuel s)) =
  map binding (runs s).
Proof.
  induction fuel as [|fuel IH]; intros s; [reflexivity|].
  cbn [dispatch_loop]. unfold step.
  destruct (first_ready _ _) as [r|]; [|reflexivity].
  rewrite IH. apply attempt_binding.
Qed.

Lemma binding_static rs rs' :
  map binding rs = map binding rs' ->
  map static_bindings rs = map static_bindings rs'.
Proof.
  intros H.
  assert (Hs : forall l, map static_bindings l =
                         map (fun b => (snd (fst (fst b)),
                                       filter is_literal (snd (fst b))))
                             (map binding l))
    by (intros l; rewrite map_map; reflexivity).
  rewrite !Hs, H. reflexivity.
Qed.

End Bindings.

(** C10: the orchestrated flow function takes no parameter: whatever the
    units do and in whatever world it runs, a FlowRun of "KNN Training
    Flow" has the same constant argument bindings: data path
    "data/iris.csv", the four sepal and petal feature columns, target
    column 'Species', hyperparameters n_neighbors=3 and p=2.  The plain
    workflow takes the data path as its parameter and binds that instead;
    called on "data/iris.csv" it is the same body. *)
Theorem flow_run_bindings_constant {W : Type}
    (exec : TaskName -> list Value -> W -> Result Value * W)
    (policy : TaskName -> nat) (w : W) (data_path : string) :
  workflow_name = "KNN Training Flow" /\
  (exists s,
     run_engine exec policy workflow w = inr s /\
     map static_bindings (runs s) = flow_bindings "data/iris.csv") /\
  (exists s,
     run_engine exec policy (workflow_plain data_path) w = inr s /\
     map static_bindings (runs s) = flow_bindings data_path) /\
  workflow_plain "data/iris.csv" = workflow.
Proof.
  split; [reflexivity|].
  assert (Hplain : forall path, exists s,
             run_engine exec policy (workflow_plain path) w = inr s /\
             map static_bindings (runs s) = flow_bindings path).
  { intros path. unfold run_engine.
    rewrite build_graph_workflow_plain. eexists. split; [reflexivity|].
    cbn [finish runs g_runs].
    rewrite (binding_static _ (flow_runs path)); [reflexivity|].
    apply dispatch_loop_binding. }
  split; [|split].
  - apply (Hplain "data/iris.csv").
  - apply Hplain.
  - reflexivity.
Qed.

(* ===================================================================== *)
(** ** Failure of the split *)
(* ===================================================================== *)

Lemma failed_runs_edges path v0 v1 n e a b :
  depends_on (failed_runs path v0 v1 n e) a b <-> In (a, b) flow_edges.
Proof.
  split.
  - intros (r & Hin & <- & Hd). cbn in Hin.
    repeat (destruct Hin as [<-|Hin];
            [cbn in Hd;
             repeat (destruct Hd as [<-|Hd]; [cbn; tauto|]);
             contradiction|]).
    contradiction.
  - intros Hin. cbn in Hin. unfold depends_on.
    exists (nth a (failed_runs path v0 v1 n e) (split_run Failed 0 None)).
    repeat (destruct Hin as [Hab|Hin];
            [injection Hab as <- <-; cbn; tauto|]).
    contradiction.
Qed.

Lemma failed_runs_dependents path v0 v1 n e id :
  depends_trans (failed_runs path v0 v1 n e) id 2 <-> In id [3; 4; 5]%nat.
Proof.
  split.
  - intros H. remember 2%nat as c eqn:Hc.
    induction H as [a b Hab|a b c Hab _ IH]; subst.
    + apply failed_runs_edges in Hab. cbn in Hab.
      repeat (destruct Hab as [Hab|Hab];
              [injection Hab as <-; try discriminate; cbn; tauto|]).
      contradiction.
    + specialize (IH eq_refl). apply failed_runs_edges in Hab.
      cbn in Hab, IH.
      repeat (destruct Hab as [Hab|Hab];
              [injection Hab as <- <-; cbn; intuition discriminate|]).
      contradiction.
  - intros Hin.
    assert (H32 : depends_trans (failed_runs path v0 v1 n e) 3 2)
      by (apply dt_step, failed_runs_edges; cbn; tauto).
    assert (H43 : depends_on (failed_runs path v0 v1 n e) 4 3)
      by (apply failed_runs_edges; cbn; tauto).
    assert (H54 : depends_on (failed_runs path v0 v1 n e) 5 4)
      by (apply failed_runs_edges; cbn; tauto).
    cbn in Hin. destruct Hin as [<-|[<-|[<-|[]]]].
    + exact H32.
    + eapply dt_trans; eassumption.
    + eapply dt_trans; [exact H54|]. eapply dt_trans; eassumption.
Qed.

(** C6: if the split unit ([split_train_test], the run with identifier 2)
    fails at every attempt while the two units before it succeed, then in
    the final state its TaskRun is [Failed], having used all the attempts
    its retry policy allows; its transitive dependents are exactly the
    runs 3, 4 and 5 (scale, train, evaluate), each of which is [Skipped]
    and was never dispatched; and the FlowRun is [Failed]. *)
Theorem split_failure_skips_dependents {W : Type}
    (exec : TaskName -> list Value -> W -> Result Value * W)
    (policy : TaskName -> nat) (Inv : W -> Prop)
    (v0 X y : Value) (w0 : W) :
  (forall t args w, Inv w -> Inv (snd (exec t args w))) ->
  (forall w, Inv w ->
     fst (exec T_load_data [VStr "data/iris.csv"] w) = Ok v0) ->
  (forall w, Inv w ->
     fst (exec T_split_inputs_output [v0; INPUTS; OUTPUT] w) =
     Ok (VTuple [X; y])) ->
  (forall w, Inv w ->
     is_ok (fst (exec T_split_train_test [X; y] w)) = false) ->
  Inv w0 ->
  exists s,
    run_engine exec policy workflow w0 = inr s /\
    map tr_task (runs s) = flow_tasks /\
    (exists r, find_run 2 (runs s) = Some r /\
               tr_state r = Failed /\
               tr_attempts r = Nat.max 1 (policy T_split_train_test)) /\
    (forall id, depends_trans (runs s) id 2 <-> In id [3; 4; 5]%nat) /\
    (forall id, In id [3; 4; 5]%nat ->
       exists r, find_run id (runs s) = Some r /\
                 tr_state r = Skipped /\
                 tr_attempts r = 0%nat /\
                 dispatched s id = false) /\
    flow_state (runs s) = Failed.
Proof.
  intros Hpres Hload Hio Hsplit Hw0.
  destruct (engine_split_fails exec policy Inv Hpres "data/iris.csv"
              v0 X y Hsplit Hload Hio w0 Hw0)
    as (e & evs & w' & Hrun & Hnd).
  eexists. split; [exact Hrun|]. cbn [runs].
  split; [reflexivity|]. split; [|split; [|split]].
  - eexists. split; [reflexivity|]. split; reflexivity.
  - apply failed_runs_dependents.
  - intros id Hid. unfold dispatched. cbn [events].
    rewrite (Hnd id Hid). cbn in Hid.
    destruct Hid as [<-|[<-|[<-|[]]]];
      (eexists; split; [reflexivity|repeat split; reflexivity]).
  - reflexivity.
Qed.

Section FileFrame.

Context {B : Backend}.

Ltac split_args args :=
  destruct args as [|?a0 [|?a1 [|?a2 [|?a3 [|?a4 [|?a5 args]]]]]].

Lemma split_train_test_fs X y ts rs w :
  fs (snd (split_train_test X y ts rs w)) = fs w.
Proof.
  unfold split_train_test.
  destruct (df <- as_frame X ;; _) as [[[[df ys] t] r]|e]; [|reflexivity].
  destruct (train_test_split df ys t r (np_random w)). reflexivity.
Qed.

(** No task writes to the file system. *)
Lemma call_task_fs t args w : fs (snd (call_task t args w)) = fs w.
Proof.
  destruct t; split_args args; try reflexivity;
    cbn [call_task]; apply split_train_test_fs.
Qed.

End FileFrame.

Lemma split_failure_skips_dependents_witness :
  exists s,
    run_engine (@call_task ref_backend) (fun _ => 3%nat) workflow
      small_world = inr s /\
    map tr_task (runs s) = flow_tasks /\
    (exists r, find_run 2 (runs s) = Some r /\
               tr_state r = Failed /\
               tr_attempts r = Nat.max 1 3) /\
    (forall id, depends_trans (runs s) id 2 <-> In id [3; 4; 5]%nat) /\
    (forall id, In id [3; 4; 5]%nat ->
       exists r, find_run id (runs s) = Some r /\
                 tr_state r = Skipped /\
                 tr_attempts r = 0%nat /\
                 dispatched s id = false) /\
    flow_state (runs s) = Failed.
Proof.
  eapply (split_failure_skips_dependents (@call_task ref_backend)
            (fun _ => 3%nat) same_files).
  - intros t args w Hw. unfold same_files in *.
    rewrite (call_task_fs (B := ref_backend)). exact Hw.
  - intros w Hw. unfold same_files in Hw.
    cbn [call_task load_data fst as_str rbind]. unfold read_csv.
    rewrite Hw. reflexivity.
  - intros w _. lazy. reflexivity.
  - intros w _. destruct w as [f g out]. lazy. reflexivity.
  - reflexivity.
Defined.

(* ===================================================================== *)
(** ** Side effects of the flow body *)
(* ===================================================================== *)

Section BodyEffects.

Context {B : Backend}.

(** Repeated runs of a straight-line body: files and generator stay as
    they are, and every run appends the same lines. *)
Lemma straight_run_times {A} (P : string -> Prop) l (f : Flow A) (w : World) :
  Straight P l f ->
  exists lines,
    snd (run_flow f w) = mkWorld (fs w) (np_random w) (stdout w ++ lines) /\
    forall n,
      run_times n f w =
      mkWorld (fs w) (np_random w) (stdout w ++ List.concat (repeat lines n)).
Proof.
  intros Hs.
  destruct (straight_run P l f Hs w w (fun _ _ => eq_refl))
    as (_ & _ & lines & Hw & _).
  exists lines. split; [exact Hw|].
  assert (Hgen : forall n w2,
            (forall path, P path -> fs w path = fs w2 path) ->
            run_times n f w2 =
            mkWorld (fs w2) (np_random w2)
                    (stdout w2 ++ List.concat (repeat lines n))).
  { induction n as [|n IH]; intros w2 Hfs.
    - cbn. rewrite app_nil_r, world_eta. reflexivity.
    - cbn [run_times repeat List.concat].
      destruct (straight_run P l f Hs w w2 Hfs)
        as (_ & _ & lines' & Hw1 & Hw2).
      rewrite Hw in Hw1. injection Hw1 as Hl.
      apply app_inv_head in Hl. subst lines'.
      rewrite Hw2, IH by exact Hfs.
      cbn [fs np_random stdout]. rewrite <- app_assoc. reflexivity. }
  intros n. apply Hgen. reflexivity.
Qed.

End BodyEffects.

(** C4, as stated: running the flow body any number of times leaves all
    external state unchanged.  One run on the sample data, starting with
    nothing printed, leaves the two score lines on standard output. *)
Lemma flow_body_prints :
  (exists a b,
     stdout (@run_times ref_backend Value 1 workflow demo_world) =
       [[VStr "Train Score:"; VFloat a]; [VStr "Test Score:"; VFloat b]]) /\
  stdout demo_world = [] /\
  @run_times ref_backend Value 1 workflow demo_world <> demo_world.
Proof.
  assert (Hout : stdout (@run_times ref_backend Value 1 workflow demo_world) =
                 [[VStr "Train Score:"; VFloat (3 # 6)];
                  [VStr "Test Score:"; VFloat (1 # 2)]])
    by (vm_compute; reflexivity).
  split; [exists (3 # 6), (1 # 2); exact Hout|]. split; [reflexivity|].
  intros H. rewrite H in Hout. discriminate Hout.
Qed.

(** C4, amended: apart from invoking work units, the flow body has exactly
    one kind of side effect: it prints.  Traced, it issues two print
    statements, for the train and the test score.  Run, it leaves the file
    system and the random generator as they were and appends lines to
    standard output: none when the run fails; when the run succeeds, the
    six units have returned in turn and the lines are the two score lines,
    carrying the two numbers [evaluate_model] returned, train first.  A run
    succeeds exactly when the six units do.  The same lines are appended at
    every run, so that [n] runs append them [n] times. *)
Theorem flow_body_only_prints {B : Backend} (w : World) (n : nat) :
  (exists g order,
     build_graph workflow = inr (g, order) /\
     g_printed g = [[VStr "Train Score:"; VFuture 5 [(0, 2)]%nat];
                    [VStr "Test Score:"; VFuture 5 [(1, 2)]%nat]]) /\
  (forall a b,
     Successful "data/iris.csv" w a b ->
     snd (run_flow workflow w) =
     mkWorld (fs w) (np_random w)
       (stdout w ++ [[VStr "Train Score:"; VFloat a];
                     [VStr "Test Score:"; VFloat b]])) /\
  exists lines,
    match fst (run_flow workflow w) with
    | Ok _ =>
        exists a b,
          Successful "data/iris.csv" w a b /\
          lines = [[VStr "Train Score:"; VFloat a];
                   [VStr "Test Score:"; VFloat b]]
    | Err _ => lines = []
    end /\
    snd (run_flow workflow w) =
      mkWorld (fs w) (np_random w) (stdout w ++ lines) /\
    run_times n workflow w =
      mkWorld (fs w) (np_random w) (stdout w ++ List.concat (repeat lines n)).
Proof.
  split; [|split].
  - exists (mkGraph (flow_runs "data/iris.csv") flow_printed), flow_order.
    split; [exact (build_graph_workflow_plain "data/iris.csv")|reflexivity].
  - intros a b Hs.
    destruct (run_workflow_plain_ok "data/iris.csv" w a b Hs) as (Hrun & _).
    rewrite workflow_is_plain, Hrun. cbn [snd]. unfold write_stdout.
    cbn [fs np_random stdout]. rewrite <- app_assoc. reflexivity.
  - destruct (straight_run_times _ _ _ w
                (workflow_plain_straight "data/iris.csv"))
      as (lines & Hone & Htimes).
    exists lines. split; [|split; [exact Hone|apply Htimes]].
    pose proof (run_workflow_plain_inv "data/iris.csv" w) as Hinv.
    rewrite workflow_is_plain.
    destruct (run_flow (workflow_plain "data/iris.csv") w) as [[v|e] w'].
    + destruct Hinv as (_ & a & b & Hs & ->). exists a, b.
      split; [exact Hs|].
      cbn [snd] in Hone. unfold write_stdout in Hone.
      cbn [fs np_random stdout] in Hone. injection Hone as Hl.
      rewrite <- app_assoc in Hl. apply app_inv_head in Hl.
      symmetry. exact Hl.
    + subst w'. cbn [snd fst] in *.
      rewrite <- (world_eta w) in Hone at 1. injection Hone as Hl.
      rewrite <- (app_nil_r (stdout w)) in Hl at 1.
      apply app_inv_head in Hl. symmetry. exact Hl.
Qed.

(* ===================================================================== *)
(** ** Determinism of the work units *)
(* ===================================================================== *)

(** C5, as stated: two executions of any task on equal arguments produce
    equal results.  [load_data] on the same path returns what the file
    holds at the time: eight rows in one world, one row in the other. *)
Lemma load_data_depends_on_file :
  fst (@call_task ref_backend T_load_data [VStr "data/iris.csv"] demo_world)
    = Ok (VFrame iris_sample) /\
  fst (@call_task ref_backend T_load_data [VStr "data/iris.csv"] small_world)
    = Ok (VFrame iris_one_row) /\
  fst (@call_task ref_backend T_load_data [VStr "data/iris.csv"] demo_world)
    <>
  fst (@call_task ref_backend T_load_data [VStr "data/iris.csv"] small_world).
Proof.
  split; [reflexivity|]. split; [reflexivity|].
  intros H.
  apply (f_equal (fun r => match r with
                           | Ok (VFrame df) => List.length (rows df)
                           | _ => 0%nat
                           end)) in H.
  vm_compute in H. discriminate H.
Qed.

(** A split that is explicitly given [random_state=None] draws from the
    global generator, and its outcome varies with it. *)
Lemma unseeded_split_depends_on_generator :
  let X := VFrame iris_sample in
  let y := VSeries (map (fun r => nth 5 r (CStr "")) (rows iris_sample)) in
  let w1 := @mkWorld ref_backend (fs demo_world) 0%nat [] in
  let w2 := @mkWorld ref_backend (fs demo_world) 1%nat [] in
  uses_global_rng T_split_train_test [X; y; VFloat (1 # 4); VNone] = true /\
  fst (call_task T_split_train_test [X; y; VFloat (1 # 4); VNone] w1) <>
  fst (call_task T_split_train_test [X; y; VFloat (1 # 4); VNone] w2).
Proof.
  split; [reflexivity|].
  intros H.
  apply (f_equal (fun r => match r with
                           | Ok (VList (_ :: VFrame df :: _)) =>
                               match rows df with
                               | (CNum q :: _) :: _ => Qnum q
                               | _ => 0%Z
                               end
                           | _ => 0%Z
                           end)) in H.
  vm_compute in H. discriminate H.
Qed.

(** C5, amended: no work unit changes the process state, and each is a
    deterministic function of its argument tuple, with two provisos:
    [load_data]'s result is determined by its argument together with the
    content of the file it names, and [split_train_test] is deterministic
    when its seed is an integer (as by default), not when it is explicitly
    passed [None].  Under these provisos two executions on equal arguments
    produce equal results, whatever the state they run in. *)
Theorem tasks_deterministic {B : Backend}
    (t : TaskName) (args : list Value) (w1 w2 : World) :
  uses_global_rng t args = false ->
  (forall path, file_read t args = Some path -> fs w1 path = fs w2 path) ->
  fst (call_task t args w1) = fst (call_task t args w2) /\
  snd (call_task t args w1) = w1 /\
  snd (call_task t args w2) = w2.
Proof.
  intros Hrng Hfs. split; [|split].
  - apply call_task_indep; assumption.
  - apply call_task_world; assumption.
  - apply call_task_world; assumption.
Qed.

Lemma tasks_deterministic_witness :
  let args := [VFrame iris_sample;
               VSeries (map (fun r => nth 5 r (CStr "")) (rows iris_sample))] in
  fst (@call_task ref_backend T_split_train_test args demo_world) =
  fst (@call_task ref_backend T_split_train_test args small_world) /\
  snd (@call_task ref_backend T_split_train_test args demo_world) =
  demo_world /\
  snd (@call_task ref_backend T_split_train_test args small_world) =
  small_world.
Proof.
  intros args.
  apply (tasks_deterministic (B := ref_backend) T_split_train_test args
           demo_world small_world).
  - reflexivity.
  - intros path Hpath. discriminate Hpath.
Defined.

(* ===================================================================== *)
(** ** Scaling *)
(* ===================================================================== *)

Lemma zip_with_length {A} (f : A -> A -> A) (a b : list A) :
  List.length (zip_with f a b) = Nat.min (List.length a) (List.length b).
Proof.
  revert b. induction a as [|x a IH]; intros [|y b]; cbn; try reflexivity.
  rewrite IH. reflexivity.
Qed.


Lemma col_fold_length f k m :
  m <> [] -> rectangular k m -> List.length (col_fold f m) = k.
Proof.
  destruct m as [|r m]; [congruence|]. intros _ Hrect.
  apply Forall_cons_iff in Hrect. destruct Hrect as [Hr Hm].
  cbn [col_fold]. revert r Hr.
  induction Hm as [|r' m Hr' _ IH]; intros r Hr; cbn; [exact Hr|].
  apply IH. rewrite zip_with_length. lia.
Qed.

Lemma scaler_fit_length k m :
  m <> [] -> rectangular k m ->
  List.length (fst (scaler_fit m)) = k.
Proof.
  intros Hne Hrect. unfold scaler_fit. cbn [fst].
  rewrite zip_with_length, !(col_fold_length _ k) by assumption. lia.
Qed.

Lemma scaler_apply_rectangular params X :
  rectangular (List.length (fst params)) X ->
  scaler_apply params X = Ok (map (scale_row params) X).
Proof.
  intros Hrect. unfold scaler_apply.
  replace (forallb _ X) with true; [reflexivity|].
  symmetry. apply forallb_forall. intros r Hr.
  apply Nat.eqb_eq.
  unfold rectangular in Hrect. rewrite Forall_forall in Hrect.
  apply Hrect. exact Hr.
Qed.

Lemma frame_to_array_nonempty {B : Backend} df m :
  frame_to_array df = Ok m -> m <> [].
Proof.
  unfold frame_to_array.
  destruct (rmap _ _) as [cells|]; cbn [rbind]; [|discriminate].
  destruct (rmap _ cells) as [m'|]; cbn [rbind]; [|discriminate].
  destruct m' as [|[|] ?]; cbn; congruence.
Qed.


Section Fold.

(** A column-wise fold with an operation that returns one of its two
    arguments and stays below both (as [Qmin] does for [<=]) yields, in
    every column, an entry of that column that is below all of them. *)
Variable f : Q -> Q -> Q.
Variable R : Q -> Q -> Prop.
Hypothesis R_left : forall a b, R (f a b) a.
Hypothesis R_right : forall a b, R (f a b) b.
Hypothesis R_trans : forall a b c, R a b -> R b c -> R a c.
Hypothesis R_refl : forall a, R a a.
Hypothesis f_pick : forall a b, f a b = a \/ f a b = b.

Lemma zip_with_bound_l : forall a b,
  List.length a = List.length b -> Forall2 R (zip_with f a b) a.
Proof.
  induction a as [|x a IH]; intros [|y b] Hlen; try discriminate Hlen;
    cbn [zip_with]; constructor; [apply R_left|].
  apply IH. cbn in Hlen. congruence.
Qed.

Lemma zip_with_bound_r : forall a b,
  List.length a = List.length b -> Forall2 R (zip_with f a b) b.
Proof.
  induction a as [|x a IH]; intros [|y b] Hlen; try discriminate Hlen;
    cbn [zip_with]; constructor; [apply R_right|].
  apply IH. cbn in Hlen. congruence.
Qed.

Lemma Forall2_chain : forall a b c,
  Forall2 R a b -> Forall2 R b c -> Forall2 R a c.
Proof.
  intros a b c Hab. revert c.
  induction Hab as [|x y a b Hxy _ IH]; intros c Hbc; inversion Hbc; subst;
    constructor; [eapply R_trans; eassumption|].
  apply IH. assumption.
Qed.

Lemma Forall2_same a : Forall2 R a a.
Proof. induction a; constructor; auto. Qed.


Lemma fold_bound_acc m : forall acc,
  rectangular (List.length acc) m ->
  Forall2 R (fold_left (zip_with f) m acc) acc.
Proof.
  induction m as [|r m IH]; intros acc Hrect; cbn [fold_left].
  - apply Forall2_same.
  - apply Forall_cons_iff in Hrect. destruct Hrect as (Hr & Hm).
    apply (Forall2_chain _ (zip_with f acc r)).
    + apply IH. rewrite zip_with_length, Hr, Nat.min_id. exact Hm.
    + apply zip_with_bound_l. symmetry. exact Hr.
Qed.

Lemma fold_bound_row m : forall acc r,
  rectangular (List.length acc) m -> In r m ->
  Forall2 R (fold_left (zip_with f) m acc) r.
Proof.
  induction m as [|r' m IH]; intros acc r Hrect Hin; [contradiction|].
  cbn [fold_left].
  apply Forall_cons_iff in Hrect. destruct Hrect as (Hr & Hm).
  assert (Hm' : rectangular (List.length (zip_with f acc r')) m)
    by (rewrite zip_with_length, Hr, Nat.min_id; exact Hm).
  destruct Hin as [->|Hin].
  - apply (Forall2_chain _ (zip_with f acc r)).
    + apply fold_bound_acc. exact Hm'.
    + apply zip_with_bound_r. symmetry. exact Hr.
  - apply IH; assumption.
Qed.

Lemma col_fold_bound k m r :
  rectangular k m -> In r m -> Forall2 R (col_fold f m) r.
Proof.
  intros Hrect Hin. destruct m as [|r0 m]; [contradiction|].
  cbn [col_fold].
  apply Forall_cons_iff in Hrect. destruct Hrect as (Hr0 & Hm).
  rewrite <- Hr0 in Hm.
  destruct Hin as [->|Hin].
  - apply fold_bound_acc. exact Hm.
  - apply fold_bound_row; assumption.
Qed.



End Fold.


Lemma Qmax_pick a b : Qmax a b = a \/ Qmax a b = b.
Proof.
  unfold Qmax, GenericMinMax.gmax. destruct (a ?= b)%Q; auto.
Qed.


Lemma col_max_ge k m r :
  rectangular k m -> In r m ->
  Forall2 (fun x y => Qle y x) (col_fold Qmax m) r.
Proof.
  apply (col_fold_bound Qmax (fun x y => Qle y x)).
  - apply Q.le_max_l.
  - apply Q.le_max_r.
  - intros a b c Hab Hbc. apply (Qle_trans _ b); assumption.
  - apply Qle_refl.
Qed.


Lemma scale_row_length params r :
  List.length (fst params) = List.length r ->
  List.length (snd params) = List.length r ->
  List.length (scale_row params r) = List.length r.
Proof.
  intros H1 H2. unfold scale_row. rewrite !zip_with_length. lia.
Qed.

Lemma scaler_fit_lengths k m :
  m <> [] -> rectangular k m ->
  List.length (fst (scaler_fit m)) = k /\
  List.length (snd (scaler_fit m)) = k.
Proof.
  intros Hne Hrect. unfold scaler_fit. cbn [fst snd].
  rewrite !zip_with_length, !(col_fold_length _ k) by assumption. lia.
Qed.



Lemma check_feature_names_same (params : option (list Q * list Q))
    (X_train X_test : DataFrame) :
  columns X_test = columns X_train ->
  check_feature_names (mkScaler params (columns X_train)) X_test = Ok tt.
Proof.
  intros Hcols. unfold check_feature_names. cbn [feature_names_in].
  rewrite Hcols. destruct (columns X_train) as [|c cs]; [reflexivity|].
  destruct (list_eq_dec string_dec (c :: cs) (c :: cs)); congruence.
Qed.




(* ===================================================================== *)
(** ** Evaluation *)
(* ===================================================================== *)


(** Labels taken from class labels are class labels. *)
Lemma class_labels_incl (y y' : Series) :
  class_labels y = true -> incl y' y -> class_labels y' = true.
Proof.
  unfold class_labels. intros H Hincl.
  apply orb_true_iff in H. apply orb_true_iff.
  destruct H as [H|H]; [left|right];
    rewrite forallb_forall in H; apply forallb_forall;
    intros c Hc; apply H, Hincl, Hc.
Qed.

Lemma accuracy_score_ok y_true y_pred :
  List.length y_true = List.length y_pred -> y_true <> [] ->
  class_labels (y_true ++ y_pred) = true ->
  accuracy_score y_true y_pred = Ok (accuracy y_true y_pred).
Proof.
  intros Hlen Hne Hkind. unfold accuracy_score, accuracy.
  rewrite Hlen, Nat.eqb_refl. cbn [negb]. rewrite <- Hlen.
  destruct y_true as [|c y_true]; [congruence|].
  cbn [List.length]. rewrite Hkind, Pos.of_nat_succ. reflexivity.
Qed.


Lemma n_features_rectangular k (X : ndarray) :
  rectangular k X -> X <> [] -> n_features X = k.
Proof.
  intros Hrect Hne. destruct X as [|r X]; [congruence|].
  apply Forall_cons_iff in Hrect. destruct Hrect as (Hr & _). exact Hr.
Qed.

Section Evaluation.

Context {B : Backend}.

(** What a fitted model predicts are labels it was fitted on. *)
Lemma predictions_incl model Xfit X :
  (0 < n_neighbors model <= Z.of_nat (List.length Xfit))%Z ->
  List.length (fit_y model) = List.length Xfit ->
  incl (predictions model Xfit X) (fit_y model).
Proof.
  intros Hk Hlen c Hc. unfold predictions in Hc.
  apply in_map_iff in Hc. destruct Hc as (x & <- & _).
  apply kneighbors_vote_spec; assumption.
Qed.

Lemma knn_predict_ok model Xfit X k :
  fit_X model = Some Xfit ->
  (0 < n_neighbors model <= Z.of_nat (List.length Xfit))%Z ->
  rectangular k Xfit -> rectangular k X ->
  check_array X = Ok X ->
  knn_predict model X = Ok (predictions model Xfit X).
Proof.
  intros Hfit Hk HrXfit HrX HX. unfold knn_predict. rewrite Hfit.
  destruct (Z.leb_spec (n_neighbors model) 0); [lia|].
  rewrite HX. cbn [rbind].
  assert (Hne : Xfit <> []) by (destruct Xfit; cbn in Hk; [lia|discriminate]).
  rewrite (n_features_rectangular k Xfit HrXfit Hne).
  replace (forallb _ X) with true.
  - cbn [negb].
    destruct (Z.ltb_spec (Z.of_nat (List.length Xfit)) (n_neighbors model));
      [lia|reflexivity].
  - symmetry. apply forallb_forall. intros r Hr. apply Nat.eqb_eq.
    unfold rectangular in HrX. rewrite Forall_forall in HrX. apply HrX, Hr.
Qed.

Lemma check_array_nonempty X : check_array X = Ok X -> X <> [].
Proof. destruct X; cbn; congruence. Qed.

Lemma check_array_id X X' : check_array X = Ok X' -> X' = X.
Proof. destruct X as [|[|] ?]; cbn; congruence. Qed.



(** [evaluate_model] on a fitted model and two labelled data sets of the
    fitted width, all labels being class labels of one kind. *)
Lemma evaluate_model_ok (model : KNeighborsClassifier)
    (Xfit X_train X_test : ndarray) (y_train y_test : Series)
    (k : nat) (w : World) :
  fit_X model = Some Xfit ->
  (0 < n_neighbors model <= Z.of_nat (List.length Xfit))%Z ->
  List.length (fit_y model) = List.length Xfit ->
  rectangular k Xfit -> rectangular k X_train -> rectangular k X_test ->
  check_array X_train = Ok X_train ->
  check_array X_test = Ok X_test ->
  List.length y_train = List.length X_train ->
  List.length y_test = List.length X_test ->
  class_labels (fit_y model ++ y_train ++ y_test) = true ->
  evaluate_model (VModel model) (VArray X_train) (VSeries y_train)
                 (VArray X_test) (VSeries y_test) w =
    (Ok (VTuple [VFloat (accuracy y_train (predictions model Xfit X_train));
                 VFloat (accuracy y_test (predictions model Xfit X_test))]),
     w).
Proof.
  intros Hfit Hk Hly HrXfit HrXtr HrXte Htr Hte Hltr Hlte Hkind.
  pose proof (check_array_nonempty _ Htr) as Hntr.
  pose proof (check_array_nonempty _ Hte) as Hnte.
  assert (Hytr : y_train <> [])
    by (destruct y_train, X_train; cbn in *; congruence).
  assert (Hyte : y_test <> [])
    by (destruct y_test, X_test; cbn in *; congruence).
  assert (Hpred : forall X y, incl y (fit_y model ++ y_train ++ y_test) ->
            class_labels (y ++ predictions model Xfit X) = true).
  { intros X y Hy. apply (class_labels_incl _ _ Hkind).
    intros c Hc. apply in_app_or in Hc. destruct Hc as [Hc|Hc].
    - apply Hy, Hc.
    - apply in_or_app. left.
      apply (predictions_incl model Xfit X Hk Hly). exact Hc. }
  unfold evaluate_model. cbn [as_model as_array as_series rbind].
  rewrite (knn_predict_ok model Xfit X_train k Hfit Hk HrXfit HrXtr Htr).
  cbn [rbind].
  rewrite (knn_predict_ok model Xfit X_test k Hfit Hk HrXfit HrXte Hte).
  cbn [rbind].
  rewrite (accuracy_score_ok y_train).
  - cbn [rbind]. rewrite (accuracy_score_ok y_test).
    + reflexivity.
    + unfold predictions. rewrite length_map. exact Hlte.
    + exact Hyte.
    + apply Hpred. intros c Hc. apply in_or_app. right.
      apply in_or_app. right. exact Hc.
  - unfold predictions. rewrite length_map. exact Hltr.
  - exact Hytr.
  - apply Hpred. intros c Hc. apply in_or_app. right.
    apply in_or_app. left. exact Hc.
Qed.



End Evaluation.



(* ===================================================================== *)
(** ** The default split *)
(* ===================================================================== *)

Lemma quarter_ceiling n :
  Z.to_nat (Qceiling ((1 # 4) * inject_Z (Z.of_nat n))) = ((n + 3) / 4)%nat.
Proof.
  unfold Qceiling, Qfloor, Qopp, Qmult, inject_Z. cbn [Qnum Qden].
  change (Z.pos (4 * 1)) with 4%Z.
  rewrite Z.mul_1_l.
  apply Nat2Z.inj. rewrite Nat2Z.inj_div.
  rewrite Z2Nat.id.
  - rewrite Nat2Z.inj_add. cbn [Z.of_nat Pos.of_succ_nat Pos.succ].
    Z.to_euclidean_division_equations. lia.
  - Z.to_euclidean_division_equations. lia.
Qed.

(** A test fraction of 0.25 of [n] samples is [ceil (n / 4)] samples. *)
Lemma n_test_quarter n :
  n_test_of (TestFraction (1 # 4)) n = Ok ((n + 3) / 4)%nat.
Proof.
  unfold n_test_of.
  destruct (Qlt_le_dec 0 (1 # 4)) as [_|H];
    [|exfalso; revert H; unfold Qle; cbn; lia].
  destruct (Qlt_le_dec (1 # 4) 1) as [_|H];
    [|exfalso; revert H; unfold Qle; cbn; lia].
  rewrite quarter_ceiling. reflexivity.
Qed.

Lemma quarter_lt n : ((n + 3) / 4 < n)%nat <-> (2 <= n)%nat.
Proof.
  pose proof (Nat.div_mod_eq (n + 3) 4).
  pose proof (Nat.mod_upper_bound (n + 3) 4 ltac:(lia)). lia.
Qed.

Lemma take_app {A} (a b : list nat) (l : list A) :
  take (a ++ b) l = take a l ++ take b l.
Proof. unfold take. apply flat_map_app. Qed.

Lemma take_Permutation {A} (a b : list nat) (l : list A) :
  Permutation a b -> Permutation (take a l) (take b l).
Proof. intros H. unfold take. apply Permutation_flat_map. exact H. Qed.

Lemma take_seq_suffix {A} (l : list A) : forall pre,
  take (seq (List.length pre) (List.length l)) (pre ++ l) = l.
Proof.
  induction l as [|x l IH]; intros pre; [reflexivity|].
  cbn [List.length seq]. unfold take in *. cbn [flat_map].
  rewrite nth_error_app2, Nat.sub_diag by lia. cbn [nth_error app].
  f_equal.
  specialize (IH (pre ++ [x])).
  rewrite length_app, <- app_assoc in IH. cbn [List.length app] in IH.
  rewrite Nat.add_1_r in IH. exact IH.
Qed.

Lemma take_seq_all {A} (l : list A) : take (seq 0 (List.length l)) l = l.
Proof. exact (take_seq_suffix l []). Qed.

Lemma take_length {A} (idx : list nat) (l : list A) :
  Forall (fun i => (i < List.length l)%nat) idx ->
  List.length (take idx l) = List.length idx.
Proof.
  induction 1 as [|i idx Hi _ IH]; [reflexivity|].
  unfold take in *. cbn [flat_map]. rewrite length_app, IH.
  destruct (nth_error l i) eqn:Hn; [reflexivity|].
  apply nth_error_None in Hn. lia.
Qed.

Lemma take_incl {A} idx (l : list A) : incl (take idx l) l.
Proof.
  intros a Ha. unfold take in Ha. apply in_flat_map in Ha.
  destruct Ha as (i & _ & Hi).
  destruct (nth_error l i) eqn:Hnth; [|contradiction].
  destruct Hi as [<-|[]]. eapply nth_error_In. exact Hnth.
Qed.

Lemma take_Forall {A} (P : A -> Prop) idx (l : list A) :
  Forall P l -> Forall P (take idx l).
Proof.
  intros Hall. apply Forall_forall. intros a Ha.
  rewrite Forall_forall in Hall. apply Hall. apply (take_incl idx). exact Ha.
Qed.

Lemma nth_error_combine {A C} (a : list A) (b : list C) : forall i,
  nth_error (combine a b) i =
  match nth_error a i, nth_error b i with
  | Some x, Some y => Some (x, y)
  | _, _ => None
  end.
Proof.
  revert b. induction a as [|x a IH]; intros b i.
  - destruct i; reflexivity.
  - destruct b as [|y b].
    + destruct i; cbn; [reflexivity|]. destruct (nth_error a i); reflexivity.
    + destruct i; cbn; [reflexivity|apply IH].
Qed.

(** Selecting positions of two aligned lists keeps them aligned. *)
Lemma take_combine {A C} (idx : list nat) (a : list A) (b : list C) :
  List.length a = List.length b ->
  take idx (combine a b) = combine (take idx a) (take idx b).
Proof.
  intros Hlen. induction idx as [|i idx IH]; [reflexivity|].
  unfold take in *. cbn [flat_map]. rewrite IH, nth_error_combine.
  destruct (nth_error a i) eqn:Ha, (nth_error b i) eqn:Hb; cbn;
    try reflexivity.
  - apply nth_error_None in Hb.
    assert (i < List.length a)%nat by (apply nth_error_Some; congruence). lia.
  - apply nth_error_None in Ha.
    assert (i < List.length b)%nat by (apply nth_error_Some; congruence). lia.
Qed.

(** Cutting a permutation of the positions of [l] after [k] indices cuts
    [l] into [k] and [n - k] elements, none lost. *)
Lemma split_parts {A} (perm : list nat) (k : nat) (l : list A) :
  Permutation perm (seq 0 (List.length l)) -> (k <= List.length l)%nat ->
  let test := firstn k perm in
  let train := firstn (List.length l - k) (skipn k perm) in
  List.length (take test l) = k /\
  List.length (take train l) = (List.length l - k)%nat /\
  Permutation (take test l ++ take train l) l.
Proof.
  intros Hperm Hk test train.
  pose proof (Permutation_length Hperm) as Hlen. rewrite length_seq in Hlen.
  assert (Htrain : train = skipn k perm).
  { unfold train. apply firstn_all2. rewrite length_skipn, Hlen.
    apply Nat.le_refl. }
  assert (Hall : Forall (fun i => (i < List.length l)%nat) (test ++ train)).
  { rewrite Htrain. unfold test. rewrite firstn_skipn.
    apply Forall_forall. intros i Hi.
    apply (Permutation_in _ Hperm) in Hi. apply in_seq in Hi. lia. }
  apply Forall_app in Hall. destruct Hall as (Hte & Htr).
  rewrite !take_length by assumption.
  split; [unfold test; rewrite length_firstn; lia|].
  split; [rewrite Htrain, length_skipn; lia|].
  rewrite <- take_app, Htrain. unfold test. rewrite firstn_skipn.
  transitivity (take (seq 0 (List.length l)) l).
  - apply take_Permutation. exact Hperm.
  - rewrite take_seq_all. reflexivity.
Qed.

Section DefaultSplit.

Context {B : Backend}.

Lemma default_indices_partition n :
  Permutation (default_test_indices n ++ default_train_indices n) (seq 0 n) /\
  List.length (default_test_indices n) = Nat.min ((n + 3) / 4) n.
Proof.
  unfold default_test_indices, default_train_indices.
  pose proof (permutation_spec (RandomState_seed 0) n) as Hperm.
  split.
  - rewrite firstn_skipn. exact Hperm.
  - rewrite length_firstn, (Permutation_length Hperm), length_seq.
    reflexivity.
Qed.

Lemma train_test_split_quarter X y g l :
  fst (train_test_split X y (TestFraction (1 # 4)) (Some 0%Z) g) = Ok l ->
  let n := List.length (rows X) in
  ((n + 3) / 4 < n)%nat /\
  l = [VFrame (frame_take (default_train_indices n) X);
       VFrame (frame_take (default_test_indices n) X);
       VSeries (take (default_train_indices n) y);
       VSeries (take (default_test_indices n) y)].
Proof.
  intros H n. unfold train_test_split in H. fold n in H.
  destruct (negb _); [discriminate|].
  rewrite n_test_quarter in H.
  destruct (Nat.eqb_spec (n - (n + 3) / 4) 0) as [|Hn]; [discriminate|].
  cbn [check_random_state] in H.
  unfold default_train_indices, default_test_indices.
  pose proof (permutation_spec (RandomState_seed 0) n) as Hperm.
  destruct (permutation (RandomState_seed 0) n) as [perm rng'].
  cbn [fst] in *. injection H as <-.
  split; [lia|].
  rewrite (firstn_all2 (n := n - (n + 3) / 4)); [reflexivity|].
  rewrite length_skipn, (Permutation_length Hperm), length_seq.
  apply Nat.le_refl.
Qed.

(** The two-argument call: both defaults pass the validation of the
    parameters. *)
Lemma split_train_test_default_eq X y (w : World) :
  split_train_test (VFrame X) (VSeries y) None None w =
  let '(r, g) := train_test_split X y (TestFraction (1 # 4)) (Some 0%Z)
                   (np_random w) in
  (l <- r ;; Ok (VList l), mkWorld (fs w) g (stdout w)).
Proof. reflexivity. Qed.

Lemma default_indices_bounds n :
  Forall (fun i => (i < n)%nat) (default_test_indices n) /\
  Forall (fun i => (i < n)%nat) (default_train_indices n).
Proof.
  destruct (default_indices_partition n) as (Hperm & _).
  assert (Hall : Forall (fun i => (i < n)%nat)
                   (default_test_indices n ++ default_train_indices n)).
  { apply Forall_forall. intros i Hi.
    apply (Permutation_in _ Hperm) in Hi. apply in_seq in Hi. lia. }
  apply Forall_app in Hall. exact Hall.
Qed.

Lemma default_indices_lengths n :
  List.length (default_test_indices n) = Nat.min ((n + 3) / 4) n /\
  List.length (default_train_indices n) = (n - (n + 3) / 4)%nat.
Proof.
  destruct (default_indices_partition n) as (Hperm & Hlen).
  split; [exact Hlen|].
  apply Permutation_length in Hperm.
  rewrite length_app, length_seq, Hlen in Hperm. lia.
Qed.

(** What the default split does, starting from its arguments. *)
Lemma split_default_result X y (w : World) :
  let n := List.length (rows X) in
  fst (call_task T_split_train_test [VFrame X; VSeries y] w) =
  if negb (List.length y =? n)%nat
  then Err (ValueError "inconsistent numbers of samples")
  else if (n - (n + 3) / 4 =? 0)%nat
  then Err (ValueError "the resulting train set will be empty")
  else Ok (VList [VFrame (frame_take (default_train_indices n) X);
                  VFrame (frame_take (default_test_indices n) X);
                  VSeries (take (default_train_indices n) y);
                  VSeries (take (default_test_indices n) y)]).
Proof.
  intros n. cbn [call_task]. rewrite split_train_test_default_eq.
  pose proof (train_test_split_quarter X y (np_random w)) as Hq.
  unfold train_test_split in *. fold n in Hq |- *.
  destruct (negb (List.length y =? n)%nat); [reflexivity|].
  rewrite n_test_quarter in *.
  destruct (n - (n + 3) / 4 =? 0)%nat; [reflexivity|].
  cbn [check_random_state] in *.
  destruct (permutation (RandomState_seed 0) n) as [perm rng'].
  cbn [fst rbind] in *.
  destruct (Hq _ eq_refl) as (_ & ->). reflexivity.
Qed.


Lemma split_default_ok X y (w : World) :
  List.length y = List.length (rows X) ->
  (2 <= List.length (rows X))%nat ->
  let n := List.length (rows X) in
  call_task T_split_train_test [VFrame X; VSeries y] w =
  (Ok (VList [VFrame (frame_take (default_train_indices n) X);
              VFrame (frame_take (default_test_indices n) X);
              VSeries (take (default_train_indices n) y);
              VSeries (take (default_test_indices n) y)]), w).
Proof.
  intros Hlen Hn n.
  pose proof (split_default_result X y w) as Hres. cbn zeta in Hres.
  fold n in Hres, Hlen, Hn.
  rewrite Hlen, Nat.eqb_refl in Hres. cbn [negb] in Hres.
  pose proof (proj2 (quarter_lt n) Hn) as Hq.
  destruct (Nat.eqb_spec (n - (n + 3) / 4) 0) as [Hz|_]; [lia|].
  pose proof (call_task_world T_split_train_test [VFrame X; VSeries y] w
                eq_refl) as Hw.
  destruct (call_task T_split_train_test [VFrame X; VSeries y] w) as [r w'].
  cbn [fst snd] in *. subst. reflexivity.
Qed.

Lemma split_default_too_small X y (w : World) :
  List.length y = List.length (rows X) ->
  (List.length (rows X) < 2)%nat ->
  call_task T_split_train_test [VFrame X; VSeries y] w =
  (Err (ValueError "the resulting train set will be empty"), w).
Proof.
  intros Hlen Hn.
  pose proof (split_default_result X y w) as Hres. cbn zeta in Hres.
  rewrite Hlen, Nat.eqb_refl in Hres. cbn [negb] in Hres.
  pose proof (quarter_lt (List.length (rows X))) as Hq.
  destruct (Nat.eqb_spec (List.length (rows X) -
                          (List.length (rows X) + 3) / 4) 0) as [_|Hz];
    [|lia].
  pose proof (call_task_world T_split_train_test [VFrame X; VSeries y] w
                eq_refl) as Hw.
  destruct (call_task T_split_train_test [VFrame X; VSeries y] w) as [r w'].
  cbn [fst snd] in *. subst. reflexivity.
Qed.

Lemma default_parts_lengths {A} (l : list A) :
  let n := List.length l in
  (1 <= n)%nat ->
  List.length (take (default_test_indices n) l) = ((n + 3) / 4)%nat /\
  List.length (take (default_train_indices n) l) = (n - (n + 3) / 4)%nat.
Proof.
  intros n Hn.
  destruct (default_indices_bounds n) as (Hbt & Hbr).
  destruct (default_indices_lengths n) as (Hlt & Hlr).
  rewrite !take_length by assumption.
  split; [|exact Hlr].
  rewrite Hlt.
  pose proof (Nat.div_mod_eq (n + 3) 4).
  pose proof (Nat.mod_upper_bound (n + 3) 4 ltac:(lia)). lia.
Qed.

Lemma default_parts_cover {A} (l : list A) :
  let n := List.length l in
  Permutation (take (default_test_indices n) l ++
               take (default_train_indices n) l) l.
Proof.
  intros n. destruct (default_indices_partition n) as (Hperm & _).
  subst n. rewrite <- take_app.
  transitivity (take (seq 0 (List.length l)) l).
  - apply take_Permutation. exact Hperm.
  - rewrite take_seq_all. reflexivity.
Qed.

End DefaultSplit.



(* ===================================================================== *)
(** ** The daily schedule *)
(* ===================================================================== *)

Lemma parse_daily_one_am : parse_cron "0 1 * * *" = Some daily_one_am.
Proof. reflexivity. Qed.

Lemma clock_of_day (day secs : Z) :
  (0 <= secs < 86400)%Z ->
  day_of (day * 86400 + secs) = day /\
  minute_of_day (day * 86400 + secs) = (secs / 60)%Z.
Proof.
  intros Hs. unfold day_of, minute_of_day.
  rewrite Z.add_comm, Z.div_add, Z.mod_add by lia.
  rewrite Z.div_small, Z.mod_small by lia. split; [lia|reflexivity].
Qed.

(** The search of [next_fire] finds the earliest fire time after
    [now]. *)
Section NextFire.

Local Open Scope Z_scope.

Lemma find_minute_some c fuel : forall m r,
  find_minute c fuel m = Some r ->
  m <= r < 1440 /\ minute_matches c r = true /\
  forall x, m <= x < r -> minute_matches c x = false.
Proof.
  induction fuel as [|fuel IH]; intros m r H; [discriminate|].
  cbn [find_minute] in H.
  destruct (Z.leb_spec 1440 m); [discriminate|].
  destruct (minute_matches c m) eqn:Hm.
  - injection H as <-. split; [lia|]. split; [assumption|].
    intros x Hx. lia.
  - destruct (IH _ _ H) as (Hr & Hmatch & Hmin).
    split; [lia|]. split; [assumption|].
    intros x Hx. destruct (Z.eq_dec x m) as [->|]; [assumption|].
    apply Hmin. lia.
Qed.

Lemma find_minute_none c fuel : forall m,
  find_minute c fuel m = None ->
  1440 - m <= Z.of_nat fuel ->
  forall x, m <= x < 1440 -> minute_matches c x = false.
Proof.
  induction fuel as [|fuel IH]; intros m H Hf x Hx; [lia|].
  cbn [find_minute] in H.
  destruct (Z.leb_spec 1440 m); [lia|].
  destruct (minute_matches c m) eqn:Hm; [discriminate|].
  destruct (Z.eq_dec x m) as [->|]; [assumption|].
  apply (IH (m + 1)); [assumption|lia|lia].
Qed.

Lemma find_day_some c fuel : forall day m0 t,
  0 <= m0 ->
  find_day c fuel day m0 = Some t ->
  exists d r,
    t = d * 86400 + r * 60 /\ 0 <= r < 1440 /\ day <= d /\
    (d = day -> m0 <= r) /\
    day_matches c d = true /\ minute_matches c r = true /\
    forall d' r',
      0 <= r' < 1440 ->
      (d' = day /\ m0 <= r') \/ day < d' ->
      d' < d \/ (d' = d /\ r' < r) ->
      day_matches c d' && minute_matches c r' = false.
Proof.
  induction fuel as [|fuel IH]; intros day m0 t Hm0 H; [discriminate|].
  cbn [find_day] in H.
  assert (Hnext : find_day c fuel (day + 1) 0 = Some t ->
                  (forall r', m0 <= r' < 1440 ->
                     day_matches c day && minute_matches c r' = false) ->
                  exists d r,
    t = d * 86400 + r * 60 /\ 0 <= r < 1440 /\ day <= d /\
    (d = day -> m0 <= r) /\
    day_matches c d = true /\ minute_matches c r = true /\
    forall d' r',
      0 <= r' < 1440 ->
      (d' = day /\ m0 <= r') \/ day < d' ->
      d' < d \/ (d' = d /\ r' < r) ->
      day_matches c d' && minute_matches c r' = false).
  { intros Hrec Htoday.
    destruct (IH (day + 1) 0 t ltac:(lia) Hrec)
      as (d & r & -> & Hr & Hd & _ & Hdm & Hmm & Hmin).
    exists d, r. repeat split; try lia; try assumption.
    intros d' r' Hr' Hlo Hhi.
    destruct (Z.eq_dec d' day) as [->|Hne].
    - apply Htoday. lia.
    - apply Hmin; lia. }
  destruct (day_matches c day) eqn:Hday.
  - destruct (find_minute c 1440 m0) as [m|] eqn:Hfm.
    + injection H as <-.
      destruct (find_minute_some _ _ _ _ Hfm) as (Hr & Hmatch & Hmin).
      exists day, m. repeat split; try lia; try assumption.
      intros d' r' Hr' Hlo Hhi.
      assert (d' = day) by lia. subst d'.
      rewrite Hday, Hmin by lia. reflexivity.
    + apply Hnext; [assumption|].
      intros r' Hr'. cbn [andb].
      apply (find_minute_none _ _ _ Hfm); [|lia].
      change (1440 - m0 <= 1440). lia.
  - apply Hnext; [assumption|]. intros r' _. reflexivity.
Qed.

Lemma clock_split t :
  t = day_of t * 86400 + t mod 86400 /\ 0 <= t mod 86400 < 86400 /\
  0 <= minute_of_day t < 1440.
Proof.
  unfold day_of, minute_of_day.
  pose proof (Z.div_mod t 86400 ltac:(lia)).
  pose proof (Z.mod_pos_bound t 86400 ltac:(lia)).
  repeat split; try lia.
  - apply Z.div_pos; lia.
  - apply Z.div_lt_upper_bound; lia.
Qed.

Lemma clock_minute d r :
  0 <= r < 1440 ->
  day_of (d * 86400 + r * 60) = d /\
  minute_of_day (d * 86400 + r * 60) = r /\
  (d * 86400 + r * 60) mod 60 = 0.
Proof.
  intros Hr.
  destruct (clock_of_day d (r * 60) ltac:(lia)) as (-> & ->).
  rewrite Z.div_mul by lia. repeat split.
  replace (d * 86400 + r * 60) with (0 + (d * 1440 + r) * 60) by lia.
  rewrite Z.mod_add by lia. reflexivity.
Qed.

(** The next fire time is a firing time after [now], and no time between
    the two is one. *)
Lemma next_fire_earliest c now t :
  next_fire c now = Some t ->
  now < t /\ fires c t = true /\
  forall t', now < t' < t -> fires c t' = false.
Proof.
  unfold next_fire. intros H.
  destruct (clock_split now) as (Hnow & Hs & Hmn).
  destruct (find_day_some c horizon (day_of now) (minute_of_day now + 1) t
              ltac:(lia) H)
    as (d & r & -> & Hr & Hd & Hsame & Hdm & Hmm & Hmin).
  destruct (clock_minute d r Hr) as (Hday & Hminute & Hmod).
  assert (Hlt : now < d * 86400 + r * 60).
  { destruct (Z.eq_dec d (day_of now)) as [->|Hne].
    - specialize (Hsame eq_refl). unfold minute_of_day in *.
      Z.to_euclidean_division_equations. lia.
    - lia. }
  split; [exact Hlt|]. split.
  - unfold fires. rewrite Hday, Hminute, Hmod, Hdm, Hmm. reflexivity.
  - intros t' Ht'. unfold fires.
    destruct (Z.eqb_spec (t' mod 60) 0) as [H60|]; [|reflexivity].
    cbn [andb].
    destruct (clock_split t') as (Ht & Hs' & Hm').
    apply Hmin; [assumption| |].
    + unfold minute_of_day, day_of in *.
      Z.to_euclidean_division_equations. lia.
    + unfold minute_of_day, day_of in *.
      Z.to_euclidean_division_equations. lia.
Qed.

End NextFire.

Lemma find_day_daily fuel day from_minute :
  find_day daily_one_am (S fuel) day from_minute =
  match find_minute daily_one_am 1440 from_minute with
  | Some m => Some (day * 86400 + m * 60)%Z
  | None => find_day daily_one_am fuel (day + 1)%Z 0%Z
  end.
Proof. reflexivity. Qed.

(** At any second of the first hour of a day the next fire is 01:00:00 of
    that day; from 01:00:00 on it is 01:00:00 of the following day. *)
Lemma next_fire_daily_before (day secs : Z) :
  (0 <= secs < 3600)%Z ->
  next_fire daily_one_am (day * 86400 + secs) = Some (at_clock day 1 0 0).
Proof.
  intros Hs. unfold next_fire.
  destruct (clock_of_day day secs ltac:(lia)) as (-> & ->).
  change horizon with (S 2929). rewrite find_day_daily.
  assert (Hm : forall k : nat, (k <= 60)%nat ->
            find_minute daily_one_am 1440 (60 - Z.of_nat k) = Some 60%Z).
  { assert (Hgen : forall k fuel, (k <= 60)%nat -> (k < fuel)%nat ->
              find_minute daily_one_am fuel (60 - Z.of_nat k) = Some 60%Z).
    { induction k as [|k IH]; intros fuel Hk Hf.
      - destruct fuel; [lia|]. reflexivity.
      - destruct fuel as [|fuel]; [lia|]. cbn [find_minute].
        destruct (Z.leb_spec 1440 (60 - Z.of_nat (S k))); [lia|].
        unfold minute_matches. cbn [daily_one_am c_hour c_minute
          field_matches existsb item_matches].
        replace ((60 - Z.of_nat (S k)) / 60 =? Z.of_nat 1)%Z with false.
        + cbn [orb andb].
          replace (60 - Z.of_nat (S k) + 1)%Z with (60 - Z.of_nat k)%Z by lia.
          apply IH; lia.
        + symmetry. apply Z.eqb_neq.
          rewrite Z.div_small by lia. discriminate. }
    intros k Hk. apply Hgen; lia. }
  assert (Hq : (0 <= secs / 60 < 60)%Z)
    by (split; [apply Z.div_pos; lia|apply Z.div_lt_upper_bound; lia]).
  replace (secs / 60 + 1)%Z with (60 - Z.of_nat (Z.to_nat (59 - secs / 60)))%Z
    by lia.
  rewrite Hm by lia. unfold at_clock. f_equal. lia.
Qed.

Lemma next_fire_daily_at (day : Z) :
  next_fire daily_one_am (at_clock day 1 0 0) = Some (at_clock (day + 1) 1 0 0).
Proof.
  unfold next_fire, at_clock.
  replace (day * 86400 + 1 * 3600 + 0 * 60 + 0)%Z
    with (day * 86400 + 3600)%Z by lia.
  destruct (clock_of_day day 3600 ltac:(lia)) as (-> & ->).
  change horizon with (S (S 2928)). rewrite find_day_daily.
  replace (find_minute daily_one_am 1440 (3600 / 60 + 1))
    with (@None Z) by (vm_compute; reflexivity).
  rewrite find_day_daily.
  replace (find_minute daily_one_am 1440 0)
    with (Some 60%Z) by (vm_compute; reflexivity).
  f_equal. lia.
Qed.

Lemma weekday_range day : (0 <= weekday day < 7)%Z.
Proof. unfold weekday. apply Z.mod_pos_bound. lia. Qed.

(** C7: the schedule ["0 1 * * *"] set up at 00:59:00 of any day has its
    next fire at 01:00:00 of the same day; the trigger does nothing
    before that time, fires a FlowRun when the clock reaches it, and then
    expects the next fire at 01:00:00 of the following day.  In the
    day-of-week field 0 and 7 both denote Sunday: the two spellings match
    the same days, those whose week day is Sunday. *)
Theorem daily_schedule_fires_at_one (day : Z) (flow : string) :
  exists s,
    schedule "0 1 * * *" flow (at_clock day 0 59 0) = Some s /\
    sch_next s = Some (at_clock day 1 0 0) /\
    tick s (at_clock day 0 59 59) = s /\
    sch_fired (tick s (at_clock day 1 0 0)) = [at_clock day 1 0 0] /\
    sch_next (tick s (at_clock day 1 0 0)) =
      Some (at_clock (day + 1) 1 0 0) /\
    parse_cron "0 0 * * 0" = Some sunday_as_0 /\
    parse_cron "0 0 * * 7" = Some sunday_as_7 /\
    weekday 3 = 0%Z /\ civil 3 = (1970, 1, 4)%Z /\
    forall d,
      day_matches sunday_as_0 d = day_matches sunday_as_7 d /\
      (day_matches sunday_as_7 d = true <-> weekday d = 0%Z).
Proof.
  assert (Hnext : next_fire daily_one_am (at_clock day 0 59 0) =
                  Some (at_clock day 1 0 0)).
  { unfold at_clock at 1.
    replace (day * 86400 + 0 * 3600 + 59 * 60 + 0)%Z
      with (day * 86400 + 3540)%Z by lia.
    apply next_fire_daily_before. lia. }
  exists (mkScheduler daily_one_am flow (Some (at_clock day 1 0 0)) []).
  split; [|split; [|split; [|split; [|split]]]].
  - unfold schedule. rewrite parse_daily_one_am, Hnext. reflexivity.
  - reflexivity.
  - unfold tick. cbn [sch_next].
    destruct (Z.leb_spec (at_clock day 1 0 0) (at_clock day 0 59 59));
      [unfold at_clock in *; lia|reflexivity].
  - unfold tick. cbn [sch_next]. rewrite Z.leb_refl. reflexivity.
  - unfold tick. cbn [sch_next]. rewrite Z.leb_refl. cbn [sch_next sch_cron].
    apply next_fire_daily_at.
  - split; [reflexivity|]. split; [reflexivity|].
    split; [reflexivity|]. split; [reflexivity|].
    intros d. pose proof (weekday_range d) as Hr.
    unfold day_matches, dow_matches, sunday_as_0, sunday_as_7.
    cbn [c_dom c_month c_dow field_matches existsb item_matches
         orb andb].
    change (Z.of_nat 0) with 0%Z. change (Z.of_nat 7) with 7%Z.
    destruct (Z.eqb_spec (weekday d) 0) as [H0|H0];
      destruct (Z.eqb_spec (weekday d) 7) as [H7|H7];
      destruct (Z.eqb_spec 7 7) as [_|Hc];
      destruct (Z.eqb_spec 7 0) as [Hc'|_];
      cbn [orb andb]; try lia; split; try reflexivity;
      split; intros; try assumption; try reflexivity; try discriminate;
      try lia.
Qed.

(* ===================================================================== *)
(** ** Selecting columns: [split_inputs_output] *)
(* ===================================================================== *)

Lemma index_of_nth name cols k :
  index_of name cols = Some k -> nth_error cols k = Some name.
Proof.
  revert k. induction cols as [|c cols IH]; intros k H; [discriminate|].
  cbn [index_of] in H. destruct (String.eqb_spec c name) as [->|Hne].
  - injection H as <-. reflexivity.
  - destruct (index_of name cols) as [k'|]; [|discriminate].
    injection H as <-. cbn. apply IH. reflexivity.
Qed.

Lemma index_of_In name cols :
  In name cols <-> exists k, index_of name cols = Some k.
Proof.
  induction cols as [|c cols IH]; cbn [index_of In].
  - split; [contradiction|intros (k & H); discriminate].
  - destruct (String.eqb_spec c name) as [->|Hne].
    + split; [eauto|tauto].
    + split.
      * intros [H|H]; [congruence|].
        apply IH in H. destruct H as (k & ->). cbn. eauto.
      * intros (k & H). right. apply IH.
        destruct (index_of name cols); [eauto|discriminate].
Qed.

(** With distinct labels, a label stands at one position only. *)
Lemma index_of_unique name cols k :
  NoDup cols -> nth_error cols k = Some name -> index_of name cols = Some k.
Proof.
  intros Hnd. revert k. induction Hnd as [|c cols Hc _ IH]; intros k Hk.
  - destruct k; discriminate.
  - cbn [index_of]. destruct k as [|k]; cbn [nth_error] in Hk.
    + injection Hk as ->. rewrite String.eqb_refl. reflexivity.
    + destruct (String.eqb_spec c name) as [->|_].
      * exfalso. apply Hc. eapply nth_error_In. exact Hk.
      * rewrite (IH k Hk). reflexivity.
Qed.

Lemma has_column_In df name :
  has_column df name = true <-> In name (columns df).
Proof.
  unfold has_column. rewrite index_of_In.
  destruct (index_of name (columns df)) as [k|].
  - split; eauto.
  - split; [discriminate|intros (k & H); discriminate].
Qed.

Lemma unique_In x l : In x (unique l) <-> In x l.
Proof.
  induction l as [|a l IH]; cbn [unique In]; [tauto|].
  rewrite filter_In, IH.
  destruct (String.eqb_spec a x) as [->|Hne]; cbn [negb].
  - tauto.
  - split; [tauto|]. intros [H|H]; [tauto|]. right. split; [exact H|].
    reflexivity.
Qed.

Lemma unique_NoDup l : NoDup (unique l).
Proof.
  induction l as [|a l IH]; cbn [unique]; constructor.
  - rewrite filter_In, String.eqb_refl. cbn. intros (_ & H). discriminate.
  - apply NoDup_filter. exact IH.
Qed.

(** The labels reported missing: each once, and exactly the requested
    labels that are not columns. *)
Lemma missing_labels_spec df names :
  NoDup (missing_labels df names) /\
  forall l, In l (missing_labels df names) <->
            In l names /\ ~ In l (columns df).
Proof.
  unfold missing_labels. split; [apply unique_NoDup|].
  intros l. rewrite unique_In, filter_In, <- has_column_In.
  destruct (has_column df l); cbn [negb]; split; intros (H1 & H2);
    (split; [exact H1|]); congruence.
Qed.

Lemma missing_labels_none df names :
  (forall name, In name names -> In name (columns df)) ->
  missing_labels df names = [].
Proof.
  intros Hin.
  destruct (missing_labels df names) as [|l ls] eqn:Hm; [reflexivity|].
  exfalso.
  destruct (proj1 (proj2 (missing_labels_spec df names) l)) as (Hl & Hout).
  - rewrite Hm. left. reflexivity.
  - apply Hout. apply Hin. exact Hl.
Qed.

Lemma missing_labels_some df names name :
  In name names -> ~ In name (columns df) ->
  missing_labels df names <> [].
Proof.
  intros Hin Hout Hm.
  pose proof (proj2 (proj2 (missing_labels_spec df names) name)
                (conj Hin Hout)) as H.
  rewrite Hm in H. destruct H.
Qed.

Lemma as_str_list_strings (names : list string) :
  as_str_list (VList (map VStr names)) = Ok names.
Proof.
  cbn [as_str_list].
  induction names as [|n names IH]; [reflexivity|].
  cbn [map rmap as_str rbind]. rewrite IH. reflexivity.
Qed.

Lemma rmap_column_index data names :
  (forall name, In name names -> In name (columns data)) ->
  exists idx,
    rmap (column_index data) names = Ok idx /\
    Forall2 (fun name k => index_of name (columns data) = Some k) names idx.
Proof.
  induction names as [|n names IH]; intros Hin.
  - exists []. split; [reflexivity|constructor].
  - destruct IH as (idx & Hidx & Hall); [intros; apply Hin; cbn; tauto|].
    destruct (proj1 (index_of_In n (columns data)) (Hin n (or_introl eq_refl)))
      as (k & Hk).
    exists (k :: idx). split.
    + cbn [rmap]. unfold column_index at 1. rewrite Hk. cbn [rbind].
      rewrite Hidx. reflexivity.
    + constructor; assumption.
Qed.

Section Selecting.

Context {B : Backend}.

Lemma split_inputs_output_ok df names output idx j (w : World) :
  rmap (column_index df) names = Ok idx ->
  index_of output (columns df) = Some j ->
  split_inputs_output (VFrame df) (VList (map VStr names)) (VStr output) w =
  (Ok (VTuple
         [VFrame (mkFrame names
                    (map (fun r => map (fun k => nth k r (CStr "")) idx)
                         (rows df)));
          VSeries (map (fun r => nth j r (CStr "")) (rows df))]), w).
Proof.
  intros Hidx Hj. unfold split_inputs_output.
  cbn [as_frame rbind]. rewrite as_str_list_strings. cbn [rbind].
  assert (Hall : forall name, In name names -> In name (columns df)).
  { clear Hj. revert idx Hidx.
    induction names as [|n names IH]; intros idx Hidx name Hin;
      [destruct Hin|].
    cbn [rmap] in Hidx. unfold column_index at 1 in Hidx.
    destruct (index_of n (columns df)) as [k|] eqn:Hk; [|discriminate].
    cbn [rbind] in Hidx.
    destruct (rmap (column_index df) names) as [idx'|]; [|discriminate].
    destruct Hin as [<-|Hin].
    - apply index_of_In. eauto.
    - apply (IH idx' eq_refl). exact Hin. }
  unfold getitem_labels, raise_if_missing, getitem_label.
  rewrite (missing_labels_none df names Hall). cbn [rbind].
  rewrite Hidx. cbn [rbind as_str].
  unfold column_index. rewrite Hj. reflexivity.
Qed.

Lemma split_inputs_output_missing_input df names name output (w : World) :
  In name names -> ~ In name (columns df) ->
  split_inputs_output (VFrame df) (VList (map VStr names)) (VStr output) w =
    (Err (if forallb (fun n => negb (has_column df n)) names
          then KeyErrorNoneInColumns names
          else KeyErrorNotInIndex (missing_labels df names)), w).
Proof.
  intros Hin Hout. unfold split_inputs_output.
  cbn [as_frame rbind]. rewrite as_str_list_strings. cbn [rbind].
  unfold getitem_labels, raise_if_missing.
  pose proof (missing_labels_some df names name Hin Hout) as Hm.
  destruct (missing_labels df names) as [|l ls]; [congruence|].
  destruct (forallb _ names); reflexivity.
Qed.

Lemma none_in_columns df names :
  forallb (fun n => negb (has_column df n)) names = true <->
  forall n, In n names -> ~ In n (columns df).
Proof.
  rewrite forallb_forall. split; intros H n Hn.
  - rewrite <- has_column_In. specialize (H n Hn).
    destruct (has_column df n); [discriminate|congruence].
  - specialize (H n Hn). rewrite <- has_column_In in H.
    destruct (has_column df n); [exfalso; apply H; reflexivity|reflexivity].
Qed.

Lemma split_inputs_output_missing_output df names name (w : World) :
  (forall n, In n names -> In n (columns df)) ->
  ~ In name (columns df) ->
  split_inputs_output (VFrame df) (VList (map VStr names)) (VStr name) w =
    (Err (KeyError name), w).
Proof.
  intros Hin Hmiss.
  destruct (rmap_column_index df names Hin) as (idx & Hidx & _).
  unfold split_inputs_output.
  cbn [as_frame rbind]. rewrite as_str_list_strings. cbn [rbind].
  unfold getitem_labels, getitem_label.
  unfold raise_if_missing.
  rewrite (missing_labels_none df names Hin). cbn [rbind].
  rewrite Hidx. cbn [rbind as_str].
  unfold column_index.
  destruct (index_of name (columns df)) as [k|] eqn:Hk; [|reflexivity].
  exfalso. apply Hmiss. apply index_of_In. eauto.
Qed.

End Selecting.

(** X1: on a table with distinct column labels, all requested labels
    among them, [split_inputs_output] succeeds and leaves the world alone;
    [X] has exactly the requested labels as its columns, in the requested
    order, each row of [X] holds the cells of the same row of the table
    under those labels, and [y] holds, row by row, the cell under the
    output label.  Rows are neither dropped nor reordered. *)
Theorem split_inputs_output_aligned {B : Backend}
    (data : DataFrame) (inputs : list string) (output : string) (w : World) :
  NoDup (columns data) ->
  (forall name, In name inputs -> In name (columns data)) ->
  In output (columns data) ->
  exists idx j,
    Forall2 (fun name k => nth_error (columns data) k = Some name)
            inputs idx /\
    nth_error (columns data) j = Some output /\
    split_inputs_output (VFrame data) (VList (map VStr inputs))
                        (VStr output) w =
    (Ok (VTuple
           [VFrame (mkFrame inputs
                      (map (fun r => map (fun k => nth k r (CStr "")) idx)
                           (rows data)));
            VSeries (map (fun r => nth j r (CStr "")) (rows data))]), w) /\
    forall idx' j',
      Forall2 (fun name k => nth_error (columns data) k = Some name)
              inputs idx' ->
      nth_error (columns data) j' = Some output ->
      idx' = idx /\ j' = j.
Proof.
  intros Hnd Hin Hout.
  destruct (rmap_column_index data inputs Hin) as (idx & Hidx & Hall).
  destruct (proj1 (index_of_In output (columns data)) Hout) as (j & Hj).
  exists idx, j. split; [|split; [apply index_of_nth; exact Hj|split]].
  - eapply Forall2_impl; [|exact Hall]. intros name k Hk.
    apply index_of_nth. exact Hk.
  - apply split_inputs_output_ok; assumption.
  - intros idx' j' Hall' Hj'. split.
    + clear Hidx. revert idx' Hall'.
      induction Hall as [|name k names idx0 Hk _ IH]; intros idx' Hall';
        inversion Hall' as [|? k' ? idx1 Hk' Hrest]; subst;
        [reflexivity|].
      f_equal.
      * apply (index_of_unique _ _ _ Hnd) in Hk'. congruence.
      * apply IH; [|exact Hrest]. intros n Hn. apply Hin. right. exact Hn.
    + apply (index_of_unique _ _ _ Hnd) in Hj'. congruence.
Qed.

Lemma split_inputs_output_aligned_witness :
  exists idx j,
    Forall2 (fun name k => nth_error (columns iris_sample) k = Some name)
            ["PetalLengthCm"; "PetalWidthCm"] idx /\
    nth_error (columns iris_sample) j = Some "Species" /\
    split_inputs_output (B := ref_backend) (VFrame iris_sample)
      (VList (map VStr ["PetalLengthCm"; "PetalWidthCm"]))
      (VStr "Species") demo_world =
    (Ok (VTuple
           [VFrame (mkFrame ["PetalLengthCm"; "PetalWidthCm"]
                      (map (fun r => map (fun k => nth k r (CStr "")) idx)
                           (rows iris_sample)));
            VSeries (map (fun r => nth j r (CStr "")) (rows iris_sample))]),
     demo_world).
Proof.
  destruct (split_inputs_output_aligned (B := ref_backend) iris_sample
              ["PetalLengthCm"; "PetalWidthCm"] "Species" demo_world)
    as (idx & j & Hidx & Hj & Hrun & _).
  - repeat constructor; cbn; intros H;
      repeat (destruct H as [H|H]; [discriminate H|]); exact H.
  - intros name [<-|[<-|[]]]; cbn; tauto.
  - cbn. tauto.
  - exists idx, j. repeat split; assumption.
Defined.

(** X2: on a table with distinct column labels, a label that is not a
    column makes [split_inputs_output] raise [KeyError] and leave the
    world alone, whatever the output label when an input label is
    missing.  When some input labels are columns and others are not, the
    error names all the missing ones, each once, in the order of the
    request; when no input label is a column, the error names the whole
    request; when all input labels exist and the output label does not,
    the error names the output label. *)
Theorem split_inputs_output_missing_label {B : Backend}
    (data : DataFrame) (inputs : list string) (name output : string)
    (w : World) :
  NoDup (columns data) ->
  ~ In name (columns data) ->
  (In name inputs ->
   (exists n, In n inputs /\ In n (columns data)) ->
   split_inputs_output (VFrame data) (VList (map VStr inputs))
                       (VStr output) w =
     (Err (KeyErrorNotInIndex (missing_labels data inputs)), w) /\
   In name (missing_labels data inputs) /\
   NoDup (missing_labels data inputs) /\
   forall l, In l (missing_labels data inputs) <->
             In l inputs /\ ~ In l (columns data)) /\
  (In name inputs ->
   (forall n, In n inputs -> ~ In n (columns data)) ->
   split_inputs_output (VFrame data) (VList (map VStr inputs))
                       (VStr output) w =
     (Err (KeyErrorNoneInColumns inputs), w)) /\
  ((forall n, In n inputs -> In n (columns data)) ->
   split_inputs_output (VFrame data) (VList (map VStr inputs))
                       (VStr name) w = (Err (KeyError name), w)).
Proof.
  intros _ Hmiss. split; [|split].
  - intros Hin (n & Hn & Hcol).
    destruct (missing_labels_spec data inputs) as (Hnd & Hspec).
    split; [|split; [apply Hspec; split; assumption|split; assumption]].
    rewrite (split_inputs_output_missing_input _ _ name) by assumption.
    destruct (forallb _ inputs) eqn:Hall; [|reflexivity].
    exfalso. apply (proj1 (none_in_columns data inputs) Hall n Hn Hcol).
  - intros Hin Hnone.
    rewrite (split_inputs_output_missing_input _ _ name) by assumption.
    rewrite (proj2 (none_in_columns data inputs) Hnone). reflexivity.
  - intros Hall. apply split_inputs_output_missing_output; assumption.
Qed.

Lemma split_inputs_output_missing_label_witness :
  split_inputs_output (B := ref_backend) (VFrame iris_sample)
    (VList (map VStr ["PetalLengthCm"; "PetalLength"; "Width";
                      "PetalLength"]))
    (VStr "Species") demo_world =
    (Err (KeyErrorNotInIndex ["PetalLength"; "Width"]), demo_world) /\
  split_inputs_output (B := ref_backend) (VFrame iris_sample)
    (VList (map VStr ["PetalLength"; "PetalLength"]))
    (VStr "Species") demo_world =
    (Err (KeyErrorNoneInColumns ["PetalLength"; "PetalLength"]),
     demo_world) /\
  split_inputs_output (B := ref_backend) (VFrame iris_sample)
    (VList (map VStr ["PetalLengthCm"])) (VStr "PetalLength") demo_world =
    (Err (KeyError "PetalLength"), demo_world).
Proof.
  assert (Hmiss : ~ In "PetalLength" (columns iris_sample)).
  { cbn. intros H.
    repeat (destruct H as [H|H]; [discriminate H|]). exact H. }
  assert (Hnd : NoDup (columns iris_sample)).
  { repeat constructor; cbn; intros H;
      repeat (destruct H as [H|H]; [discriminate H|]); exact H. }
  split; [|split].
  - refine (proj1 (proj1 (split_inputs_output_missing_label
                            (B := ref_backend) iris_sample
                            ["PetalLengthCm"; "PetalLength"; "Width";
                             "PetalLength"]
                            "PetalLength" "Species" demo_world Hnd Hmiss)
                     _ _)).
    + cbn. tauto.
    + exists "PetalLengthCm". cbn. tauto.
  - refine (proj1 (proj2 (split_inputs_output_missing_label
                            (B := ref_backend) iris_sample
                            ["PetalLength"; "PetalLength"]
                            "PetalLength" "Species" demo_world Hnd Hmiss))
                  _ _).
    + cbn. tauto.
    + intros n [<-|[<-|[]]]; exact Hmiss.
  - refine (proj2 (proj2 (split_inputs_output_missing_label
                            (B := ref_backend) iris_sample ["PetalLengthCm"]
                            "PetalLength" "PetalLength" demo_world Hnd
                            Hmiss))
                  _).
    intros n [<-|[]]. cbn. tauto.
Defined.

(* ===================================================================== *)
(** ** Splitting rows: [split_train_test] *)
(* ===================================================================== *)

(** X3: called as the flow calls it, on a table and labels of the same
    length, [split_train_test] succeeds exactly when the table has at least
    two rows; with fewer rows it raises [ValueError] because the train part
    would be empty, and with labels of another length it raises
    [ValueError] for inconsistent numbers of samples. *)
Theorem split_train_test_needs_two_rows {B : Backend}
    (X : DataFrame) (y : Series) (w : World) :
  List.length y = List.length (rows X) ->
  let n := List.length (rows X) in
  ((2 <= n)%nat ->
   exists Xtr Xte ytr yte,
     fst (call_task T_split_train_test [VFrame X; VSeries y] w) =
     Ok (VList [VFrame Xtr; VFrame Xte; VSeries ytr; VSeries yte])) /\
  ((n < 2)%nat ->
   fst (call_task T_split_train_test [VFrame X; VSeries y] w) =
   Err (ValueError "the resulting train set will be empty")) /\
  (forall y', List.length y' <> n ->
   fst (call_task T_split_train_test [VFrame X; VSeries y'] w) =
   Err (ValueError "inconsistent numbers of samples")).
Proof.
  intros Hlen n. fold n in Hlen.
  pose proof (quarter_lt n) as Hq.
  split; [|split].
  - intros Hn. rewrite split_default_result. fold n.
    rewrite Hlen, Nat.eqb_refl. cbn [negb].
    destruct (Nat.eqb_spec (n - (n + 3) / 4) 0); [lia|]. eauto 6.
  - intros Hn. rewrite split_default_result. fold n.
    rewrite Hlen, Nat.eqb_refl. cbn [negb].
    destruct (Nat.eqb_spec (n - (n + 3) / 4) 0); [reflexivity|lia].
  - intros y' Hy'. rewrite split_default_result. fold n.
    destruct (Nat.eqb_spec (List.length y') n); [contradiction|reflexivity].
Qed.

Lemma split_train_test_needs_two_rows_witness :
  (exists Xtr Xte ytr yte,
     fst (call_task (B := ref_backend) T_split_train_test
            [VFrame (two_features iris_sample); VSeries iris_labels]
            demo_world) =
     Ok (VList [VFrame Xtr; VFrame Xte; VSeries ytr; VSeries yte])) /\
  fst (call_task (B := ref_backend) T_split_train_test
         [VFrame (two_features iris_sample); VSeries [CStr "Iris-setosa"]]
         demo_world) =
  Err (ValueError "inconsistent numbers of samples").
Proof.
  destruct (split_train_test_needs_two_rows (B := ref_backend)
              (two_features iris_sample) iris_labels demo_world eq_refl)
    as (Hok & _ & Hbad).
  split.
  - apply Hok. cbn. lia.
  - apply Hbad. cbn. lia.
Defined.

(** X4: a successful default split keeps every sample exactly once and
    keeps rows and labels together: both parts have the columns of [X],
    the test part has [ceil (n / 4)] rows and the train part the others,
    each part has as many labels as rows, and the (row, label) pairs of
    the two parts are, up to order, the pairs of the input. *)
Theorem split_train_test_keeps_samples {B : Backend}
    (X : DataFrame) (y : Series) (w : World) (v : Value) :
  fst (call_task T_split_train_test [VFrame X; VSeries y] w) = Ok v ->
  let n := List.length (rows X) in
  exists Xtr Xte ytr yte,
    v = VList [VFrame Xtr; VFrame Xte; VSeries ytr; VSeries yte] /\
    columns Xtr = columns X /\ columns Xte = columns X /\
    List.length (rows Xte) = ((n + 3) / 4)%nat /\
    List.length (rows Xtr) = (n - (n + 3) / 4)%nat /\
    List.length ytr = List.length (rows Xtr) /\
    List.length yte = List.length (rows Xte) /\
    Permutation (combine (rows Xte) yte ++ combine (rows Xtr) ytr)
                (combine (rows X) y).
Proof.
  intros Hv n. rewrite split_default_result in Hv. fold n in Hv.
  destruct (Nat.eqb_spec (List.length y) n) as [Hlen|]; [|discriminate].
  cbn [negb] in Hv.
  destruct (Nat.eqb_spec (n - (n + 3) / 4) 0) as [|Hn]; [discriminate|].
  injection Hv as <-.
  destruct (default_indices_bounds n) as (Hte & Htr).
  destruct (default_indices_lengths n) as (Hlte & Hltr).
  destruct (default_indices_partition n) as (Hperm & _).
  do 4 eexists. split; [reflexivity|].
  cbn [frame_take columns rows].
  split; [reflexivity|]. split; [reflexivity|].
  rewrite !take_length by (try rewrite Hlen; assumption).
  rewrite Hlte, Hltr.
  split; [lia|]. split; [reflexivity|]. split; [reflexivity|].
  split; [reflexivity|].
  rewrite <- !take_combine by (symmetry; exact Hlen).
  rewrite <- take_app.
  assert (Hn' : n = List.length (combine (rows X) y))
    by (rewrite length_combine, Hlen; fold n; lia).
  rewrite <- (take_seq_all (combine (rows X) y)) at 2.
  rewrite <- Hn'. apply take_Permutation. exact Hperm.
Qed.

Lemma split_train_test_keeps_samples_witness :
  let X := two_features iris_sample in
  exists Xtr Xte ytr yte,
    fst (call_task (B := ref_backend) T_split_train_test
           [VFrame X; VSeries iris_labels] demo_world) =
      Ok (VList [VFrame Xtr; VFrame Xte; VSeries ytr; VSeries yte]) /\
    List.length (rows Xte) = 2%nat /\ List.length (rows Xtr) = 6%nat /\
    Permutation (combine (rows Xte) yte ++ combine (rows Xtr) ytr)
                (combine (rows X) iris_labels).
Proof.
  intros X.
  destruct (split_train_test_keeps_samples (B := ref_backend) X iris_labels
              demo_world
              (VList [VFrame (frame_take [2; 3; 4; 5; 6; 7]%nat X);
                      VFrame (frame_take [0; 1]%nat X);
                      VSeries (take [2; 3; 4; 5; 6; 7]%nat iris_labels);
                      VSeries (take [0; 1]%nat iris_labels)]))
    as (Xtr & Xte & ytr & yte & Hv & _ & _ & Hte & Htr & _ & _ & Hperm).
  - vm_compute. reflexivity.
  - exists Xtr, Xte, ytr, yte. rewrite <- Hv.
    split; [vm_compute; reflexivity|].
    split; [exact Hte|]. split; [exact Htr|exact Hperm].
Defined.

(** X5: with an integer [test_size] of [k] and an integer seed that
    numpy accepts (from 0 to 2^32 - 1), [split_train_test] succeeds
    exactly when [0 < k < n]: the test part then has [k] rows and labels,
    the train part the remaining [n - k], no (row, label) pair is lost or
    duplicated, and the world, the global generator included, is left as
    it was.  Any other [k] raises [ValueError], and so does, for such a
    [k], a seed outside that range. *)
Theorem split_train_test_explicit_count {B : Backend}
    (X : DataFrame) (y : Series) (k seed : Z) (w : World) :
  List.length y = List.length (rows X) ->
  (0 <= seed < 4294967296)%Z ->
  let n := List.length (rows X) in
  ((0 < k < Z.of_nat n)%Z ->
   exists Xtr Xte ytr yte,
     call_task T_split_train_test
       [VFrame X; VSeries y; VInt k; VInt seed] w =
       (Ok (VList [VFrame Xtr; VFrame Xte; VSeries ytr; VSeries yte]), w) /\
     List.length (rows Xte) = Z.to_nat k /\
     List.length (rows Xtr) = (n - Z.to_nat k)%nat /\
     List.length yte = Z.to_nat k /\
     List.length ytr = (n - Z.to_nat k)%nat /\
     Permutation (combine (rows Xte) yte ++ combine (rows Xtr) ytr)
                 (combine (rows X) y)) /\
  ((k <= 0 \/ Z.of_nat n <= k)%Z ->
   call_task T_split_train_test [VFrame X; VSeries y; VInt k; VInt seed] w =
     (Err (ValueError "test_size out of range"), w)) /\
  (forall seed', (seed' < 0 \/ 4294967296 <= seed')%Z ->
   (0 < k < Z.of_nat n)%Z ->
   call_task T_split_train_test [VFrame X; VSeries y; VInt k; VInt seed'] w =
     (Err (ValueError "random_state out of range"), w)).
Proof.
  intros Hlen Hseed n. fold n in Hlen.
  assert (Hs : ((0 <=? seed) && (seed <? 4294967296))%Z = true)
    by (apply andb_true_iff; split; [apply Z.leb_le|apply Z.ltb_lt]; lia).
  split; [|split].
  - intros Hk.
    assert (Hk1 : (1 <=? k)%Z = true) by (apply Z.leb_le; lia).
    cbn [call_task]. unfold split_train_test.
    cbn [as_frame as_series as_test_size as_random_state rbind].
    rewrite Hk1, Hs. cbn [rbind].
    unfold train_test_split. fold n.
    rewrite Hlen, Nat.eqb_refl. cbn [negb n_test_of].
    replace ((0 <? k)%Z && (k <? Z.of_nat n)%Z) with true
      by (symmetry; apply andb_true_iff; split; apply Z.ltb_lt; lia).
    destruct (Nat.eqb_spec (n - Z.to_nat k) 0) as [Hz|_]; [lia|].
    cbn [check_random_state].
    pose proof (permutation_spec (RandomState_seed seed) n) as Hperm.
    destruct (permutation (RandomState_seed seed) n) as [perm rng'].
    cbn [fst rbind] in *. rewrite world_eta.
    assert (Hkn : (Z.to_nat k <= n)%nat) by lia.
    destruct (split_parts perm (Z.to_nat k) (rows X) Hperm Hkn)
      as (H1 & H2 & _).
    destruct (split_parts perm (Z.to_nat k) y) as (H3 & H4 & _);
      [rewrite Hlen; exact Hperm|rewrite Hlen; exact Hkn|].
    destruct (split_parts perm (Z.to_nat k) (combine (rows X) y))
      as (_ & _ & H5).
    { rewrite length_combine, Hlen. fold n. rewrite Nat.min_id. exact Hperm. }
    { rewrite length_combine, Hlen. fold n. rewrite Nat.min_id. exact Hkn. }
    cbn zeta in *. fold n in H1, H2. rewrite Hlen in H4.
    rewrite length_combine, Hlen in H5. fold n in H5.
    rewrite Nat.min_id in H5.
    do 4 eexists. split; [reflexivity|].
    cbn [frame_take rows].
    split; [exact H1|]. split; [exact H2|].
    split; [exact H3|]. split; [exact H4|].
    rewrite <- !take_combine by (symmetry; exact Hlen). exact H5.
  - intros Hk.
    cbn [call_task]. unfold split_train_test.
    cbn [as_frame as_series as_test_size as_random_state rbind].
    destruct (Z.leb_spec 1 k) as [Hk1|Hk1]; cbn [rbind]; [|reflexivity].
    rewrite Hs. cbn [rbind].
    unfold train_test_split. fold n.
    rewrite Hlen, Nat.eqb_refl. cbn [negb n_test_of].
    replace ((0 <? k)%Z && (k <? Z.of_nat n)%Z) with false.
    + cbn [rbind]. rewrite world_eta. reflexivity.
    + symmetry. apply andb_false_iff.
      destruct Hk; [left|right]; apply Z.ltb_ge; lia.
  - intros seed' Hbad Hk.
    assert (Hk1 : (1 <=? k)%Z = true) by (apply Z.leb_le; lia).
    cbn [call_task]. unfold split_train_test.
    cbn [as_frame as_series as_test_size as_random_state rbind].
    rewrite Hk1. cbn [rbind].
    replace ((0 <=? seed') && (seed' <? 4294967296))%Z with false;
      [reflexivity|].
    symmetry. apply andb_false_iff.
    destruct Hbad; [left; apply Z.leb_gt|right; apply Z.ltb_ge]; lia.
Qed.

Lemma split_train_test_explicit_count_witness :
  let X := two_features iris_sample in
  (exists Xtr Xte ytr yte,
     call_task (B := ref_backend) T_split_train_test
       [VFrame X; VSeries iris_labels; VInt 3; VInt 42] demo_world =
       (Ok (VList [VFrame Xtr; VFrame Xte; VSeries ytr; VSeries yte]),
        demo_world) /\
     List.length (rows Xte) = 3%nat /\ List.length (rows Xtr) = 5%nat) /\
  call_task (B := ref_backend) T_split_train_test
    [VFrame X; VSeries iris_labels; VInt 8; VInt 42] demo_world =
    (Err (ValueError "test_size out of range"), demo_world) /\
  call_task (B := ref_backend) T_split_train_test
    [VFrame X; VSeries iris_labels; VInt 3; VInt (-1)] demo_world =
    (Err (ValueError "random_state out of range"), demo_world).
Proof.
  intros X.
  assert (Hseed : (0 <= 42 < 4294967296)%Z) by lia.
  destruct (split_train_test_explicit_count (B := ref_backend) X iris_labels
              3 42 demo_world eq_refl Hseed) as (Hok & _ & Hrange).
  destruct (split_train_test_explicit_count (B := ref_backend) X iris_labels
              8 42 demo_world eq_refl Hseed) as (_ & Hbad & _).
  split; [|split].
  - destruct Hok as (Xtr & Xte & ytr & yte & Hv & Hte & Htr & _);
      [cbn; lia|].
    exists Xtr, Xte, ytr, yte. repeat split; assumption.
  - apply Hbad. right. cbn. lia.
  - apply Hrange; cbn; lia.
Defined.

(* ===================================================================== *)
(** ** Scaling: [preprocess_data] *)
(* ===================================================================== *)

Lemma scaled_rectangular params k m :
  List.length (fst params) = k -> List.length (snd params) = k ->
  rectangular k m -> rectangular k (map (scale_row params) m).
Proof.
  intros H1 H2 Hm. unfold rectangular in *. rewrite Forall_map.
  eapply Forall_impl; [|exact Hm]. intros r Hr. cbn beta.
  rewrite scale_row_length; congruence.
Qed.

Lemma rmap_length {A C} (f : A -> Result C) : forall l l',
  rmap f l = Ok l' -> List.length l' = List.length l.
Proof.
  induction l as [|a l IH]; intros l' H; cbn [rmap] in H.
  - injection H as <-. reflexivity.
  - destruct (f a); cbn [rbind] in H; [|discriminate].
    destruct (rmap f l); cbn [rbind] in H; [|discriminate].
    injection H as <-. cbn [List.length]. f_equal. apply IH. reflexivity.
Qed.

Lemma rmap_err_uniform {A C} (f : A -> Result C) (e : Exc) :
  (forall a e', f a = Err e' -> e' = e) ->
  forall l e', rmap f l = Err e' -> e' = e.
Proof.
  intros Hf. induction l as [|a l IH]; intros e' H; cbn [rmap] in H;
    [discriminate|].
  destruct (f a) eqn:Ha; cbn [rbind] in H.
  - destruct (rmap f l); cbn [rbind] in H; [discriminate|].
    injection H as <-. apply IH. reflexivity.
  - injection H as <-. apply (Hf a). exact Ha.
Qed.

Lemma rmap_err_exists {A C} (f : A -> Result C) (e : Exc) :
  (forall a e', f a = Err e' -> e' = e) ->
  forall l, existsb (fun a => negb (is_ok (f a))) l = true ->
  rmap f l = Err e.
Proof.
  intros Hf. induction l as [|a l IH]; cbn [existsb rmap]; [discriminate|].
  intros H. destruct (f a) eqn:Ha; cbn [is_ok negb orb rbind] in *.
  - rewrite (IH H). reflexivity.
  - f_equal. apply (Hf a). exact Ha.
Qed.

Lemma check_array_rectangular k m :
  rectangular k m -> m <> [] -> (0 < k)%nat -> check_array m = Ok m.
Proof.
  intros Hrect Hne Hk. destruct m as [|r m]; [congruence|].
  apply Forall_cons_iff in Hrect. destruct Hrect as (Hr & _).
  destruct r; [cbn in Hr; lia|reflexivity].
Qed.

Lemma nonempty_length {A} (l : list A) : (0 < List.length l)%nat -> l <> [].
Proof. destruct l; cbn; [lia|discriminate]. Qed.

Lemma single_row_zero : forall r,
  Forall (fun v => v == 0)%Q
    (zip_with Qplus
       (zip_with Qmult r
          (zip_with (fun mx mn => (1 / handle_zeros_in_scale (mx - mn))%Q)
                    r r))
       (zip_with (fun mn s => (0 - mn * s)%Q) r
          (zip_with (fun mx mn => (1 / handle_zeros_in_scale (mx - mn))%Q)
                    r r))).
Proof.
  induction r as [|x r IH]; cbn [zip_with]; constructor.
  - ring.
  - exact IH.
Qed.

Section Scaling.

Context {B : Backend}.

Lemma cell_to_float_error c e :
  cell_to_float c = Err e -> e = conversion_error.
Proof.
  destruct c as [q|s]; cbn [cell_to_float]; [discriminate|].
  destruct (float_of_text s); [discriminate|].
  intros H. injection H as <-. reflexivity.
Qed.

(** A table with a cell that cannot be converted is refused for it,
    whatever else is wrong with the table. *)
Lemma frame_to_array_text df :
  has_bad_text df = true -> frame_to_array df = Err conversion_error.
Proof.
  unfold has_bad_text, frame_to_array. intros H.
  rewrite (rmap_err_exists (rmap cell_to_float) conversion_error);
    [reflexivity| |].
  - intros r e'. apply rmap_err_uniform. exact cell_to_float_error.
  - apply existsb_exists in H. destruct H as (r & Hr & Hbad).
    apply existsb_exists. exists r. split; [exact Hr|].
    rewrite (rmap_err_exists cell_to_float conversion_error);
      [reflexivity|exact cell_to_float_error|exact Hbad].
Qed.

Lemma has_bad_text_In (df : DataFrame) r c :
  In r (rows df) -> In c r -> is_bad_text c = true ->
  has_bad_text df = true.
Proof.
  intros Hr Hc Hbad. unfold has_bad_text. apply existsb_exists. exists r.
  split; [exact Hr|]. apply existsb_exists. exists c.
  split; [exact Hc|exact Hbad].
Qed.

Lemma convert_finite_row : forall r,
  forallb is_finite r = true ->
  exists qs,
    rmap cell_to_float r = Ok (map Finite qs) /\
    List.length qs = List.length r.
Proof.
  induction r as [|c r IH]; cbn [forallb]; intros H.
  - exists []. split; reflexivity.
  - apply andb_true_iff in H. destruct H as (Hc & Hr).
    destruct (IH Hr) as (qs & Hqs & Hlen).
    unfold is_finite in Hc.
    destruct (cell_to_float c) as [[q|]|] eqn:Hq; try discriminate Hc.
    exists (q :: qs). cbn [rmap map List.length]. rewrite Hq. cbn [rbind].
    rewrite Hqs, Hlen. split; reflexivity.
Qed.

Lemma rmap_assert_finite qs : rmap assert_finite (map Finite qs) = Ok qs.
Proof.
  induction qs as [|q qs IH]; [reflexivity|].
  cbn [map rmap assert_finite rbind]. rewrite IH. reflexivity.
Qed.

Lemma convert_finite_rows k : forall rs,
  Forall (fun r => forallb is_finite r = true /\ List.length r = k) rs ->
  exists m,
    (cells <- rmap (rmap cell_to_float) rs ;;
     rmap (rmap assert_finite) cells) = Ok m /\
    rectangular k m /\ List.length m = List.length rs.
Proof.
  induction 1 as [|r rs (Hfin & Hlen) _ (m & Hm & Hrect & Hl)].
  - exists []. repeat split. constructor.
  - destruct (convert_finite_row r Hfin) as (qs & Hqs & Hlq).
    exists (qs :: m). cbn [rmap]. rewrite Hqs. cbn [rbind].
    destruct (rmap (rmap cell_to_float) rs) as [cells|]; cbn [rbind] in *;
      [|discriminate].
    cbn [rmap]. rewrite rmap_assert_finite. cbn [rbind]. rewrite Hm.
    cbn [rbind List.length].
    repeat split; [|congruence]. constructor; [congruence|assumption].
Qed.

(** A non-empty table whose cells convert to finite numbers converts to
    an array of the same shape. *)
Lemma frame_to_array_finite k X :
  finite_frame k X -> rows X <> [] -> (0 < k)%nat ->
  exists m, frame_to_array X = Ok m /\ rectangular k m /\
            List.length m = List.length (rows X).
Proof.
  intros Hfin Hne Hk.
  destruct (convert_finite_rows k (rows X) Hfin) as (m & Hm & Hrect & Hlen).
  exists m. unfold frame_to_array.
  destruct (rmap (rmap cell_to_float) (rows X)) as [cells|];
    cbn [rbind] in *; [|discriminate].
  rewrite Hm. cbn [rbind].
  repeat split; try assumption.
  apply (check_array_rectangular k); try assumption.
  intros ->. destruct (rows X); [congruence|discriminate].
Qed.

Lemma frame_to_array_length df m :
  frame_to_array df = Ok m -> List.length m = List.length (rows df).
Proof.
  unfold frame_to_array. intros H.
  destruct (rmap (rmap cell_to_float) (rows df)) as [cells|] eqn:Hc;
    cbn [rbind] in H; [|discriminate].
  destruct (rmap (rmap assert_finite) cells) as [m'|] eqn:Hm;
    cbn [rbind] in H; [|discriminate].
  apply check_array_id in H. subst m'.
  rewrite (rmap_length _ _ _ Hm). apply (rmap_length _ _ _ Hc).
Qed.

(** The first row of an array a table converts to is not empty. *)
Lemma frame_to_array_width df m :
  frame_to_array df = Ok m ->
  match m with
  | [] => False
  | r :: _ => r <> []
  end.
Proof.
  unfold frame_to_array. intros H.
  destruct (rmap (rmap cell_to_float) (rows df)) as [cells|];
    cbn [rbind] in H; [|discriminate].
  destruct (rmap (rmap assert_finite) cells) as [m'|];
    cbn [rbind] in H; [|discriminate].
  destruct m' as [|[|x r] m']; cbn [check_array] in H; try discriminate H.
  injection H as <-. discriminate.
Qed.

(** The result of [preprocess_data] on two tables with the same labels
    that convert to arrays of the same width. *)
Lemma preprocess_data_ok
    (X_train X_test : DataFrame) (y_train y_test : Value)
    (train test : ndarray) (k : nat) (w : World) :
  frame_to_array X_train = Ok train ->
  frame_to_array X_test = Ok test ->
  columns X_test = columns X_train ->
  rectangular k train ->
  rectangular k test ->
  preprocess_data (VFrame X_train) (VFrame X_test) y_train y_test w =
    (Ok (VTuple [VArray (map (scale_row (scaler_fit train)) train);
                 VArray (map (scale_row (scaler_fit train)) test);
                 y_train; y_test]), w).
Proof.
  intros Htr Hte Hcols Hrtr Hrte.
  pose proof (frame_to_array_nonempty _ _ Htr) as Hne.
  pose proof (scaler_fit_length k train Hne Hrtr) as Hlen.
  unfold preprocess_data, fit_transform, transform.
  cbn [as_frame rbind]. rewrite Htr. cbn [rbind].
  rewrite scaler_apply_rectangular by (rewrite Hlen; exact Hrtr).
  cbn [rbind fitted].
  rewrite (check_feature_names_same _ _ _ Hcols). cbn [rbind].
  rewrite Hte. cbn [rbind].
  rewrite scaler_apply_rectangular by (rewrite Hlen; exact Hrte).
  reflexivity.
Qed.

Lemma preprocess_data_text_train
    (X_train X_test : DataFrame) (y_train y_test : Value) (w : World) :
  has_bad_text X_train = true ->
  preprocess_data (VFrame X_train) (VFrame X_test) y_train y_test w =
    (Err conversion_error, w).
Proof.
  intros Htext. unfold preprocess_data, fit_transform.
  cbn [as_frame rbind]. rewrite (frame_to_array_text _ Htext). reflexivity.
Qed.

Lemma preprocess_data_text_test
    (X_train X_test : DataFrame) (y_train y_test : Value)
    (train : ndarray) (k : nat) (w : World) :
  frame_to_array X_train = Ok train -> rectangular k train ->
  columns X_test = columns X_train ->
  has_bad_text X_test = true ->
  preprocess_data (VFrame X_train) (VFrame X_test) y_train y_test w =
    (Err conversion_error, w).
Proof.
  intros Htr Hrect Hcols Htext.
  pose proof (frame_to_array_nonempty _ _ Htr) as Hne.
  pose proof (scaler_fit_length k train Hne Hrect) as Hlen.
  unfold preprocess_data, fit_transform, transform.
  cbn [as_frame rbind]. rewrite Htr. cbn [rbind].
  rewrite scaler_apply_rectangular by (rewrite Hlen; exact Hrect).
  cbn [rbind fitted].
  rewrite (check_feature_names_same _ _ _ Hcols). cbn [rbind].
  rewrite (frame_to_array_text _ Htext). reflexivity.
Qed.

End Scaling.

(** X6: on two tables with the same column labels that convert to arrays
    of one width, [preprocess_data] succeeds, leaves the world alone and
    passes the labels through; the two arrays it returns have the row
    counts of the two tables and their common width, which is not zero. *)
Theorem preprocess_data_keeps_shape {B : Backend}
    (X_train X_test : DataFrame) (y_train y_test : Value)
    (train test : ndarray) (k : nat) (w : World) :
  frame_to_array X_train = Ok train ->
  frame_to_array X_test = Ok test ->
  columns X_test = columns X_train ->
  rectangular k train ->
  rectangular k test ->
  exists train_scaled test_scaled,
    preprocess_data (VFrame X_train) (VFrame X_test) y_train y_test w =
      (Ok (VTuple [VArray train_scaled; VArray test_scaled;
                   y_train; y_test]), w) /\
    List.length train_scaled = List.length (rows X_train) /\
    List.length test_scaled = List.length (rows X_test) /\
    rectangular k train_scaled /\ rectangular k test_scaled /\
    (0 < k)%nat.
Proof.
  intros Htr Hte Hcols Hrtr Hrte.
  pose proof (frame_to_array_nonempty _ _ Htr) as Hne.
  destruct (scaler_fit_lengths k train Hne Hrtr) as (Hl1 & Hl2).
  eexists. eexists. split;
    [apply (preprocess_data_ok _ _ _ _ train test k); assumption|].
  split; [|split; [|split; [|split]]].
  - rewrite length_map. apply frame_to_array_length. exact Htr.
  - rewrite length_map. apply frame_to_array_length. exact Hte.
  - apply scaled_rectangular; assumption.
  - apply scaled_rectangular; assumption.
  - apply frame_to_array_width in Htr. destruct train as [|r train];
      [congruence|].
    apply Forall_cons_iff in Hrtr. destruct Hrtr as (Hr & _).
    destruct r; [contradiction|cbn in Hr; lia].
Qed.

Lemma preprocess_data_keeps_shape_witness :
  let X := two_features iris_sample in
  exists train_scaled test_scaled,
    preprocess_data (B := ref_backend) (VFrame X) (VFrame X)
      (VSeries iris_labels) (VSeries iris_labels) demo_world =
      (Ok (VTuple [VArray train_scaled; VArray test_scaled;
                   VSeries iris_labels; VSeries iris_labels]), demo_world) /\
    List.length train_scaled = 8%nat /\
    rectangular 2 test_scaled.
Proof.
  intros X.
  destruct (preprocess_data_keeps_shape (B := ref_backend) X X
              (VSeries iris_labels) (VSeries iris_labels)
              petal_array petal_array 2 demo_world)
    as (a & b & Hrun & Hlen & _ & _ & Hrect & _).
  - reflexivity.
  - reflexivity.
  - reflexivity.
  - repeat constructor.
  - repeat constructor.
  - exists a, b. repeat split; assumption.
Defined.

(** X7: a cell that cannot be converted to a float makes
    [preprocess_data] raise the conversion error and leave the world
    alone: such a cell anywhere in the training table, or, when the
    training table converts and the test table carries the same column
    labels, such a cell anywhere in the test table. *)
Theorem preprocess_data_rejects_text {B : Backend}
    (X_train X_test : DataFrame) (y_train y_test : Value) (w : World) :
  has_bad_text X_train = true \/
  (has_bad_text X_test = true /\ columns X_test = columns X_train /\
   exists train k, frame_to_array X_train = Ok train /\ rectangular k train) ->
  preprocess_data (VFrame X_train) (VFrame X_test) y_train y_test w =
    (Err conversion_error, w).
Proof.
  intros [Htext|(Htext & Hcols & train & k & Htr & Hrect)].
  - apply preprocess_data_text_train. exact Htext.
  - apply (preprocess_data_text_test _ _ _ _ train k); assumption.
Qed.

Lemma preprocess_data_rejects_text_witness :
  preprocess_data (B := ref_backend) (VFrame iris_sample)
    (VFrame (two_features iris_sample)) VNone VNone demo_world =
    (Err conversion_error, demo_world) /\
  preprocess_data (B := ref_backend) (VFrame (two_features iris_sample))
    (VFrame (two_features iris_mistyped)) VNone VNone demo_world =
    (Err conversion_error, demo_world).
Proof.
  split.
  - apply (preprocess_data_rejects_text (B := ref_backend)).
    left. reflexivity.
  - apply (preprocess_data_rejects_text (B := ref_backend)).
    right. split; [reflexivity|]. split; [reflexivity|].
    exists petal_array, 2%nat. split; [reflexivity|repeat constructor].
Defined.

(** X8: when the training table converts and the test table carries
    other column labels, [preprocess_data] raises [ValueError] for the
    feature names and leaves the world alone, whatever the test table
    holds. *)
Theorem preprocess_data_feature_mismatch {B : Backend}
    (X_train X_test : DataFrame) (y_train y_test : Value)
    (train : ndarray) (k : nat) (w : World) :
  frame_to_array X_train = Ok train ->
  rectangular k train ->
  columns X_train <> [] -> columns X_test <> [] ->
  columns X_test <> columns X_train ->
  preprocess_data (VFrame X_train) (VFrame X_test) y_train y_test w =
    (Err (ValueError
            "The feature names should match those passed during fit"), w).
Proof.
  intros Htr Hrect Hntr Hnte Hdiff.
  pose proof (frame_to_array_nonempty _ _ Htr) as Hne.
  pose proof (scaler_fit_length k train Hne Hrect) as Hk.
  unfold preprocess_data, fit_transform, transform.
  cbn [as_frame rbind]. rewrite Htr. cbn [rbind].
  rewrite scaler_apply_rectangular by (rewrite Hk; exact Hrect).
  cbn [rbind fitted]. unfold check_feature_names. cbn [feature_names_in].
  destruct (columns X_test) as [|c cs]; [congruence|].
  destruct (columns X_train) as [|d ds]; [congruence|].
  destruct (list_eq_dec string_dec (c :: cs) (d :: ds)); [contradiction|].
  reflexivity.
Qed.

Lemma preprocess_data_feature_mismatch_witness :
  preprocess_data (B := ref_backend) (VFrame (two_features iris_sample))
    (VFrame (mkFrame ["PetalLengthCm"] [[CNum 1]])) VNone VNone demo_world =
    (Err (ValueError
            "The feature names should match those passed during fit"),
     demo_world).
Proof.
  apply (preprocess_data_feature_mismatch (B := ref_backend)
           (two_features iris_sample) (mkFrame ["PetalLengthCm"] [[CNum 1]])
           VNone VNone petal_array 2 demo_world).
  - reflexivity.
  - repeat constructor.
  - discriminate.
  - discriminate.
  - discriminate.
Defined.

(** X9: with a single training row nothing is divided by zero: the row
    itself is scaled to zeros, and the test table, of the same column
    labels and width, is scaled row by row to an array of its shape. *)
Theorem preprocess_data_single_training_row {B : Backend}
    (X_train X_test : DataFrame) (y_train y_test : Value)
    (r : list Q) (test : ndarray) (w : World) :
  frame_to_array X_train = Ok [r] ->
  frame_to_array X_test = Ok test ->
  columns X_test = columns X_train ->
  rectangular (List.length r) test ->
  exists row test_scaled,
    preprocess_data (VFrame X_train) (VFrame X_test) y_train y_test w =
      (Ok (VTuple [VArray [row]; VArray test_scaled; y_train; y_test]), w) /\
    List.length row = List.length r /\
    Forall (fun v => v == 0)%Q row /\
    List.length test_scaled = List.length (rows X_test) /\
    rectangular (List.length r) test_scaled.
Proof.
  intros Htr Hte Hcols Hrect.
  assert (Hr1 : rectangular (List.length r) [r])
    by (constructor; [reflexivity|constructor]).
  destruct (scaler_fit_lengths (List.length r) [r]) as (Hl1 & Hl2);
    [discriminate|exact Hr1|].
  exists (scale_row (scaler_fit [r]) r),
         (map (scale_row (scaler_fit [r])) test).
  split; [apply (preprocess_data_ok X_train X_test _ _ [r] test
                   (List.length r)); assumption|].
  split; [|split; [|split]].
  - apply scale_row_length; assumption.
  - unfold scale_row, scaler_fit. cbn [col_fold fold_left fst snd].
    apply single_row_zero.
  - rewrite length_map. apply frame_to_array_length. exact Hte.
  - apply scaled_rectangular; assumption.
Qed.

Lemma preprocess_data_single_training_row_witness :
  exists row test_scaled,
    preprocess_data (B := ref_backend)
      (VFrame (mkFrame ["a"; "b"] [[CNum 1; CNum 2]]))
      (VFrame (mkFrame ["a"; "b"] [[CNum 3; CNum 5]]))
      VNone VNone demo_world =
      (Ok (VTuple [VArray [row]; VArray test_scaled; VNone; VNone]),
       demo_world) /\
    Forall (fun v => v == 0)%Q row /\
    List.length test_scaled = 1%nat.
Proof.
  destruct (preprocess_data_single_training_row (B := ref_backend)
              (mkFrame ["a"; "b"] [[CNum 1; CNum 2]])
              (mkFrame ["a"; "b"] [[CNum 3; CNum 5]])
              VNone VNone [1; 2]%Q [[3; 5]]%Q demo_world)
    as (row & ts & Hrun & _ & Hzero & Hlen & _).
  - reflexivity.
  - reflexivity.
  - reflexivity.
  - repeat constructor.
  - exists row, ts. repeat split; assumption.
Defined.

(* ===================================================================== *)
(** ** Training and evaluating: [train_model], [evaluate_model] *)
(* ===================================================================== *)

Section Training.

Context {B : Backend}.

(** The classifier built from a two-key dictionary. *)
Lemma KNeighborsClassifier_init_two (k q : Z) :
  KNeighborsClassifier_init [("n_neighbors", VInt k); ("p", VInt q)]
    KNeighborsClassifier_default = Ok (mkKNN k q None []).
Proof. reflexivity. Qed.

Lemma train_model_ok (X : ndarray) (y : Series) (k q : Z) (w : World) :
  check_array X = Ok X -> List.length y = List.length X ->
  (0 < k)%Z -> (0 < q)%Z -> class_labels y = true ->
  train_model (VArray X) (VSeries y)
    (VDict [("n_neighbors", VInt k); ("p", VInt q)]) w =
  (Ok (VModel (mkKNN k q (Some X) y)), w).
Proof.
  intros HX Hlen Hk Hq Hy. unfold train_model.
  cbn [as_dict rbind]. rewrite KNeighborsClassifier_init_two.
  cbn [rbind as_array as_series]. unfold knn_fit. cbn [n_neighbors p].
  destruct (Z.leb_spec k 0); [lia|].
  destruct (Z.leb_spec q 0); [lia|].
  rewrite HX. cbn [rbind].
  rewrite Hlen, Nat.eqb_refl, Hy. reflexivity.
Qed.

Lemma evaluate_model_too_few (model : KNeighborsClassifier)
    (Xfit X_train : ndarray) (y_train X_test y_test : Value)
    (k : nat) (w : World) :
  fit_X model = Some Xfit ->
  (0 < n_neighbors model)%Z ->
  (Z.of_nat (List.length Xfit) < n_neighbors model)%Z ->
  rectangular k Xfit -> rectangular k X_train -> Xfit <> [] ->
  check_array X_train = Ok X_train ->
  evaluate_model (VModel model) (VArray X_train) y_train X_test y_test w =
    (Err (ValueError "Expected n_neighbors <= n_samples_fit"), w).
Proof.
  intros Hfit Hpos Hk HrXfit HrX Hne Htr.
  unfold evaluate_model. cbn [as_model as_array rbind].
  unfold knn_predict. rewrite Hfit.
  destruct (Z.leb_spec (n_neighbors model) 0); [lia|].
  rewrite Htr. cbn [rbind].
  rewrite (n_features_rectangular k Xfit HrXfit Hne).
  replace (forallb _ X_train) with true.
  - cbn [negb].
    destruct (Z.ltb_spec (Z.of_nat (List.length Xfit)) (n_neighbors model));
      [reflexivity|lia].
  - symmetry. apply forallb_forall. intros r Hr. apply Nat.eqb_eq.
    unfold rectangular in HrX. rewrite Forall_forall in HrX. apply HrX, Hr.
Qed.

End Training.

(** X10: [train_model] followed by [evaluate_model], on arrays of one
    width and class labels of one kind, with the notebook's [p = 2].
    Training on a non-empty array with as many labels as rows and a
    positive [n_neighbors] always succeeds, however few the rows; the
    model stores the two hyperparameters, the array and the labels.
    Evaluating that model fails with [ValueError] when it was trained on
    fewer rows than [n_neighbors]; otherwise it returns the two
    accuracies, each the fraction of labels the model's predictions agree
    with.  Neither call changes the world.  With [n_neighbors] or [p] not
    positive, training raises [ValueError]. *)
Theorem train_then_evaluate {B : Backend}
    (X X' : ndarray) (y y' : Series) (k : Z) (d : nat) (w : World) :
  check_array X = Ok X -> check_array X' = Ok X' ->
  rectangular d X -> rectangular d X' ->
  List.length y = List.length X -> List.length y' = List.length X' ->
  (0 < k)%Z ->
  class_labels (y ++ y') = true ->
  let model := mkKNN k 2 (Some X) y in
  train_model (VArray X) (VSeries y)
    (VDict [("n_neighbors", VInt k); ("p", VInt 2)]) w =
    (Ok (VModel model), w) /\
  evaluate_model (VModel model) (VArray X) (VSeries y)
                 (VArray X') (VSeries y') w =
    (if (Z.of_nat (List.length X) <? k)%Z
     then Err (ValueError "Expected n_neighbors <= n_samples_fit")
     else Ok (VTuple [VFloat (accuracy y (predictions model X X));
                      VFloat (accuracy y' (predictions model X X'))]),
     w) /\
  forall k' q', (k' <= 0 \/ q' <= 0)%Z ->
    exists msg,
      train_model (VArray X) (VSeries y)
        (VDict [("n_neighbors", VInt k'); ("p", VInt q')]) w =
      (Err (ValueError msg), w).
Proof.
  intros HX HX' Hr Hr' Hy Hy' Hk Hlab model.
  assert (Hne : X <> []) by (apply check_array_nonempty; exact HX).
  assert (Hly : class_labels y = true).
  { apply (class_labels_incl (y ++ y')); [exact Hlab|].
    apply incl_appl, incl_refl. }
  split; [|split].
  - apply train_model_ok; try assumption. lia.
  - destruct (Z.ltb_spec (Z.of_nat (List.length X)) k) as [Hlt|Hge].
    + apply (evaluate_model_too_few model X X _ _ _ d);
        try assumption; reflexivity.
    + apply (evaluate_model_ok model X X X' y y' d); try assumption;
        try reflexivity.
      * cbn [n_neighbors model]. lia.
      * cbn [fit_y model].
        apply (class_labels_incl (y ++ y')); [exact Hlab|].
        intros c Hc. apply in_app_or in Hc. destruct Hc as [Hc|Hc];
          [apply in_or_app; left; exact Hc|exact Hc].
  - intros k' q' Hbad. unfold train_model.
    cbn [as_dict rbind]. rewrite KNeighborsClassifier_init_two.
    cbn [rbind as_array as_series]. unfold knn_fit. cbn [n_neighbors p].
    destruct (Z.leb_spec k' 0); [eexists; reflexivity|].
    destruct (Z.leb_spec q' 0); [eexists; reflexivity|lia].
Qed.

Lemma train_then_evaluate_witness :
  let X := [[0; 0]; [1; 1]]%Q in
  let y := [CStr "a"; CStr "b"] in
  train_model (B := ref_backend) (VArray X) (VSeries y)
    (VDict [("n_neighbors", VInt 3); ("p", VInt 2)]) demo_world =
    (Ok (VModel (mkKNN 3 2 (Some X) y)), demo_world) /\
  evaluate_model (B := ref_backend) (VModel (mkKNN 3 2 (Some X) y))
    (VArray X) (VSeries y) (VArray X) (VSeries y) demo_world =
    (Err (ValueError "Expected n_neighbors <= n_samples_fit"), demo_world).
Proof.
  intros X y.
  destruct (train_then_evaluate (B := ref_backend) X X y y 3 2 demo_world)
    as (Htrain & Heval & _).
  - reflexivity.
  - reflexivity.
  - repeat constructor.
  - repeat constructor.
  - reflexivity.
  - reflexivity.
  - lia.
  - reflexivity.
  - split; [exact Htrain|exact Heval].
Defined.

(* ===================================================================== *)
(** ** The whole body on a table *)
(* ===================================================================== *)

Ltac flow_step H :=
  flow_whnf; cbn [run_flow run_log]; rewrite H.

Section WholeBody.

Context {B : Backend}.

Lemma finite_column_index df name :
  finite_column df name = true ->
  exists k, column_index df name = Ok k /\
    Forall (fun r => is_finite (nth k r (CStr "")) = true) (rows df).
Proof.
  unfold finite_column, column_index.
  destruct (index_of name (columns df)) as [k|]; [|discriminate].
  intros H. exists k. split; [reflexivity|].
  apply Forall_forall. intros r Hr.
  rewrite forallb_forall in H. exact (H r Hr).
Qed.

Lemma finite_columns_index df names :
  forallb (finite_column df) names = true ->
  exists idx,
    rmap (column_index df) names = Ok idx /\
    List.length idx = List.length names /\
    Forall (fun k => Forall (fun r => is_finite (nth k r (CStr "")) = true)
                            (rows df)) idx.
Proof.
  induction names as [|n names IH]; cbn [forallb]; intros H.
  - exists []. repeat split. constructor.
  - apply andb_true_iff in H. destruct H as (Hn & Hrest).
    destruct (finite_column_index df n Hn) as (k & Hk & Hall).
    destruct (IH Hrest) as (idx & Hidx & Hlen & Hnum).
    exists (k :: idx). cbn [rmap]. rewrite Hk. cbn [rbind]. rewrite Hidx.
    cbn [rbind List.length]. repeat split; [congruence|].
    constructor; assumption.
Qed.

Lemma finite_cells r idx :
  Forall (fun k => is_finite (nth k r (CStr "")) = true) idx ->
  forallb is_finite (map (fun k => nth k r (CStr "")) idx) = true.
Proof.
  induction 1 as [|k idx Hk _ IH]; [reflexivity|].
  cbn [map forallb]. rewrite Hk, IH. reflexivity.
Qed.

Lemma load_data_ok path df (w : World) :
  fs w path = Some df ->
  call_task T_load_data [VStr path] w = (Ok (VFrame df), w).
Proof.
  intros H. cbn [call_task]. unfold load_data, read_csv.
  cbn [as_str rbind]. rewrite H. reflexivity.
Qed.

Lemma load_data_missing path (w : World) :
  fs w path = None ->
  call_task T_load_data [VStr path] w = (Err (FileNotFoundError path), w).
Proof.
  intros H. cbn [call_task]. unfold load_data, read_csv.
  cbn [as_str rbind]. rewrite H. reflexivity.
Qed.

(** The table of inputs and the labels cut out of a table whose input
    columns convert. *)
Lemma split_inputs_output_finite df names output (w : World) :
  forallb (finite_column df) names = true ->
  In output (columns df) ->
  exists X,
    split_inputs_output (VFrame df) (VList (map VStr names)) (VStr output) w =
      (Ok (VTuple [VFrame X; VSeries (column_cells df output)]), w) /\
    columns X = names /\
    List.length (rows X) = List.length (rows df) /\
    List.length (column_cells df output) = List.length (rows df) /\
    finite_frame (List.length names) X.
Proof.
  intros Hnum Hout.
  destruct (finite_columns_index df names Hnum) as (idx & Hidx & Hlen & Hall).
  destruct (proj1 (index_of_In output (columns df)) Hout) as (j & Hj).
  unfold column_cells. rewrite Hj.
  eexists. split;
    [apply (split_inputs_output_ok df names output idx j); assumption|].
  cbn [rows columns]. rewrite !length_map. repeat split.
  unfold finite_frame. cbn [rows]. rewrite Forall_map.
  apply Forall_forall. intros r Hr. rewrite <- Hlen, length_map.
  split; [|reflexivity].
  apply finite_cells. eapply Forall_impl; [|exact Hall].
  intros k Hk. cbn beta in Hk. rewrite Forall_forall in Hk. apply Hk, Hr.
Qed.

(** The first two invocations on a table that has the five columns. *)
Lemma workflow_selects path df (w : World) :
  fs w path = Some df ->
  (forall name, In name (input_names ++ ["Species"]) ->
                In name (columns df)) ->
  exists idx j X y,
    Forall2 (fun name k => index_of name (columns df) = Some k)
            input_names idx /\
    X = mkFrame input_names
          (map (fun r => map (fun k => nth k r (CStr "")) idx) (rows df)) /\
    y = map (fun r => nth j r (CStr "")) (rows df) /\
    call_task T_load_data [VStr path] w = (Ok (VFrame df), w) /\
    call_task T_split_inputs_output [VFrame df; INPUTS; OUTPUT] w =
      (Ok (VTuple [VFrame X; VSeries y]), w).
Proof.
  intros Hfs Hcols.
  destruct (rmap_column_index df input_names) as (idx & Hidx & Hall).
  { intros m Hm. apply Hcols. apply in_or_app. left. exact Hm. }
  destruct (proj1 (index_of_In "Species" (columns df))) as (j & Hj).
  { apply Hcols. apply in_or_app. right. left. reflexivity. }
  exists idx, j. eexists. eexists.
  split; [exact Hall|]. split; [reflexivity|]. split; [reflexivity|].
  split; [apply load_data_ok; exact Hfs|].
  exact (split_inputs_output_ok df input_names "Species" idx j w Hidx Hj).
Qed.

(** The first five invocations of the body on a table with at least two
    rows whose input columns convert and whose [Species] column holds
    class labels. *)
Lemma workflow_stages path df (w : World) :
  fs w path = Some df ->
  forallb (finite_column df) input_names = true ->
  In "Species" (columns df) ->
  class_labels (column_cells df "Species") = true ->
  (2 <= List.length (rows df))%nat ->
  let n := List.length (rows df) in
  exists X y Xtr Xte ytr yte Xtrs Xtes,
    call_task T_load_data [VStr path] w = (Ok (VFrame df), w) /\
    call_task T_split_inputs_output [VFrame df; INPUTS; OUTPUT] w =
      (Ok (VTuple [VFrame X; VSeries y]), w) /\
    call_task T_split_train_test [VFrame X; VSeries y] w =
      (Ok (VList [VFrame Xtr; VFrame Xte; VSeries ytr; VSeries yte]), w) /\
    call_task T_preprocess_data
      [VFrame Xtr; VFrame Xte; VSeries ytr; VSeries yte] w =
      (Ok (VTuple [VArray Xtrs; VArray Xtes; VSeries ytr; VSeries yte]), w) /\
    call_task T_train_model [VArray Xtrs; VSeries ytr; HYPERPARAMETERS] w =
      (Ok (VModel (mkKNN 3 2 (Some Xtrs) ytr)), w) /\
    check_array Xtrs = Ok Xtrs /\ check_array Xtes = Ok Xtes /\
    rectangular 4 Xtrs /\ rectangular 4 Xtes /\
    List.length Xtrs = (n - (n + 3) / 4)%nat /\
    List.length ytr = List.length Xtrs /\
    List.length yte = List.length Xtes /\
    class_labels (ytr ++ ytr ++ yte) = true.
Proof.
  intros Hfs Hnum Hout Hlab Hn n.
  destruct (split_inputs_output_finite df input_names "Species" w Hnum Hout)
    as (X & Hio & HcX & HlX & Hly & HnumX).
  set (y := column_cells df "Species") in *.
  cbn [List.length input_names] in HnumX.
  assert (HnX : (2 <= List.length (rows X))%nat) by lia.
  pose proof (split_default_ok X y w ltac:(congruence) HnX) as Hsplit.
  cbn zeta in Hsplit. rewrite HlX in Hsplit. fold n in Hsplit.
  destruct (default_parts_lengths (rows X)) as (HlXte & HlXtr); [lia|].
  destruct (default_parts_lengths y) as (Hlyte & Hlytr); [lia|].
  rewrite HlX in HlXte, HlXtr. rewrite Hly in Hlyte, Hlytr.
  fold n in HlXte, HlXtr, Hlyte, Hlytr.
  pose proof (proj2 (quarter_lt n) Hn) as Hq.
  assert (Hq1 : (1 <= (n + 3) / 4)%nat).
  { pose proof (Nat.div_mod_eq (n + 3) 4).
    pose proof (Nat.mod_upper_bound (n + 3) 4 ltac:(lia)). lia. }
  set (Xtr := frame_take (default_train_indices n) X) in *.
  set (Xte := frame_take (default_test_indices n) X) in *.
  assert (Hlabels : class_labels
            (take (default_train_indices n) y ++
             take (default_train_indices n) y ++
             take (default_test_indices n) y) = true).
  { apply (class_labels_incl y); [exact Hlab|].
    repeat apply incl_app; apply take_incl. }
  assert (Hlabtr : class_labels (take (default_train_indices n) y) = true).
  { apply (class_labels_incl y); [exact Hlab|apply take_incl]. }
  set (ytr := take (default_train_indices n) y) in *.
  set (yte := take (default_test_indices n) y) in *.
  assert (HnumXtr : finite_frame 4 Xtr) by (apply take_Forall; exact HnumX).
  assert (HnumXte : finite_frame 4 Xte) by (apply take_Forall; exact HnumX).
  destruct (frame_to_array_finite 4 Xtr HnumXtr)
    as (train & Htr & Hrtr & Hltr).
  { apply nonempty_length. unfold Xtr. cbn [rows frame_take]. lia. }
  { lia. }
  destruct (frame_to_array_finite 4 Xte HnumXte)
    as (test & Hte & Hrte & Hlte).
  { apply nonempty_length. unfold Xte. cbn [rows frame_take]. lia. }
  { lia. }
  unfold Xtr in Hltr. unfold Xte in Hlte. cbn [rows frame_take] in Hltr, Hlte.
  pose proof (frame_to_array_nonempty _ _ Htr) as Hne.
  destruct (scaler_fit_lengths 4 train Hne Hrtr) as (Hl1 & Hl2).
  pose proof (scaled_rectangular (scaler_fit train) 4 train Hl1 Hl2 Hrtr)
    as Hrtrs.
  pose proof (scaled_rectangular (scaler_fit train) 4 test Hl1 Hl2 Hrte)
    as Hrtes.
  set (Xtrs := map (scale_row (scaler_fit train)) train) in *.
  set (Xtes := map (scale_row (scaler_fit train)) test) in *.
  assert (HlXtrs : List.length Xtrs = (n - (n + 3) / 4)%nat)
    by (unfold Xtrs; rewrite length_map; lia).
  assert (HlXtes : List.length Xtes = ((n + 3) / 4)%nat)
    by (unfold Xtes; rewrite length_map; lia).
  assert (Hctr : check_array Xtrs = Ok Xtrs).
  { apply (check_array_rectangular 4); [exact Hrtrs| |lia].
    apply nonempty_length. lia. }
  assert (Hcte : check_array Xtes = Ok Xtes).
  { apply (check_array_rectangular 4); [exact Hrtes| |lia].
    apply nonempty_length. lia. }
  exists X, y, Xtr, Xte, ytr, yte, Xtrs, Xtes.
  split; [apply load_data_ok; exact Hfs|].
  split; [exact Hio|].
  split; [exact Hsplit|].
  split; [apply (preprocess_data_ok Xtr Xte _ _ train test 4);
          try assumption; reflexivity|].
  split; [apply train_model_ok; [exact Hctr|lia|lia|lia|exact Hlabtr]|].
  split; [exact Hctr|]. split; [exact Hcte|].
  split; [exact Hrtrs|]. split; [exact Hrtes|].
  split; [exact HlXtrs|]. split; [lia|]. split; [lia|exact Hlabels].
Qed.

Ltac run_call_or_fail shape :=
  match goal with
  | |- context [call_task ?t ?args ?w] =>
      let r := fresh "r" in
      let w' := fresh "w'" in
      let E := fresh "E" in
      let Hw := fresh "Hw" in
      let Hs := fresh "Hs" in
      pose proof (call_task_world t args w eq_refl) as Hw;
      destruct (call_task t args w) as [r w'] eqn:E;
      cbn [snd] in Hw; subst w';
      destruct r as [?v|?e];
      [|cbn; repeat split; reflexivity];
      pose proof (shape _ (f_equal fst E)) as Hs; cbn [fst] in Hs
  end.

(** A failed run of the body, read backwards: the exception is the outcome
    of the last invocation, and the invocations before it succeeded. *)
Lemma run_workflow_plain_outcomes (path : string) (w : World) :
  match run_flow (workflow_plain path) w with
  | (Ok _, _) => True
  | (Err e, w') =>
      w' = w /\
      last (outcomes (run_log (workflow_plain path) w)) (Ok VNone) = Err e /\
      forallb is_ok (removelast (outcomes (run_log (workflow_plain path) w)))
        = true
  end.
Proof.
  unfold workflow_plain, outcomes. cbn -[call_task].
  run_call_or_fail (fun v => load_data_shape (VStr path) w v).
  destruct Hs as (df & ->).
  cbn -[call_task].
  run_call_or_fail
    (fun v => split_inputs_output_shape (VFrame df) INPUTS OUTPUT w v).
  destruct Hs as (X & y & ->).
  cbn -[call_task].
  run_call_or_fail (fun v => split_train_test_shape (VFrame X) (VSeries y)
                               None None w v).
  destruct Hs as (Xtr & Xte & ytr & yte & ->).
  cbn -[call_task].
  run_call_or_fail (fun v => preprocess_data_shape (VFrame Xtr) (VFrame Xte)
                               (VSeries ytr) (VSeries yte) w v).
  destruct Hs as (Xtrs & Xtes & ->).
  cbn -[call_task].
  run_call_or_fail (fun v => train_model_shape (VArray Xtrs) (VSeries ytr)
                               HYPERPARAMETERS w v).
  destruct Hs as (model & ->).
  cbn -[call_task].
  run_call_or_fail
    (fun v => evaluate_model_shape (VModel model) (VArray Xtrs)
                (VSeries ytr) (VArray Xtes) (VSeries yte) w v).
  destruct Hs as (a & b & ->).
  cbn -[call_task]. exact I.
Qed.

End WholeBody.



(** X12: on a table with distinct column labels, input columns that
    convert to finite numbers and a [Species] column of class labels of
    one kind, but only two or three rows, the body fails only in its last
    unit: training succeeds on the one or two training rows, and
    [evaluate_model] raises [ValueError] because the model was asked for
    three neighbours.  All six units were invoked, nothing was printed and
    the world is as it was. *)
Theorem workflow_too_few_neighbours {B : Backend}
    (path : string) (df : DataFrame) (w : World) :
  fs w path = Some df ->
  NoDup (columns df) ->
  forallb (finite_column df) input_names = true ->
  In "Species" (columns df) ->
  class_labels (column_cells df "Species") = true ->
  (2 <= List.length (rows df) <= 3)%nat ->
  run_flow (workflow_plain path) w =
    (Err (ValueError "Expected n_neighbors <= n_samples_fit"), w) /\
  log_tasks (run_log (workflow_plain path) w) = flow_tasks.
Proof.
  intros Hfs _ Hnum Hout Hlab Hn.
  destruct (workflow_stages path df w Hfs Hnum Hout Hlab ltac:(lia))
    as (X & y & Xtr & Xte & ytr & yte & Xtrs & Xtes & Hload & Hio & Hsplit
        & Hscale & Htrain & Hctr & Hcte & Hrtr & Hrte & HlXtrs & Hlytr
        & Hlyte & Hlabels).
  set (n := List.length (rows df)) in *.
  assert (Hk : (n - (n + 3) / 4 < 3)%nat).
  { pose proof (Nat.div_mod_eq (n + 3) 4).
    pose proof (Nat.mod_upper_bound (n + 3) 4 ltac:(lia)). lia. }
  assert (Heval :
    call_task T_evaluate_model
      [VModel (mkKNN 3 2 (Some Xtrs) ytr); VArray Xtrs; VSeries ytr;
       VArray Xtes; VSeries yte] w =
    (Err (ValueError "Expected n_neighbors <= n_samples_fit"), w)).
  { cbn [call_task]. apply (evaluate_model_too_few _ Xtrs Xtrs _ _ _ 4);
      [reflexivity|cbn [n_neighbors]; lia|cbn [n_neighbors]; lia
      |exact Hrtr|exact Hrtr| |exact Hctr].
    apply check_array_nonempty. exact Hctr. }
  unfold INPUTS, OUTPUT, HYPERPARAMETERS in *.
  unfold workflow_plain, log_tasks. split.
  - flow_step Hload. flow_step Hio. flow_step Hsplit. flow_step Hscale.
    flow_step Htrain. flow_step Heval. reflexivity.
  - flow_step Hload. flow_step Hio. flow_step Hsplit. flow_step Hscale.
    flow_step Htrain. flow_step Heval. reflexivity.
Qed.

Lemma workflow_too_few_neighbours_witness :
  run_flow (B := ref_backend) workflow (world_with iris_three_rows) =
    (Err (ValueError "Expected n_neighbors <= n_samples_fit"),
     world_with iris_three_rows) /\
  log_tasks (run_log (B := ref_backend) workflow (world_with iris_three_rows))
    = flow_tasks.
Proof.
  apply (workflow_too_few_neighbours (B := ref_backend) "data/iris.csv"
           iris_three_rows (world_with iris_three_rows)).
  - reflexivity.
  - repeat constructor; cbn; intros H;
      repeat (destruct H as [H|H]; [discriminate H|]); exact H.
  - reflexivity.
  - cbn. tauto.
  - reflexivity.
  - cbn. lia.
Defined.

(** X13: on a table that has the five columns but fewer than two rows the
    body fails in [split_train_test], with [ValueError] for the empty
    train set: three units were invoked, the three behind never, nothing
    was printed and the world is as it was. *)
Theorem workflow_too_few_rows {B : Backend}
    (path : string) (df : DataFrame) (w : World) :
  fs w path = Some df ->
  (forall name, In name (input_names ++ ["Species"]) ->
                In name (columns df)) ->
  (List.length (rows df) < 2)%nat ->
  run_flow (workflow_plain path) w =
    (Err (ValueError "the resulting train set will be empty"), w) /\
  log_tasks (run_log (workflow_plain path) w) =
    [T_load_data; T_split_inputs_output; T_split_train_test].
Proof.
  intros Hfs Hcols Hn.
  destruct (workflow_selects path df w Hfs Hcols)
    as (idx & j & X & y & _ & HX & Hy & Hload & Hio).
  assert (HlX : List.length (rows X) = List.length (rows df))
    by (rewrite HX; cbn [rows]; apply length_map).
  assert (Hly : List.length y = List.length (rows df))
    by (rewrite Hy; apply length_map).
  pose proof (split_default_too_small X y w ltac:(congruence) ltac:(lia))
    as Hsplit.
  clear HX Hy.
  unfold INPUTS, OUTPUT in *.
  unfold workflow_plain, log_tasks. split.
  - flow_step Hload. flow_step Hio. flow_step Hsplit. reflexivity.
  - flow_step Hload. flow_step Hio. flow_step Hsplit. reflexivity.
Qed.

Lemma workflow_too_few_rows_witness :
  run_flow (B := ref_backend) workflow small_world =
    (Err (ValueError "the resulting train set will be empty"), small_world) /\
  log_tasks (run_log (B := ref_backend) workflow small_world) =
    [T_load_data; T_split_inputs_output; T_split_train_test].
Proof.
  apply (workflow_too_few_rows (B := ref_backend) "data/iris.csv"
           iris_one_row small_world).
  - reflexivity.
  - intros name H. cbn in H. cbn.
    repeat (destruct H as [<-|H]; [tauto|]). contradiction.
  - cbn. lia.
Defined.

(** X14: when there is no file at the data path the body fails in
    [load_data] with [FileNotFoundError] for that path; it is the only
    invocation made, and the world is as it was. *)
Theorem workflow_missing_file {B : Backend} (path : string) (w : World) :
  fs w path = None ->
  run_flow (workflow_plain path) w = (Err (FileNotFoundError path), w) /\
  run_log (workflow_plain path) w =
    [(T_load_data, [VStr path], Err (FileNotFoundError path))].
Proof.
  intros Hfs. pose proof (load_data_missing path w Hfs) as Hload.
  unfold workflow_plain. split.
  - flow_step Hload. reflexivity.
  - flow_step Hload. reflexivity.
Qed.

Lemma workflow_missing_file_witness :
  run_flow (B := ref_backend) (workflow_plain "data/other.csv") demo_world =
    (Err (FileNotFoundError "data/other.csv"), demo_world) /\
  run_log (B := ref_backend) (workflow_plain "data/other.csv") demo_world =
    [(T_load_data, [VStr "data/other.csv"],
      Err (FileNotFoundError "data/other.csv"))].
Proof.
  apply (workflow_missing_file (B := ref_backend) "data/other.csv"
           demo_world).
  reflexivity.
Defined.


(** X15: when the table, of distinct column labels, lacks one of the
    four input columns or the [Species] column, the body fails in
    [split_inputs_output] with [KeyError]; two units were invoked and the
    world is as it was.  The
    error names the missing input labels, each once and in the order of
    [INPUTS], when some input columns exist and others do not; all of
    [INPUTS] when none exists; and [Species] when only that column is
    missing. *)
Theorem workflow_missing_column {B : Backend}
    (path : string) (df : DataFrame) (w : World) (name : string) :
  fs w path = Some df ->
  NoDup (columns df) ->
  In name (input_names ++ ["Species"]) ->
  ~ In name (columns df) ->
  exists e,
    run_flow (workflow_plain path) w = (Err e, w) /\
    log_tasks (run_log (workflow_plain path) w) =
      [T_load_data; T_split_inputs_output] /\
    ((forall n, In n input_names -> In n (columns df)) ->
     e = KeyError "Species") /\
    ((exists n, In n input_names /\ ~ In n (columns df)) ->
     (exists n, In n input_names /\ In n (columns df)) ->
     e = KeyErrorNotInIndex (missing_labels df input_names) /\
     NoDup (missing_labels df input_names) /\
     forall l, In l (missing_labels df input_names) <->
               In l input_names /\ ~ In l (columns df)) /\
    ((forall n, In n input_names -> ~ In n (columns df)) ->
     e = KeyErrorNoneInColumns input_names).
Proof.
  intros Hfs _ Hname Hmiss.
  pose proof (load_data_ok path df w Hfs) as Hload.
  assert (Hcase : exists e,
            call_task T_split_inputs_output
              [VFrame df; VList (map VStr input_names); VStr "Species"] w =
            (Err e, w) /\
            ((forall n, In n input_names -> In n (columns df)) ->
             e = KeyError "Species") /\
            ((exists n, In n input_names /\ ~ In n (columns df)) ->
             e = if forallb (fun n => negb (has_column df n)) input_names
                 then KeyErrorNoneInColumns input_names
                 else KeyErrorNotInIndex (missing_labels df input_names))).
  { destruct (forallb (fun n => has_column df n) input_names) eqn:Hall.
    - assert (Hin : forall n, In n input_names -> In n (columns df)).
      { intros n Hn. rewrite forallb_forall in Hall.
        apply has_column_In. apply Hall. exact Hn. }
      assert (Hsp : ~ In "Species" (columns df)).
      { apply in_app_or in Hname. destruct Hname as [Hi|[<-|[]]];
          [exfalso; apply Hmiss, Hin, Hi|exact Hmiss]. }
      exists (KeyError "Species").
      split; [apply (split_inputs_output_missing_output df input_names
                       "Species" w Hin Hsp)|].
      split; [reflexivity|].
      intros (n & Hn & Hout). exfalso. apply Hout, Hin, Hn.
    - assert (Hsome : exists n, In n input_names /\ ~ In n (columns df)).
      { destruct (forallb_forall (fun n => has_column df n) input_names)
          as (_ & Hback).
        destruct (existsb (fun n => negb (has_column df n)) input_names)
          eqn:Hex.
        - apply existsb_exists in Hex. destruct Hex as (n & Hn & Hneg).
          exists n. split; [exact Hn|]. rewrite <- has_column_In.
          destruct (has_column df n); [discriminate|congruence].
        - exfalso. rewrite Hback in Hall; [discriminate|].
          intros n Hn. destruct (has_column df n) eqn:Hc; [reflexivity|].
          exfalso. assert (Ht : existsb (fun n => negb (has_column df n))
                                  input_names = true).
          { apply existsb_exists. exists n. rewrite Hc. split;
              [exact Hn|reflexivity]. }
          congruence. }
      destruct Hsome as (n & Hn & Hout).
      eexists. split;
        [apply (split_inputs_output_missing_input df input_names n
                  "Species" w Hn Hout)|].
      split; [|reflexivity].
      intros Hin. exfalso. apply Hout, Hin, Hn. }
  destruct Hcase as (e & Hio & Hspecies & Hinputs).
  exists e.
  cbn [map input_names] in Hio.
  unfold workflow_plain, log_tasks.
  split; [|split; [|split; [exact Hspecies|split]]].
  - flow_step Hload. flow_step Hio. reflexivity.
  - flow_step Hload. flow_step Hio. reflexivity.
  - intros Hsome (n & Hn & Hcol).
    destruct (missing_labels_spec df input_names) as (Hnd & Hspec).
    split; [|split; assumption].
    rewrite (Hinputs Hsome).
    destruct (forallb _ input_names) eqn:Hall; [|reflexivity].
    exfalso. apply (proj1 (none_in_columns df input_names) Hall n Hn Hcol).
  - intros Hnone.
    rewrite Hinputs.
    + rewrite (proj2 (none_in_columns df input_names) Hnone). reflexivity.
    + exists "SepalLengthCm". split; [left; reflexivity|].
      apply Hnone. left. reflexivity.
Qed.

Lemma workflow_missing_column_witness :
  let w := world_with (two_features iris_sample) in
  run_flow (B := ref_backend) workflow w =
    (Err (KeyErrorNotInIndex ["SepalLengthCm"; "SepalWidthCm"]), w) /\
  log_tasks (run_log (B := ref_backend) workflow w) =
    [T_load_data; T_split_inputs_output].
Proof.
  intros w.
  destruct (workflow_missing_column (B := ref_backend) "data/iris.csv"
              (two_features iris_sample) w "Species")
    as (e & Hrun & Hlog & _ & Hsome & _).
  - reflexivity.
  - repeat constructor; cbn; intros H;
      repeat (destruct H as [H|H]; [discriminate H|]); exact H.
  - cbn. tauto.
  - cbn. intros H.
    repeat (destruct H as [H|H]; [discriminate H|]). exact H.
  - destruct Hsome as (He & _).
    + exists "SepalLengthCm". split; [left; reflexivity|].
      cbn. intros H.
      repeat (destruct H as [H|H]; [discriminate H|]). exact H.
    + exists "PetalLengthCm". split; cbn; tauto.
    + subst e. split; [exact Hrun|exact Hlog].
Defined.

(** X16: when the table has distinct column labels, the five columns and
    at least two rows, and the cells of the four input columns are
    numbers or text, none of it spelling [inf] or [nan], but some row
    holds in an input column text that cannot be converted to a float,
    the body fails in [preprocess_data] with the conversion error,
    whichever side of the split the row falls on: four units were
    invoked, no model was trained and the world is as it was. *)
Theorem workflow_rejects_text_input {B : Backend}
    (path : string) (df : DataFrame) (w : World)
    (name : string) (k : nat) (r : list Cell) (c : Cell) :
  fs w path = Some df ->
  NoDup (columns df) ->
  (forall n, In n (input_names ++ ["Species"]) -> In n (columns df)) ->
  (2 <= List.length (rows df))%nat ->
  (forall n, In n input_names ->
     forallb (fun c' => is_finite c' || is_bad_text c')
             (column_cells df n) = true) ->
  In name input_names ->
  index_of name (columns df) = Some k ->
  In r (rows df) -> nth_error r k = Some c -> is_bad_text c = true ->
  run_flow (workflow_plain path) w = (Err conversion_error, w) /\
  log_tasks (run_log (workflow_plain path) w) =
    [T_load_data; T_split_inputs_output; T_split_train_test;
     T_preprocess_data].
Proof.
  intros Hfs _ Hcols Hn Hcells Hname Hk Hr Hcell Hbadc.
  destruct (workflow_selects path df w Hfs Hcols)
    as (idx & j & X & y & Hidx & HX & Hy & Hload & Hio).
  assert (Hkin : In k idx).
  { clear -Hidx Hname Hk.
    induction Hidx as [|n k' names idx' Hn _ IH]; [contradiction|].
    destruct Hname as [->|Hname].
    - left. congruence.
    - right. apply IH. exact Hname. }
  assert (Hlidx : List.length idx = 4%nat)
    by (apply Forall2_length in Hidx; cbn in Hidx; congruence).
  assert (HlX : List.length (rows X) = List.length (rows df))
    by (rewrite HX; cbn [rows]; apply length_map).
  assert (Hly : List.length y = List.length (rows df))
    by (rewrite Hy; apply length_map).
  assert (Hrows : Forall (fun r' => List.length r' = 4%nat) (rows X)).
  { rewrite HX. cbn [rows]. rewrite Forall_map. apply Forall_forall.
    intros r' _. rewrite length_map. exact Hlidx. }
  assert (Hmixed : Forall (Forall (fun c' =>
                             is_finite c' || is_bad_text c' = true))
                          (rows X)).
  { rewrite HX. cbn [rows]. rewrite Forall_map. apply Forall_forall.
    intros r0 Hr0. rewrite Forall_map.
    clear -Hidx Hcells Hr0.
    induction Hidx as [|n k' names idx' Hn _ IH]; constructor.
    - specialize (Hcells n (or_introl eq_refl)).
      unfold column_cells in Hcells. rewrite Hn in Hcells.
      rewrite forallb_forall in Hcells. apply Hcells.
      apply (in_map (fun r1 => nth k' r1 (CStr ""))). exact Hr0.
    - apply IH. intros m Hm. apply Hcells. right. exact Hm. }
  assert (Hbad : exists r', In r' (rows X) /\ In c r').
  { exists (map (fun k0 => nth k0 r (CStr "")) idx). split.
    - rewrite HX. cbn [rows].
      apply (in_map (fun r0 => map (fun k0 => nth k0 r0 (CStr "")) idx)).
      exact Hr.
    - apply in_map_iff. exists k. split; [|exact Hkin].
      apply nth_error_nth. exact Hcell. }
  destruct Hbad as (r' & Hr' & Hc').
  assert (HcX : columns X = input_names) by (rewrite HX; reflexivity).
  clear HX Hy.
  pose proof (split_default_ok X y w ltac:(congruence) ltac:(lia)) as Hsplit.
  cbn zeta in Hsplit.
  destruct (default_parts_lengths (rows X)) as (HlXte & HlXtr); [lia|].
  pose proof (default_parts_cover (rows X)) as Hcover. cbn zeta in Hcover.
  set (n := List.length (rows X)) in *.
  pose proof (proj2 (quarter_lt n) ltac:(lia)) as Hq.
  set (Xtr := frame_take (default_train_indices n) X) in *.
  set (Xte := frame_take (default_test_indices n) X) in *.
  set (ytr := take (default_train_indices n) y) in *.
  set (yte := take (default_test_indices n) y) in *.
  assert (Hscale :
    call_task T_preprocess_data
      [VFrame Xtr; VFrame Xte; VSeries ytr; VSeries yte] w =
    (Err conversion_error, w)).
  { cbn [call_task].
    destruct (has_bad_text Xtr) eqn:Htr.
    - apply preprocess_data_text_train. exact Htr.
    - assert (Hnum : finite_frame 4 Xtr).
      { unfold finite_frame. apply Forall_forall. intros r0 Hr0.
        assert (Hin : In r0 (rows X)) by (apply (take_incl _ _ _ Hr0)).
        split; [|rewrite Forall_forall in Hrows; apply Hrows; exact Hin].
        apply forallb_forall. intros c0 Hc0.
        rewrite Forall_forall in Hmixed. specialize (Hmixed r0 Hin).
        rewrite Forall_forall in Hmixed. specialize (Hmixed c0 Hc0).
        destruct (is_bad_text c0) eqn:Hb.
        - rewrite (has_bad_text_In Xtr r0 c0 Hr0 Hc0 Hb) in Htr.
          discriminate.
        - rewrite orb_false_r in Hmixed. exact Hmixed. }
      destruct (frame_to_array_finite 4 Xtr Hnum)
        as (train & Htrain & Hrect & _).
      { apply nonempty_length. unfold Xtr. cbn [rows frame_take]. lia. }
      { lia. }
      apply (preprocess_data_text_test Xtr Xte _ _ train 4);
        [exact Htrain|exact Hrect|reflexivity|].
      apply (Permutation_in _ (Permutation_sym Hcover)) in Hr'.
      apply in_app_or in Hr'. destruct Hr' as [Hte|Htr'].
      + apply (has_bad_text_In Xte r' c); assumption.
      + rewrite (has_bad_text_In Xtr r' c Htr' Hc' Hbadc) in Htr.
        discriminate. }
  clearbody Xtr Xte ytr yte.
  unfold INPUTS, OUTPUT in *.
  unfold workflow_plain, log_tasks. split.
  - flow_step Hload. flow_step Hio. flow_step Hsplit. flow_step Hscale.
    reflexivity.
  - flow_step Hload. flow_step Hio. flow_step Hsplit. flow_step Hscale.
    reflexivity.
Qed.

Lemma workflow_rejects_text_input_witness :
  run_flow (B := ref_backend) workflow (world_with iris_mistyped) =
    (Err conversion_error, world_with iris_mistyped) /\
  log_tasks (run_log (B := ref_backend) workflow (world_with iris_mistyped)) =
    [T_load_data; T_split_inputs_output; T_split_train_test;
     T_preprocess_data].
Proof.
  apply (workflow_rejects_text_input (B := ref_backend) "data/iris.csv"
           iris_mistyped (world_with iris_mistyped)
           "PetalWidthCm" 4 mistyped_row (CStr "0,2")).
  - reflexivity.
  - repeat constructor; cbn; intros H;
      repeat (destruct H as [H|H]; [discriminate H|]); exact H.
  - intros name H. cbn in H. cbn.
    repeat (destruct H as [<-|H]; [tauto|]). contradiction.
  - cbn. lia.
  - intros n H. cbn in H.
    repeat (destruct H as [<-|H]; [reflexivity|]). contradiction.
  - cbn. tauto.
  - reflexivity.
  - cbn. tauto.
  - reflexivity.
  - reflexivity.
Defined.

(** X17: the body never fails on its own.  Whenever a run ends with an
    exception, that exception is the outcome of the last unit invoked,
    every unit invoked before it succeeded, and the world is as it was
    before the run: nothing was printed and the generator was not
    touched. *)
Theorem workflow_fails_only_in_a_unit {B : Backend}
    (path : string) (w w' : World) (e : Exc) :
  run_flow (workflow_plain path) w = (Err e, w') ->
  w' = w /\
  last (outcomes (run_log (workflow_plain path) w)) (Ok VNone) = Err e /\
  forallb is_ok (removelast (outcomes (run_log (workflow_plain path) w)))
    = true.
Proof.
  intros Hrun. pose proof (run_workflow_plain_outcomes path w) as H.
  rewrite Hrun in H. exact H.
Qed.

Lemma workflow_fails_only_in_a_unit_witness :
  last (outcomes (run_log (B := ref_backend) workflow small_world))
       (Ok VNone) =
    Err (ValueError "the resulting train set will be empty") /\
  forallb is_ok
    (removelast (outcomes (run_log (B := ref_backend) workflow small_world)))
    = true.
Proof.
  destruct (workflow_fails_only_in_a_unit (B := ref_backend) "data/iris.csv"
              small_world small_world
              (ValueError "the resulting train set will be empty"))
    as (_ & Hlast & Hok).
  - vm_compute. reflexivity.
  - split; assumption.
Defined.
